(** * somalia-ex-rate: rate resolution, provider failover and historical cache

    A shallow embedding of the TypeScript modules

      - [types.ts], [cache.ts], [utils.ts]
      - [index.ts]                    ([getRates], [getRate], [convert])
      - [providers/manager.ts]        ([ProviderManager])
      - [providers/exchangeratehost.ts], [providers/fixer.ts],
        [providers/currencyapi.ts]    (what the manager reads of a provider)
      - [historical.ts]               ([HistoricalRateService])

    followed by the properties of them that the specification states.

    Conventions of the embedding.

      - A JavaScript [number] that carries a rate or an amount is a value of
        a type [num] with the operations of the class [Number].  Two
        instances are given: IEEE-754 binary64 ([float], what the program
        runs on) and the real numbers (exact arithmetic, for statements
        about the algebra of the formulas).
      - Millisecond clocks, time-outs, retry counts and priorities are
        integers.
      - A JavaScript object used as a dictionary is a [gmap] with string
        keys; a missing key reads as [undefined], which turns into [NaN] in
        arithmetic.
      - A promise that rejects is a [Throw]; [try]/[catch] is a [match].
      - Network, file system and clock are explicit: providers answer from a
        script, files and the in-process cache live in a [World] that is
        threaded through the calls, and every provider call is appended to
        the world's log.
      - A [Date] is the calendar day it denotes in UTC; the time zone of the
        host is taken to have a constant offset, so that [setDate] moves a
        [Date] by whole days of UTC as well. *)

From Stdlib Require Import ZArith Lia Ascii String List Sorted Permutation.
From Stdlib Require Import Floats Reals Lra.
From stdpp Require Import gmap strings list pretty.

Set Warnings "-inexact-float".

(** ** Numbers *)

Class Number (num : Type) : Type := {
  ofZ   : Z -> num;
  NaN   : num;
  nadd  : num -> num -> num;
  nsub  : num -> num -> num;
  nmul  : num -> num -> num;
  ndiv  : num -> num -> num;
  nsqrt : num -> num
}.

Declare Scope num_scope.
Delimit Scope num_scope with num.
Infix "+" := nadd : num_scope.
Infix "-" := nsub : num_scope.
Infix "*" := nmul : num_scope.
Infix "/" := ndiv : num_scope.

(** Integers of the sizes that occur (list lengths, small literals) are
    represented exactly in binary64. *)
Definition float_ofZ (z : Z) : float :=
  match z with
  | Z0 => PrimFloat.zero
  | Zpos _ => PrimFloat.of_uint63 (Uint63.of_Z z)
  | Zneg p => PrimFloat.opp (PrimFloat.of_uint63 (Uint63.of_Z (Zpos p)))
  end.

#[export] Instance Float64 : Number float := {|
  ofZ := float_ofZ;
  NaN := PrimFloat.nan;
  nadd := PrimFloat.add;
  nsub := PrimFloat.sub;
  nmul := PrimFloat.mul;
  ndiv := PrimFloat.div;
  nsqrt := PrimFloat.sqrt
|}.

(** Exact arithmetic.  There is no [NaN] among the reals; statements over
    this instance only read keys that are present. *)
#[export] Instance Exact : Number R := {|
  ofZ := IZR;
  NaN := 0%R;
  nadd := Rplus;
  nsub := Rminus;
  nmul := Rmult;
  ndiv := Rdiv;
  nsqrt := sqrt
|}.

(** ** types.ts *)

(** [RateTable]: currency code to "1 SOS in that currency". *)
Abbreviation RateTable num := (gmap string num).

(** [table[currency]]: a missing key reads as [undefined]. *)
Definition rateOf {num : Type} `{Number num} (table : RateTable num) (currency : string) : num :=
  match table !! currency with
  | Some rate => rate
  | None => NaN
  end.

(** An [Error] is identified with its [message]. *)
Definition Error : Type := string.

Inductive Result (A : Type) : Type :=
| Ok (value : A)
| Throw (error : Error).
Arguments Ok {A} value.
Arguments Throw {A} error.

(** What a provider call does: it settles after [latency] milliseconds,
    either resolving with a table or rejecting. *)
Record Response (num : Type) : Type := {
  latency : Z;
  settled : Result (RateTable num)
}.
Arguments latency {num} _.
Arguments settled {num} _.

(** [interface Provider].  The HTTP exchange behind a provider is a script:
    [fetchRatesSOS k] is the answer to the call that has [k] earlier calls
    on the same provider object before it within the operation at hand, and
    [fetchHistoricalRates] answers by date.  An absent optional member is
    [None]. *)
Module Provider.
Record t (num : Type) : Type := {
  name : string;
  priority : option Z;
  timeout : option Z;
  fetchRatesSOS : nat -> Response num;
  fetchHistoricalRates : option (string -> Response num)
}.
Arguments name {num} _.
Arguments priority {num} _.
Arguments timeout {num} _.
Arguments fetchRatesSOS {num} _ _.
Arguments fetchHistoricalRates {num} _.
End Provider.

(** What the program does to the outside, in order. *)
Inductive Event : Type :=
| EvFetch (provider : string)
| EvFetchHistorical (provider : string) (date : string)
| EvSleep (ms : Z).

(** ** providers/exchangeratehost.ts, fixer.ts, currencyapi.ts *)

(** [class ExchangerateHostProvider]: a [name] and [fetchRatesSOS] only. *)
Definition ExchangerateHostProvider {num : Type} (api : nat -> Response num)
  : Provider.t num :=
  {| Provider.name := "exchangerate.host";
     Provider.priority := None;
     Provider.timeout := None;
     Provider.fetchRatesSOS := api;
     Provider.fetchHistoricalRates := None |}.

(** [class FixerProvider]. *)
Definition FixerProvider {num : Type} (api : nat -> Response num)
    (historicalApi : string -> Response num) : Provider.t num :=
  {| Provider.name := "fixer.io";
     Provider.priority := Some 2%Z;
     Provider.timeout := Some 5000%Z;
     Provider.fetchRatesSOS := api;
     Provider.fetchHistoricalRates := Some historicalApi |}.

(** [class CurrencyAPIProvider]. *)
Definition CurrencyAPIProvider {num : Type} (api : nat -> Response num)
    (historicalApi : string -> Response num) : Provider.t num :=
  {| Provider.name := "currencyapi.com";
     Provider.priority := Some 3%Z;
     Provider.timeout := Some 5000%Z;
     Provider.fetchRatesSOS := api;
     Provider.fetchHistoricalRates := Some historicalApi |}.

(** ** providers/manager.ts *)

(** [Array.prototype.sort] is stable; with a comparator that orders by a
    key its result is the stable insertion sort. *)
Fixpoint insertBy {A : Type} (compareFn : A -> A -> Z) (x : A) (l : list A) : list A :=
  match l with
  | [] => [x]
  | y :: l' =>
      if (compareFn x y <=? 0)%Z then x :: y :: l'
      else y :: insertBy compareFn x l'
  end.

Definition sort {A : Type} (compareFn : A -> A -> Z) (l : list A) : list A :=
  foldr (insertBy compareFn) [] l.

Module ProviderManager.

Record ProviderConfig (num : Type) : Type := {
  primary : Provider.t num;
  fallbacks : list (Provider.t num);
  timeout : Z;
  maxRetries : nat
}.
Arguments primary {num} _.
Arguments fallbacks {num} _.
Arguments timeout {num} _.
Arguments maxRetries {num} _.

(** The constructor's defaults, [new ProviderManager()]. *)
Definition defaultConfig {num : Type} (api : nat -> Response num) : ProviderConfig num :=
  {| primary := ExchangerateHostProvider api;
     fallbacks := [];
     timeout := 10000;
     maxRetries := 3 |}.

Section Manager.
Context {num : Type}.

(** [lastError?.message] inside a template string. *)
Definition lastMessage (lastError : option Error) : string :=
  match lastError with
  | Some message => message
  | None => "undefined"
  end.

(** [fetchWithTimeout]: the provider call races a timer of [timeout]
    milliseconds; [k] is the number of earlier calls on [provider]. *)
Definition fetchWithTimeout (provider : Provider.t num) (timeout : Z) (k : nat)
  : Result (RateTable num) :=
  let response := Provider.fetchRatesSOS provider k in
  if (latency response <? timeout)%Z then settled response
  else Throw ("Provider " +:+ Provider.name provider +:+ " timed out after "
                +:+ pretty timeout +:+ "ms").

(** The inner [for] loop of [fetchRates] on one provider: [remaining]
    iterations are left and the next one is number [attempt].  The
    result is the table of the first attempt that succeeds, or else
    [lastError] as the loop leaves it. *)
Fixpoint attempts (config : ProviderConfig num) (provider : Provider.t num)
    (remaining attempt : nat) (lastError : option Error)
  : (RateTable num + option Error) * list Event :=
  match remaining with
  | O => (inr lastError, [])
  | S remaining' =>
      match fetchWithTimeout provider (timeout config) (attempt - 1) with
      | Ok rates => (inl rates, [EvFetch (Provider.name provider)])
      | Throw error =>
          let backoff :=
            if attempt <? maxRetries config
            then [EvSleep (2 ^ (Z.of_nat attempt - 1) * 1000)]
            else [] in
          let '(r, events) :=
            attempts config provider remaining' (S attempt) (Some error) in
          (r, EvFetch (Provider.name provider) :: backoff ++ events)
      end
  end.

(** The outer loop of [fetchRates] over the provider list. *)
Fixpoint fetchRatesFrom (config : ProviderConfig num)
    (providers : list (Provider.t num)) (lastError : option Error)
  : Result (RateTable num) * list Event :=
  match providers with
  | [] => (Throw ("All providers failed. Last error: " +:+ lastMessage lastError), [])
  | provider :: rest =>
      match attempts config provider (maxRetries config) 1 lastError with
      | (inl rates, events) => (Ok rates, events)
      | (inr lastError', events) =>
          let '(r, events') := fetchRatesFrom config rest lastError' in
          (r, events ++ events')
      end
  end.

Definition fetchRates (config : ProviderConfig num)
  : Result (RateTable num) * list Event :=
  fetchRatesFrom config (primary config :: fallbacks config) None.

(** [p => p.fetchHistoricalRates] as a filter predicate. *)
Definition hasHistorical (provider : Provider.t num) : bool :=
  match Provider.fetchHistoricalRates provider with
  | Some _ => true
  | None => false
  end.

(** The loop of [fetchHistoricalRates]: one call per provider, no retry. *)
Fixpoint fetchHistoricalFrom (providers : list (Provider.t num)) (date : string)
    (lastError : option Error)
  : Result (RateTable num) * list Event :=
  match providers with
  | [] => (Throw ("All providers failed for historical data. Last error: "
                    +:+ lastMessage lastError), [])
  | provider :: rest =>
      match Provider.fetchHistoricalRates provider with
      | Some fetch =>
          match settled (fetch date) with
          | Ok rates => (Ok rates, [EvFetchHistorical (Provider.name provider) date])
          | Throw error =>
              let '(r, events) := fetchHistoricalFrom rest date (Some error) in
              (r, EvFetchHistorical (Provider.name provider) date :: events)
          end
      | None => fetchHistoricalFrom rest date lastError
      end
  end.

Definition fetchHistoricalRates (config : ProviderConfig num) (date : string)
  : Result (RateTable num) * list Event :=
  fetchHistoricalFrom
    (List.filter hasHistorical (primary config :: fallbacks config)) date None.

(** [a.priority || 999]: an absent priority and the priority [0] are falsy. *)
Definition priorityOr999 (provider : Provider.t num) : Z :=
  match Provider.priority provider with
  | Some 0%Z => 999
  | Some p => p
  | None => 999
  end.

(** The comparator handed to [sort] in [addFallbackProvider]. *)
Definition byPriority (a b : Provider.t num) : Z :=
  (priorityOr999 a - priorityOr999 b)%Z.

(** [addFallbackProvider]: push, then sort the fallback list in place. *)
Definition addFallbackProvider (provider : Provider.t num) (config : ProviderConfig num)
  : ProviderConfig num :=
  {| primary := primary config;
     fallbacks := sort byPriority (fallbacks config ++ [provider]);
     timeout := timeout config;
     maxRetries := maxRetries config |}.

Definition setPrimaryProvider (provider : Provider.t num) (config : ProviderConfig num)
  : ProviderConfig num :=
  {| primary := provider;
     fallbacks := fallbacks config;
     timeout := timeout config;
     maxRetries := maxRetries config |}.

End Manager.

End ProviderManager.

(** ** Calendar dates

    The [Date] objects of [historical.ts] only ever pass through
    [new Date(isoDate)], [setDate(getDate() + n)], a comparison and
    [toISOString().split('T')[0]].  They are modelled by their UTC calendar
    fields in the proleptic Gregorian calendar.  [setDate] works on the
    fields of local time; in a time zone of constant offset it moves the
    UTC fields by the same number of days, which is what is modelled. *)

Module Calendar.

Record Date : Type := {
  year : Z;
  month : Z;
  day : Z
}.

Definition isLeapYear (y : Z) : bool :=
  ((y mod 4 =? 0) && (negb (y mod 100 =? 0) || (y mod 400 =? 0)))%Z.

Definition daysInMonth (y m : Z) : Z :=
  if (m =? 2)%Z then (if isLeapYear y then 29 else 28)%Z
  else if ((m =? 4) || (m =? 6) || (m =? 9) || (m =? 11))%Z then 30%Z
  else 31%Z.


(** [d.setDate(d.getDate() + 1)]. *)
Definition nextDay (d : Date) : Date :=
  if (day d <? daysInMonth (year d) (month d))%Z
  then {| year := year d; month := month d; day := day d + 1 |}
  else if (month d <? 12)%Z
  then {| year := year d; month := month d + 1; day := 1 |}
  else {| year := year d + 1; month := 1; day := 1 |}.

(** [d.setDate(d.getDate() - 1)]. *)
Definition previousDay (d : Date) : Date :=
  if (1 <? day d)%Z
  then {| year := year d; month := month d; day := day d - 1 |}
  else if (1 <? month d)%Z
  then {| year := year d; month := month d - 1;
          day := daysInMonth (year d) (month d - 1) |}
  else {| year := year d - 1; month := 12; day := 31 |}.

(** [d.setDate(d.getDate() + n)] for an integer [n] of either sign. *)
Definition addDays (n : Z) (d : Date) : Date :=
  match n with
  | Z0 => d
  | Zpos p => Nat.iter (Pos.to_nat p) nextDay d
  | Zneg p => Nat.iter (Pos.to_nat p) previousDay d
  end.

(** The order of the time values: [a < b] and [a <= b] on [Date]s. *)
Definition ltb (a b : Date) : bool :=
  ((year a <? year b)
   || ((year a =? year b)
       && ((month a <? month b)
           || ((month a =? month b) && (day a <? day b)))))%Z.

Definition leb (a b : Date) : bool := negb (ltb b a).

(** Strictly monotone in the calendar order of valid dates; bounds the
    number of iterations of a day-by-day loop. *)
Definition ordinal (d : Date) : Z :=
  ((year d * 12 + (month d - 1)) * 31 + (day d - 1))%Z.

(** The day of a time value, in milliseconds since the epoch:
    [Day(t) = floor(t / msPerDay)], counted from the 1st of January 1970. *)
Definition msPerDay : Z := 86400000.

Definition epoch : Date := {| year := 1970; month := 1; day := 1 |}.

Definition dayOfTime (t : Z) : Date := addDays (t / msPerDay) epoch.

Definition digit (n : Z) : ascii := ascii_of_nat (48 + Z.to_nat n).

(** [d.toISOString().split('T')[0]]: YYYY-MM-DD. *)
Definition toISODate (d : Date) : string :=
  String (digit (year d / 1000))
  (String (digit (year d / 100 mod 10))
  (String (digit (year d / 10 mod 10))
  (String (digit (year d mod 10))
  (String "-"
  (String (digit (month d / 10))
  (String (digit (month d mod 10))
  (String "-"
  (String (digit (day d / 10))
  (String (digit (day d mod 10)) ""))))))))).

End Calendar.

(** ** cache.ts and the outside world *)

(** [type Cached = { at: number; rates: RateTable }]; [at] is spelled
    [at_] here. *)
Record Cached (num : Type) : Type := {
  at_ : Z;
  rates : RateTable num
}.
Arguments at_ {num} _.
Arguments rates {num} _.

(** The state the program runs against: the module variable of [cache.ts],
    the JSON files (by path, as the snapshot they parse to; a missing or
    malformed file is an absent key), the historical cache file at its
    fixed path, whether the file system accepts writes, the clock
    ([Date.now()], in milliseconds), and the log of what was done to the
    outside. *)
Record World (num : Type) : Type := {
  memoryCache : option (Cached num);
  snapshotFiles : gmap string (Cached num);
  historicalFile : option (gmap string (RateTable num));
  writable : bool;
  now : Z;
  log : list Event
}.
Arguments memoryCache {num} _.
Arguments snapshotFiles {num} _.
Arguments historicalFile {num} _.
Arguments writable {num} _.
Arguments now {num} _.
Arguments log {num} _.

(** The calendar day of [new Date()]. *)
Definition today {num : Type} (w : World num) : Calendar.Date :=
  Calendar.dayOfTime (now w).
Arguments today : simpl never.

(** Asynchronous functions are state transformers over the world. *)
Definition Async (num A : Type) : Type := World num -> A * World num.

Definition ret {num A : Type} (a : A) : Async num A := fun w => (a, w).

Definition bind {num A B : Type} (m : Async num A) (k : A -> Async num B)
  : Async num B :=
  fun w => let '(a, w') := m w in k a w'.

Notation "x <- m ;; k" := (bind m (fun x => k))
  (at level 100, m at next level, right associativity).
Notation "m ;;; k" := (bind m (fun _ => k))
  (at level 100, right associativity).

Section WorldOps.
Context {num : Type}.

(** [getMemoryCache()]. *)
Definition getMemoryCache : Async num (option (Cached num)) :=
  fun w => (memoryCache w, w).

(** [setMemoryCache(c)]. *)
Definition setMemoryCache (c : Cached num) : Async num unit :=
  fun w => (tt, {| memoryCache := Some c;
                   snapshotFiles := snapshotFiles w;
                   historicalFile := historicalFile w;
                   writable := writable w;
                   now := now w;
                   log := log w |}).

(** [tryReadJSON<Cached>(p)]: [null] when the file is missing or broken. *)
Definition tryReadSnapshot (p : string) : Async num (option (Cached num)) :=
  fun w => (snapshotFiles w !! p, w).

(** [tryWriteJSON(p, c)]: a failing write is swallowed. *)
Definition tryWriteSnapshot (p : string) (c : Cached num) : Async num unit :=
  fun w => (tt, if writable w
                then {| memoryCache := memoryCache w;
                        snapshotFiles := <[p := c]> (snapshotFiles w);
                        historicalFile := historicalFile w;
                        writable := writable w;
                        now := now w;
                        log := log w |}
                else w).

(** [Date.now()]. *)
Definition dateNow : Async num Z := fun w => (now w, w).

(** Record [events] and let [elapsed] milliseconds pass. *)
Definition outside (events : list Event) (elapsed : Z) : Async num unit :=
  fun w => (tt, {| memoryCache := memoryCache w;
                   snapshotFiles := snapshotFiles w;
                   historicalFile := historicalFile w;
                   writable := writable w;
                   now := (now w + elapsed)%Z;
                   log := log w ++ events |}).

End WorldOps.

(** ** index.ts *)

Module Index.

Record GetRateOptions (num : Type) : Type := {
  provider : option (Provider.t num);
  ttlMs : option Z;
  persistPath : option string;
  offline : option bool
}.
Arguments provider {num} _.
Arguments ttlMs {num} _.
Arguments persistPath {num} _.
Arguments offline {num} _.

(** [getRates()] called without options. *)
Definition noOptions {num : Type} : GetRateOptions num :=
  {| provider := None; ttlMs := None; persistPath := None; offline := None |}.

Section Index.
Context {num : Type} `{Number num}.

(** [import seed from "./data/seed.json"]: the bundled table, a resource
    of the package. *)
Variable seed : RateTable num.

(** [os.homedir()]. *)
Variable homedir : string.

(** The network behind [new ExchangerateHostProvider()]. *)
Variable exchangerateHostApi : nat -> Response num.

(** [path.join(os.homedir(), ".sosx", "cache.json")]. *)
Definition defaultPersistPath : string := homedir +:+ "/.sosx/cache.json".

(** A string in a condition: only the empty string is falsy. *)
Definition truthy (s : string) : bool := negb (String.eqb s "").

Definition readCache (persistPath : string) : Async num (option (Cached num)) :=
  mem <- getMemoryCache ;;
  match mem with
  | Some c => ret (Some c)
  | None =>
      if truthy persistPath then tryReadSnapshot persistPath
      else ret None
  end.

Definition writeCache (c : Cached num) (persistPath : string) : Async num unit :=
  setMemoryCache c ;;;
  if truthy persistPath then tryWriteSnapshot persistPath c
  else ret tt.

(** [await provider.fetchRatesSOS()], the first call on [provider]. *)
Definition callProvider (provider : Provider.t num) : Async num (Result (RateTable num)) :=
  let response := Provider.fetchRatesSOS provider 0 in
  outside [EvFetch (Provider.name provider)] (latency response) ;;;
  ret (settled response).

(** [if (cached) return cached.rates; return seed]. *)
Definition cachedOrSeed (cached : option (Cached num)) : RateTable num :=
  match cached with
  | Some c => rates c
  | None => seed
  end.

Definition getRates (options : GetRateOptions num) : Async num (RateTable num) :=
  let provider := default (ExchangerateHostProvider exchangerateHostApi) (provider options) in
  let ttlMs := default (1000 * 60 * 60 * 6)%Z (ttlMs options) in
  let persistPath := default defaultPersistPath (persistPath options) in
  let offline := default false (offline options) in
  cached <- readCache persistPath ;;
  t <- dateNow ;;
  let fresh :=
    match cached with
    | Some c => (t - at_ c <? ttlMs)%Z
    | None => false
    end in
  match fresh, cached with
  | true, Some c => ret (rates c)
  | _, _ =>
      if offline then ret (cachedOrSeed cached)
      else
        r <- callProvider provider ;;
        match r with
        | Ok live =>
            t' <- dateNow ;;
            writeCache {| at_ := t'; rates := live |} persistPath ;;;
            ret live
        | Throw _ => ret (cachedOrSeed cached)
        end
  end.

Definition getRate (target : string) (options : GetRateOptions num) : Async num num :=
  table <- getRates options ;;
  ret (rateOf table target).

Definition convert (amount : num) (from to : string) (options : GetRateOptions num)
  : Async num num :=
  if String.eqb from to then ret amount
  else
    table <- getRates options ;;
    if String.eqb from "SOS" then ret (amount * rateOf table to)%num
    else if String.eqb to "SOS" then ret (amount * (ofZ 1 / rateOf table from))%num
    else
      let inSOS := (amount * (ofZ 1 / rateOf table from))%num in
      ret (inSOS * rateOf table to)%num.

End Index.

End Index.

(** ** historical.ts *)

Module HistoricalRateService.

(** [interface HistoricalRateOptions]; [from] and [to] are the days that
    [new Date(from)] and [new Date(to)] denote. *)
Record HistoricalRateOptions : Type := {
  from : Calendar.Date;
  to : Calendar.Date;
  currency : string;
  baseCurrency : option string
}.

(** [{ date: string; rate: number }]. *)
Record HistoryPoint (num : Type) : Type := {
  date : string;
  rate : num
}.
Arguments date {num} _.
Arguments rate {num} _.

Section Service.
Context {num : Type} `{Number num}.

(** [this.providerManager], by its configuration. *)
Variable providerManager : ProviderManager.ProviderConfig num.

(** [tryReadJSON<HistoricalCache>(this.cachePath) || {}]. *)
Definition getCachedRates : Async num (gmap string (RateTable num)) :=
  fun w => (default ∅ (historicalFile w), w).

(** [tryWriteJSON(this.cachePath, cached)]. *)
Definition tryWriteHistorical (cached : gmap string (RateTable num)) : Async num unit :=
  fun w => (tt, if writable w
                then {| memoryCache := memoryCache w;
                        snapshotFiles := snapshotFiles w;
                        historicalFile := Some cached;
                        writable := writable w;
                        now := now w;
                        log := log w |}
                else w).

(** [new Date()], as a calendar day. *)
Definition newDate : Async num Calendar.Date := fun w => (today w, w).

(** The cut-off string of [cacheRates]: ninety days before [today]. *)
Definition cutoffStr (today : Calendar.Date) : string :=
  Calendar.toISODate (Calendar.addDays (-90) today).

(** [Object.keys(cached).forEach(date => { if (date < cutoffStr) delete
    cached[date] })]; strings compare character code by character code. *)
Definition prune (cutoff : string) (cached : gmap string (RateTable num))
  : gmap string (RateTable num) :=
  filter (fun entry => String.ltb (fst entry) cutoff = false) cached.

Definition cacheRates (date : string) (rates : RateTable num) : Async num unit :=
  cached <- getCachedRates ;;
  let cached := <[date := rates]> cached in
  cutoffDate <- newDate ;;
  tryWriteHistorical (prune (cutoffStr cutoffDate) cached).

(** [await this.providerManager.fetchHistoricalRates(date)]. *)
Definition callManager (date : string) : Async num (Result (RateTable num)) :=
  let '(r, events) := ProviderManager.fetchHistoricalRates providerManager date in
  outside events 0 ;;;
  ret r.

Definition getHistoricalRates (date : string) : Async num (Result (RateTable num)) :=
  cached <- getCachedRates ;;
  match cached !! date with
  | Some table => ret (Ok table)
  | None =>
      r <- callManager date ;;
      match r with
      | Ok rates => cacheRates date rates ;;; ret (Ok rates)
      | Throw error => ret (Throw error)
      end
  end.

(** The [while (currentDate <= endDate)] loop of [getRateHistory];
    [steps] bounds the iterations. *)
Fixpoint walk (steps : nat) (currency baseCurrency : string)
    (currentDate endDate : Calendar.Date) (results : list (HistoryPoint num))
  : Async num (list (HistoryPoint num)) :=
  match steps with
  | O => ret results
  | S steps' =>
      if Calendar.leb currentDate endDate then
        let dateStr := Calendar.toISODate currentDate in
        r <- getHistoricalRates dateStr ;;
        let results' :=
          match r with
          | Ok rates =>
              let rate :=
                if String.eqb baseCurrency "SOS" then rateOf rates currency
                else (ofZ 1 / rateOf rates currency)%num in
              results ++ [{| date := dateStr; rate := rate |}]
          | Throw _ => results
          end in
        walk steps' currency baseCurrency (Calendar.nextDay currentDate) endDate results'
      else ret results
  end.

(** The loop runs once per day from [from] to [to]; the ordinals of the two
    days bound that number. *)
Definition daysToWalk (startDate endDate : Calendar.Date) : nat :=
  Z.to_nat (Calendar.ordinal endDate - Calendar.ordinal startDate + 1).

Definition getRateHistory (options : HistoricalRateOptions)
  : Async num (list (HistoryPoint num)) :=
  let baseCurrency := default "SOS" (baseCurrency options) in
  let startDate := from options in
  let endDate := to options in
  walk (daysToWalk startDate endDate) (currency options) baseCurrency
       startDate endDate [].

(** The loop over [history] that collects the daily returns. *)
Fixpoint dailyReturns (history : list (HistoryPoint num)) : list num :=
  match history with
  | previous :: (current :: _) as rest =>
      ((rate current - rate previous) / rate previous)%num :: dailyReturns rest
  | _ => []
  end.

(** The statistic of [getVolatility] on a history; [Math.pow(x, 2)] is
    taken as [x * x]. *)
Definition volatilityOf (history : list (HistoryPoint num)) : num :=
  if length history <? 2 then ofZ 0
  else
    let returns := dailyReturns history in
    let mean :=
      (fold_left (fun sum ret => sum + ret) returns (ofZ 0)
       / ofZ (Z.of_nat (length returns)))%num in
    let variance :=
      (fold_left (fun sum ret => sum + (ret - mean) * (ret - mean)) returns (ofZ 0)
       / ofZ (Z.of_nat (length returns)))%num in
    (nsqrt variance * nsqrt (ofZ 365))%num.

(** [getVolatility(currency, period)]; [days] is the integer that
    [parseInt(period.replace('d', ''))] yields. *)
Definition getVolatility (currency : string) (days : Z) : Async num num :=
  endDate <- newDate ;;
  startDate <- newDate ;;
  let startDate := Calendar.addDays (- days) startDate in
  history <- getRateHistory {| from := startDate; to := endDate;
                               currency := currency; baseCurrency := None |} ;;
  ret (volatilityOf history).

End Service.

End HistoricalRateService.

(** ** Vocabulary of the statements *)

Definition errorOf {A : Type} (r : Result A) : option Error :=
  match r with
  | Ok _ => None
  | Throw e => Some e
  end.

Section ManagerVocabulary.
Context {num : Type}.
Import ProviderManager.

(** The back-off after failed attempt number [attempt], in milliseconds. *)
Definition backoffMs (attempt : nat) : Z := (2 ^ (Z.of_nat attempt - 1) * 1000)%Z.

(** Attempt number [attempt] on [p] fails: the call rejects or the timer
    wins. *)
Definition failsAt (config : ProviderConfig num) (p : Provider.t num) (attempt : nat) : Prop :=
  exists e, fetchWithTimeout p (timeout config) (attempt - 1) = Throw e.

Definition succeedsAt (config : ProviderConfig num) (p : Provider.t num) (attempt : nat)
    (table : RateTable num) : Prop :=
  fetchWithTimeout p (timeout config) (attempt - 1) = Ok table.

(** [p] fails on every attempt it is given. *)
Definition exhausts (config : ProviderConfig num) (p : Provider.t num) : Prop :=
  forall attempt, 1 <= attempt <= maxRetries config -> failsAt config p attempt.

(** What a failed attempt leaves in the log: the call, and the back-off
    unless it was the last attempt on the provider. *)
Definition failedAttempt (config : ProviderConfig num) (p : Provider.t num) (attempt : nat)
  : list Event :=
  EvFetch (Provider.name p)
  :: (if attempt <? maxRetries config then [EvSleep (backoffMs attempt)] else []).

(** The log of a provider that uses up all its attempts. *)
Definition exhaustedLog (config : ProviderConfig num) (p : Provider.t num) : list Event :=
  flat_map (failedAttempt config p) (seq 1 (maxRetries config)).

(** The log of a provider that succeeds on attempt [n] after [n - 1]
    failures. *)
Definition successLog (config : ProviderConfig num) (p : Provider.t num) (n : nat)
  : list Event :=
  flat_map (failedAttempt config p) (seq 1 (n - 1)) ++ [EvFetch (Provider.name p)].

Definition isSleep (e : Event) : bool :=
  match e with
  | EvSleep _ => true
  | _ => false
  end.

End ManagerVocabulary.

(** ** Concrete scenarios *)

Module Scenario.

(** The table [{SOS: 1, USD: 0.002}]. *)
Definition twoRates : RateTable float :=
  {[ "SOS" := 1%float; "USD" := 0.002%float ]}.

(** A stand-in for the bundled table of [src/data/seed.json], with the
    rates that the tests of [index.ts] use. *)
Definition seed : RateTable float :=
  {[ "SOS" := 1%float; "USD" := 0.00175%float; "EUR" := 0.0016%float;
     "GBP" := 0.00135%float; "KES" := 0.225%float; "ETB" := 0.102%float;
     "AED" := 0.0064%float; "SAR" := 0.0066%float; "TRY" := 0.056%float;
     "CNY" := 0.012%float ]}.

Definition rejects (message : string) : Response float :=
  {| latency := 40; settled := Throw message |}.

Definition resolves (table : RateTable float) : Response float :=
  {| latency := 40; settled := Ok table |}.

(** A provider with current rates only, answering from a script. *)
Definition scripted (name : string) (priority : option Z)
    (script : nat -> Response float) : Provider.t float :=
  {| Provider.name := name;
     Provider.priority := priority;
     Provider.timeout := None;
     Provider.fetchRatesSOS := script;
     Provider.fetchHistoricalRates := None |}.

(** P1 always fails; P2 returns [{SOS: 1, USD: 0.002}]. *)
Definition P1 : Provider.t float := scripted "P1" (Some 1%Z) (fun _ => rejects "P1 is down").
Definition P2 : Provider.t float := scripted "P2" (Some 2%Z) (fun _ => resolves twoRates).

(** [new ProviderManager({ primary: P1, fallbacks: [P2], maxRetries: 2 })]. *)
Definition chain : ProviderManager.ProviderConfig float :=
  {| ProviderManager.primary := P1;
     ProviderManager.fallbacks := [P2];
     ProviderManager.timeout := 10000;
     ProviderManager.maxRetries := 2 |}.

(** A provider that fails twice and then answers. *)
Definition flaky : Provider.t float :=
  scripted "flaky" None
    (fun k => if k <? 2 then rejects "HTTP 503" else resolves twoRates).

(** A provider that never settles in time. *)
Definition slow : Provider.t float :=
  scripted "slow" None (fun _ => {| latency := 60000; settled := Ok twoRates |}).

(** A world with nothing cached, on the 14th of November 2023. *)
Definition cold : World float :=
  {| memoryCache := None;
     snapshotFiles := ∅;
     historicalFile := None;
     writable := true;
     now := 1700000000000;
     log := [] |}.

Definition offlineApi : nat -> Response float := fun _ => rejects "fetch failed".

End Scenario.

Section IndexVocabulary.
Context {num : Type}.

(** What [readCache] finds in a world: the in-process snapshot if there is
    one, else the one persisted at [persistPath]. *)
Definition cachedSnapshot (persistPath : string) (w : World num) : option (Cached num) :=
  match memoryCache w with
  | Some c => Some c
  | None => if Index.truthy persistPath then snapshotFiles w !! persistPath else None
  end.

(** [now - capturedAt < ttl]. *)
Definition isFresh (w : World num) (c : Cached num) (ttlMs : Z) : Prop :=
  (now w - at_ c < ttlMs)%Z.

(** The world after a provider call that took [elapsed] milliseconds. *)
Definition afterCall (provider : string) (elapsed : Z) (w : World num) : World num :=
  {| memoryCache := memoryCache w;
     snapshotFiles := snapshotFiles w;
     historicalFile := historicalFile w;
     writable := writable w;
     now := (now w + elapsed)%Z;
     log := log w ++ [EvFetch provider] |}.

(** The world after [snapshot] was written to the cache. *)
Definition afterWrite (persistPath : string) (snapshot : Cached num) (w : World num)
  : World num :=
  {| memoryCache := Some snapshot;
     snapshotFiles :=
       if Index.truthy persistPath && writable w
       then <[persistPath := snapshot]> (snapshotFiles w)
       else snapshotFiles w;
     historicalFile := historicalFile w;
     writable := writable w;
     now := now w;
     log := log w |}.

End IndexVocabulary.

Module ScenarioWorlds.

(** [getRates({ provider: P1 })]. *)
Definition withP1 : Index.GetRateOptions float :=
  {| Index.provider := Some Scenario.P1;
     Index.ttlMs := None;
     Index.persistPath := None;
     Index.offline := None |}.

(** [getRates({ provider: P2 })]. *)
Definition withP2 : Index.GetRateOptions float :=
  {| Index.provider := Some Scenario.P2;
     Index.ttlMs := None;
     Index.persistPath := None;
     Index.offline := None |}.

(** A world whose in-process cache holds a snapshot taken a second ago. *)
Definition warm : World float :=
  {| memoryCache := Some {| at_ := 1699999999000; rates := Scenario.twoRates |};
     snapshotFiles := ∅;
     historicalFile := None;
     writable := true;
     now := 1700000000000;
     log := [] |}.

End ScenarioWorlds.

Section ConvertVocabulary.
Context {num : Type} `{Number num}.

(** The amount that [convert] computes from the table it resolved, for
    [from] different from [to]. *)
Definition viaPivot (table : RateTable num) (amount : num) (from to : string) : num :=
  if String.eqb from "SOS" then (amount * rateOf table to)%num
  else if String.eqb to "SOS" then (amount * (ofZ 1 / rateOf table from))%num
  else ((amount * (ofZ 1 / rateOf table from)) * rateOf table to)%num.

(** The cross rate as the specification words it:
    [(amount / table[from]) * table[to]]. *)
Definition crossRateBySpec (table : RateTable num) (amount : num) (from to : string) : num :=
  ((amount / rateOf table from) * rateOf table to)%num.

(** [convert(convert(x, a, b), b, a)], the second call running in the
    world the first one leaves. *)
Definition roundTrip (seed : RateTable num) (homedir : string)
    (api : nat -> Response num) (x : num) (a b : string)
    (options : Index.GetRateOptions num) : Async num num :=
  y <- Index.convert seed homedir api x a b options ;;
  Index.convert seed homedir api y b a options.

End ConvertVocabulary.

(** [y] equals [x] within a relative error of [1e-6], in binary64. *)
Definition closeTo (x y : float) : bool :=
  PrimFloat.leb (PrimFloat.abs (y - x)) (1e-6 * PrimFloat.abs x).

Module ConvertScenario.

(** A world whose in-process cache holds the seed rates, a second old. *)
Definition seeded : World float :=
  {| memoryCache := Some {| at_ := 1699999999000; rates := Scenario.seed |};
     snapshotFiles := ∅;
     historicalFile := None;
     writable := true;
     now := 1700000000000;
     log := [] |}.

(** [convert(amount, from, to)] without options, in a given world. *)
Definition convert (amount : float) (from to : string) : Async float float :=
  Index.convert Scenario.seed "/home/sosx" Scenario.offlineApi amount from to
    Index.noOptions.

(** [convert(convert(x, a, b), b, a)] without options. *)
Definition roundTrip (x : float) (a b : string) : Async float float :=
  roundTrip Scenario.seed "/home/sosx" Scenario.offlineApi x a b Index.noOptions.

End ConvertScenario.

Module ExactScenario.

(** Three of the seeded rates, as real numbers. *)
Definition seed : RateTable R :=
  {[ "SOS" := 1%R; "USD" := (175 / 100000)%R; "EUR" := (16 / 10000)%R ]}.

(** [{ offline: true }]. *)
Definition offline : Index.GetRateOptions R :=
  {| Index.provider := None;
     Index.ttlMs := None;
     Index.persistPath := None;
     Index.offline := Some true |}.

Definition noApi : nat -> Response R :=
  fun _ => {| latency := 40; settled := Throw "fetch failed" |}.

Definition cold : World R :=
  {| memoryCache := None;
     snapshotFiles := ∅;
     historicalFile := None;
     writable := true;
     now := 1700000000000;
     log := [] |}.

End ExactScenario.

Section PriorityVocabulary.
Context {num : Type}.







End PriorityVocabulary.

Module PriorityScenario.



(** [new ProviderManager()] with the network down. *)
Definition manager : ProviderManager.ProviderConfig float :=
  ProviderManager.defaultConfig Scenario.offlineApi.

End PriorityScenario.

Section HistoryVocabulary.
Context {num : Type} `{Number num}.

(** A day that exists, in any year. *)
Definition wellFormed (d : Calendar.Date) : Prop :=
  (1 <= Calendar.month d <= 12
   /\ 1 <= Calendar.day d <= Calendar.daysInMonth (Calendar.year d) (Calendar.month d))%Z.

(** [getHistoricalRates] called once for each of [days], in the order of
    the list, each call running in the world that the one before leaves;
    the answers are collected whether the call succeeded or threw. *)
Fixpoint forEachDay (providerManager : ProviderManager.ProviderConfig num)
    (days : list Calendar.Date)
  : Async num (list (Calendar.Date * Result (RateTable num))) :=
  match days with
  | [] => ret []
  | d :: rest =>
      r <- HistoricalRateService.getHistoricalRates providerManager
             (Calendar.toISODate d) ;;
      answers <- forEachDay providerManager rest ;;
      ret ((d, r) :: answers)
  end.

(** What a day contributes to the history: a point with the rate of
    [currency] (inverted for a base other than the pivot) if its table was
    obtained, nothing if its fetch failed. *)
Definition pointOf (currency baseCurrency : string)
    (answer : Calendar.Date * Result (RateTable num))
  : list (HistoricalRateService.HistoryPoint num) :=
  match snd answer with
  | Ok table =>
      [{| HistoricalRateService.date := Calendar.toISODate (fst answer);
          HistoricalRateService.rate :=
            if String.eqb baseCurrency "SOS" then rateOf table currency
            else (ofZ 1 / rateOf table currency)%num |}]
  | Throw _ => []
  end.


End HistoryVocabulary.

(** [days] lists the days from [from] to [to], both included, each once
    and in ascending order. *)
Definition inclusiveRange (from to : Calendar.Date) (days : list Calendar.Date) : Prop :=
  (forall d, In d days
             <-> wellFormed d /\ Calendar.leb from d = true /\ Calendar.leb d to = true)
  /\ StronglySorted (fun a b => Calendar.ltb a b = true) days.


Module HistoryScenario.

(** A table with one rate. *)
Definition usd (rate : float) : RateTable float := {[ "SOS" := 1%float; "USD" := rate ]}.

(** A historical provider that has no data for the 29th of February 2024
    and answers for every other day. *)
Definition archive : Provider.t float :=
  {| Provider.name := "archive";
     Provider.priority := Some 1%Z;
     Provider.timeout := None;
     Provider.fetchRatesSOS := fun _ => Scenario.rejects "not implemented";
     Provider.fetchHistoricalRates :=
       Some (fun date =>
               if String.eqb date "2024-02-29" then Scenario.rejects "HTTP 404"
               else Scenario.resolves (usd 0.002)) |}.

Definition manager : ProviderManager.ProviderConfig float :=
  {| ProviderManager.primary := archive;
     ProviderManager.fallbacks := [];
     ProviderManager.timeout := 10000;
     ProviderManager.maxRetries := 3 |}.

Definition day (y m d : Z) : Calendar.Date :=
  {| Calendar.year := y; Calendar.month := m; Calendar.day := d |}.

(** Noon of the 2nd of March 2024; the historical cache file holds the 28th of
    February and a day of the year before. *)
Definition march : World float :=
  {| memoryCache := None;
     snapshotFiles := ∅;
     historicalFile :=
       Some {[ "2024-02-28" := usd 0.0019; "2023-06-01" := usd 0.0018 ]};
     writable := true;
     now := 1709380800000;
     log := [] |}.


End HistoryScenario.

Module PruneScenario.


End PruneScenario.

Section StatisticsVocabulary.
Context {num : Type} `{Number num}.

(** The sum of a list, added up from the left. *)
Definition total (l : list num) : num := fold_left nadd l (ofZ 0).

Definition count (l : list num) : num := ofZ (Z.of_nat (length l)).

Definition mean (l : list num) : num := (total l / count l)%num.

Definition squaredDeviations (l : list num) : list num :=
  List.map (fun x => ((x - mean l) * (x - mean l))%num) l.

(** The standard deviation with divisor [n], the number of values. *)
Definition populationStdDev (l : list num) : num :=
  nsqrt (total (squaredDeviations l) / count l)%num.

(** The standard deviation with divisor [n - 1], which is what "sample
    standard deviation" names. *)
Definition sampleStdDev (l : list num) : num :=
  nsqrt (total (squaredDeviations l) / ofZ (Z.of_nat (length l) - 1))%num.

(** A history with the given rates on consecutive days of January 2024. *)
Fixpoint historyOf (n : Z) (rates : list num)
  : list (HistoricalRateService.HistoryPoint num) :=
  match rates with
  | [] => []
  | r :: rest =>
      {| HistoricalRateService.date :=
           Calendar.toISODate
             {| Calendar.year := 2024; Calendar.month := 1; Calendar.day := n |};
         HistoricalRateService.rate := r |}
      :: historyOf (n + 1) rest
  end.

End StatisticsVocabulary.

(** * Further modules

    More of the same program, embedded by the same conventions:

      - [historical.ts]               (the functions of the module, which
                                       share one [HistoricalRateService])
      - [utils.ts]                    ([invert])
      - [providers/exchangeratehost.ts] ([fetchRatesSOS])
      - [transfer-fees.ts]            ([calculateTransferFee],
                                       [compareTransferOptions])
      - [analysis.ts]                 ([MarketAnalyzer])

    Their properties, and further properties of the modules above, follow
    those that the specification states. *)

(** ** historical.ts: the module-level functions

    [let historicalService: HistoricalRateService] is a variable of the
    module; a service is identified with the configuration of its provider
    manager, which nothing outside the service can reach.  Each function
    takes the variable as it finds it and returns it as it leaves it. *)

Module Convenience.

Section Convenience.
Context {num : Type} `{Number num}.

(** The network behind [new ExchangerateHostProvider()]. *)
Variable exchangerateHostApi : nat -> Response num.

(** [new ProviderManager({ primary: provider })]. *)
Definition managerOf (provider : Provider.t num) : ProviderManager.ProviderConfig num :=
  {| ProviderManager.primary := provider;
     ProviderManager.fallbacks := [];
     ProviderManager.timeout := 10000;
     ProviderManager.maxRetries := 3 |}.

(** [if (!historicalService) { historicalService = new HistoricalRateService(
    provider ? new ProviderManager({ primary: provider }) : undefined) }]. *)
Definition ensureService (provider : option (Provider.t num))
    (historicalService : option (ProviderManager.ProviderConfig num))
  : ProviderManager.ProviderConfig num :=
  match historicalService with
  | Some service => service
  | None =>
      match provider with
      | Some p => managerOf p
      | None => ProviderManager.defaultConfig exchangerateHostApi
      end
  end.

Definition getHistoricalRates (date : string) (provider : option (Provider.t num))
    (historicalService : option (ProviderManager.ProviderConfig num))
  : option (ProviderManager.ProviderConfig num) * Async num (Result (RateTable num)) :=
  let service := ensureService provider historicalService in
  (Some service, HistoricalRateService.getHistoricalRates service date).

Definition getRateHistory (currency : string) (from to : Calendar.Date)
    (historicalService : option (ProviderManager.ProviderConfig num))
  : option (ProviderManager.ProviderConfig num)
    * Async num (list (HistoricalRateService.HistoryPoint num)) :=
  let service := ensureService None historicalService in
  (Some service,
   HistoricalRateService.getRateHistory service
     {| HistoricalRateService.from := from;
        HistoricalRateService.to := to;
        HistoricalRateService.currency := currency;
        HistoricalRateService.baseCurrency := None |}).

Definition getVolatility (currency : string) (days : Z)
    (historicalService : option (ProviderManager.ProviderConfig num))
  : option (ProviderManager.ProviderConfig num) * Async num num :=
  let service := ensureService None historicalService in
  (Some service, HistoricalRateService.getVolatility service currency days).

End Convenience.

End Convenience.

(** ** Comparisons of numbers

    [===], [<] and [<=] on JavaScript numbers.  In binary64 a [NaN]
    compares false with everything, itself included, and the two zeros are
    equal. *)

Class Comparisons (num : Type) : Type := {
  neqb : num -> num -> bool;
  nltb : num -> num -> bool;
  nleb : num -> num -> bool
}.

#[export] Instance Float64Comparisons : Comparisons float := {|
  neqb := PrimFloat.eqb;
  nltb := PrimFloat.ltb;
  nleb := PrimFloat.leb
|}.

#[export] Instance ExactComparisons : Comparisons R := {|
  neqb := fun x y => if Req_dec_T x y then true else false;
  nltb := fun x y => if Rlt_dec x y then true else false;
  nleb := fun x y => if Rle_dec x y then true else false
|}.

(** [!x] for a number [x]: zero and [NaN] are falsy. *)
Definition falsy {num : Type} `{Number num} `{Comparisons num} (x : num) : bool :=
  neqb x (ofZ 0) || negb (neqb x x).

(** A decimal literal, [digits / scale] with [scale] a power of ten: in
    binary64 the quotient of the two integers rounds to the double that
    the literal denotes. *)
Definition decimal {num : Type} `{Number num} (digits scale : Z) : num :=
  (ofZ digits / ofZ scale)%num.

(** ** utils.ts: [invert] *)

(** [for (const [k, v] of Object.entries(baseToOthers)) out[k] = v / sosPerBase]. *)
Definition invert {num : Type} `{Number num} (baseToOthers : gmap string num)
    (sosPerBase : num) : RateTable num :=
  (fun v => (v / sosPerBase)%num) <$> baseToOthers.

(** ** providers/exchangeratehost.ts: [fetchRatesSOS]

    What [fetch(url)] and [res.json()] give is the answer of the network:
    after [elapsed] milliseconds either the request fails, or a response
    arrives with its [ok] flag, its [status] and a body; [jsonRates] is
    the [rates] object of the body, or the error that reading it throws (a
    body that is not JSON, or that has no such object). *)

Record HttpResponse (num : Type) : Type := {
  ok : bool;
  status : Z;
  jsonRates : Result (gmap string num)
}.
Arguments ok {num} _.
Arguments status {num} _.
Arguments jsonRates {num} _.

Record Exchange (num : Type) : Type := {
  elapsed : Z;
  response : Result (HttpResponse num)
}.
Arguments elapsed {num} _.
Arguments response {num} _.

Module ExchangerateHost.

Section ExchangerateHost.
Context {num : Type} `{Number num} `{Comparisons num}.

Definition fetchRatesSOS (exchange : Exchange num) : Response num :=
  {| latency := elapsed exchange;
     settled :=
       match response exchange with
       | Throw error => Throw error
       | Ok res =>
           if negb (ok res) then Throw ("Provider error " +:+ pretty (status res))
           else
             match jsonRates res with
             | Throw error => Throw error
             | Ok usdTo =>
                 match usdTo !! "SOS" with
                 | Some sosPerUsd =>
                     if falsy sosPerUsd then Throw "Provider returned no SOS rate"
                     else Ok (invert usdTo sosPerUsd)
                 | None => Throw "Provider returned no SOS rate"
                 end
             end
       end |}.

(** [new ExchangerateHostProvider()] over a network that answers call
    number [k] with [http k]. *)
Definition provider (http : nat -> Exchange num) : Provider.t num :=
  ExchangerateHostProvider (fun k => fetchRatesSOS (http k)).

End ExchangerateHost.

End ExchangerateHost.

(** ** transfer-fees.ts

    The table [PROVIDER_FEES] is read by the keys it lists; the members that
    every JavaScript object inherits are not among the names of providers
    and methods. *)



Module TransferFees.

Record ProviderFeeStructure (num : Type) : Type := {
  fixedFee : num;
  percentageFee : num;
  exchangeRateMargin : num;
  estimatedTime : string;
  minimumFee : option num;
  maximumFee : option num
}.
Arguments fixedFee {num} _.
Arguments percentageFee {num} _.
Arguments exchangeRateMargin {num} _.
Arguments estimatedTime {num} _.
Arguments minimumFee {num} _.
Arguments maximumFee {num} _.

Record TransferFeeOptions (num : Type) : Type := {
  amount : num;
  from : string;
  to : string;
  provider : string;
  method : string
}.
Arguments amount {num} _.
Arguments from {num} _.
Arguments to {num} _.
Arguments provider {num} _.
Arguments method {num} _.

Record TransferFeeResult (num : Type) : Type := {
  fee : num;
  exchangeRate : num;
  totalCost : num;
  recipientAmount : num;
  resultProvider : string;
  resultEstimatedTime : string
}.
Arguments fee {num} _.
Arguments exchangeRate {num} _.
Arguments totalCost {num} _.
Arguments recipientAmount {num} _.
Arguments resultProvider {num} _.
Arguments resultEstimatedTime {num} _.

Section TransferFees.
Context {num : Type} `{Number num} `{Comparisons num}.

Definition structure (fixedFee percentageFee exchangeRateMargin : num)
    (estimatedTime : string) (minimumFee maximumFee : num)
  : ProviderFeeStructure num :=
  {| fixedFee := fixedFee;
     percentageFee := percentageFee;
     exchangeRateMargin := exchangeRateMargin;
     estimatedTime := estimatedTime;
     minimumFee := Some minimumFee;
     maximumFee := Some maximumFee |}.

Definition PROVIDER_FEES : gmap string (gmap string (ProviderFeeStructure num)) :=
  {[ "western-union" :=
       {[ "bank-transfer" :=
            structure (ofZ 5) (decimal 15 1000) (decimal 2 100)
              "1-3 business days" (ofZ 5) (ofZ 50);
          "cash-pickup" :=
            structure (ofZ 8) (decimal 2 100) (decimal 25 1000)
              "Within minutes" (ofZ 8) (ofZ 75);
          "mobile-money" :=
            structure (ofZ 3) (decimal 1 100) (decimal 15 1000)
              "Within minutes" (ofZ 3) (ofZ 25) ]};
     "remitly" :=
       {[ "bank-transfer" :=
            structure (decimal 399 100) (decimal 1 100) (decimal 15 1000)
              "1-2 business days" (decimal 399 100) (ofZ 30);
          "cash-pickup" :=
            structure (decimal 499 100) (decimal 15 1000) (decimal 2 100)
              "Within minutes" (decimal 499 100) (ofZ 40);
          "mobile-money" :=
            structure (decimal 199 100) (decimal 5 1000) (decimal 1 100)
              "Within minutes" (decimal 199 100) (ofZ 15) ]};
     "worldremit" :=
       {[ "bank-transfer" :=
            structure (decimal 299 100) (decimal 12 1000) (decimal 18 1000)
              "1-2 business days" (decimal 299 100) (ofZ 35);
          "cash-pickup" :=
            structure (decimal 599 100) (decimal 18 1000) (decimal 22 1000)
              "Within minutes" (decimal 599 100) (ofZ 45);
          "mobile-money" :=
            structure (decimal 249 100) (decimal 8 1000) (decimal 12 1000)
              "Within minutes" (decimal 249 100) (ofZ 20) ]};
     "wise" :=
       {[ "bank-transfer" :=
            structure (decimal 15 10) (decimal 5 1000) (decimal 5 1000)
              "1-2 business days" (decimal 15 10) (ofZ 15);
          "cash-pickup" :=
            structure (ofZ 0) (ofZ 0) (ofZ 0) "Not available" (ofZ 0) (ofZ 0);
          "mobile-money" :=
            structure (ofZ 2) (decimal 7 1000) (decimal 8 1000)
              "Within hours" (ofZ 2) (ofZ 12) ]} ]}.

Variable seed : RateTable num.
Variable homedir : string.
Variable exchangerateHostApi : nat -> Response num.

(** [if (limit && condition)] for an optional limit: an absent limit, a
    zero and a [NaN] are falsy. *)
Definition limited (limit : option num) (condition : num -> bool) : bool :=
  match limit with
  | Some l => negb (falsy l) && condition l
  | None => false
  end.

Definition calculateTransferFee (options : TransferFeeOptions num)
  : Async num (Result (TransferFeeResult num)) :=
  match PROVIDER_FEES !! provider options with
  | None => ret (Throw ("Unsupported provider: " +:+ provider options))
  | Some providerFees =>
      match providerFees !! method options with
      | None =>
          ret (Throw ("Method " +:+ method options +:+ " not available for "
                        +:+ provider options))
      | Some feeStructure =>
          if neqb (fixedFee feeStructure) (ofZ 0)
             && neqb (percentageFee feeStructure) (ofZ 0)
          then ret (Throw (method options +:+ " is not available for "
                             +:+ provider options))
          else
            midMarketRate <- Index.convert seed homedir exchangerateHostApi (ofZ 1)
                               (from options) (to options) Index.noOptions ;;
            let providerRate :=
              (midMarketRate * (ofZ 1 - exchangeRateMargin feeStructure))%num in
            let percentageFee := (amount options * percentageFee feeStructure)%num in
            let totalFee := (fixedFee feeStructure + percentageFee)%num in
            let totalFee :=
              if limited (minimumFee feeStructure) (fun minimum => nltb totalFee minimum)
              then default totalFee (minimumFee feeStructure)
              else totalFee in
            let totalFee :=
              if limited (maximumFee feeStructure) (fun maximum => nltb maximum totalFee)
              then default totalFee (maximumFee feeStructure)
              else totalFee in
            let totalCost := (amount options + totalFee)%num in
            let recipientAmount := (amount options * providerRate)%num in
            ret (Ok {| fee := totalFee;
                       exchangeRate := providerRate;
                       totalCost := totalCost;
                       recipientAmount := recipientAmount;
                       resultProvider := provider options;
                       resultEstimatedTime := estimatedTime feeStructure |})
      end
  end.



End TransferFees.

End TransferFees.

(** ** [Math.abs], [Math.min] and [Math.max]

    In binary64 [Math.min] and [Math.max] return [NaN] as soon as an
    argument is one, and take the zero of negative sign for smaller than
    the other.  With no argument [Math.min] is [Infinity] and [Math.max] is
    [-Infinity]; among the real numbers there is no such value, and
    statements over them only take the minimum or maximum of a list that
    is not empty. *)

Class MathOps (num : Type) : Type := {
  nabs : num -> num;
  nmin : num -> num -> num;
  nmax : num -> num -> num;
  posInfinity : num;
  negInfinity : num
}.

Definition float_min (x y : float) : float :=
  if PrimFloat.is_nan x || PrimFloat.is_nan y then PrimFloat.nan
  else if PrimFloat.ltb x y then x
  else if PrimFloat.ltb y x then y
  else match PrimFloat.classify x with
       | NZero => x
       | _ => y
       end.

Definition float_max (x y : float) : float :=
  if PrimFloat.is_nan x || PrimFloat.is_nan y then PrimFloat.nan
  else if PrimFloat.ltb y x then x
  else if PrimFloat.ltb x y then y
  else match PrimFloat.classify x with
       | PZero => x
       | _ => y
       end.

#[export] Instance Float64Math : MathOps float := {|
  nabs := PrimFloat.abs;
  nmin := float_min;
  nmax := float_max;
  posInfinity := PrimFloat.infinity;
  negInfinity := PrimFloat.neg_infinity
|}.

#[export] Instance ExactMath : MathOps R := {|
  nabs := Rabs;
  nmin := Rmin;
  nmax := Rmax;
  posInfinity := 0%R;
  negInfinity := 0%R
|}.

(** ** analysis.ts: [class MarketAnalyzer] *)

Module MarketAnalyzer.

Inductive Trend : Type := bullish | bearish | neutral.

Record MarketAnalysis (num : Type) : Type := {
  volatility : num;
  trend : Trend;
  support : num;
  resistance : num;
  rsi : num;
  sma : list num;
  ema : list num
}.
Arguments volatility {num} _.
Arguments trend {num} _.
Arguments support {num} _.
Arguments resistance {num} _.
Arguments rsi {num} _.
Arguments sma {num} _.
Arguments ema {num} _.

Section MarketAnalyzer.
Context {num : Type} `{Number num} `{Comparisons num} `{MathOps num}.

(** An index counted from the end, [-n], as [slice] reads it: [n] before
    the end, but the start for [n] beyond the length, and also for [n = 0],
    since [-0] is [0]. *)
Definition fromEnd {A : Type} (n : nat) (l : list A) : nat :=
  match n with
  | O => 0
  | S _ => length l - n
  end.

(** [l.slice(-n)]: the last [n] elements, all of [l] if it has fewer. *)
Definition sliceLast {A : Type} (n : nat) (l : list A) : list A :=
  skipn (fromEnd n l) l.

(** [l.slice(-a, -b)]: from [a] before the end to [b] before the end. *)
Definition sliceBetween {A : Type} (a b : nat) (l : list A) : list A :=
  firstn (fromEnd b l - fromEnd a l) (skipn (fromEnd a l) l).

(** [l.reduce((sum, x) => sum + x, 0)]. *)
Definition sum (l : list num) : num := fold_left (fun sum x => (sum + x)%num) l (ofZ 0).

(** [l.length] as a number. *)
Definition lengthOf {A : Type} (l : list A) : num := ofZ (Z.of_nat (length l)).

(** [Math.min(...l)] and [Math.max(...l)]. *)
Definition mathMin (l : list num) : num :=
  match l with
  | [] => posInfinity
  | x :: rest => fold_left nmin rest x
  end.

Definition mathMax (l : list num) : num :=
  match l with
  | [] => negInfinity
  | x :: rest => fold_left nmax rest x
  end.

Definition calculateTrend (rates : list num) : Trend :=
  if length rates <? 2 then neutral
  else
    let recentRates := sliceLast 7 rates in
    let olderRates := sliceBetween 14 7 rates in
    let recentAvg := (sum recentRates / lengthOf recentRates)%num in
    let olderAvg := (sum olderRates / lengthOf olderRates)%num in
    let change := ((recentAvg - olderAvg) / olderAvg)%num in
    if nltb (decimal 2 100) change then bullish
    else if nltb change (decimal (-2) 100) then bearish
    else neutral.

Definition calculateSupport (rates : list num) : num := mathMin (sliceLast 30 rates).

Definition calculateResistance (rates : list num) : num := mathMax (sliceLast 30 rates).

(** The loop [for (i = 1; i < rates.length; i++) changes.push(rates[i] -
    rates[i - 1])]. *)
Fixpoint changesOf (rates : list num) : list num :=
  match rates with
  | previous :: (current :: _) as rest => (current - previous)%num :: changesOf rest
  | _ => []
  end.

Definition calculateRSI (rates : list num) (period : nat) : num :=
  if length rates <? period + 1 then ofZ 50
  else
    let changes := changesOf rates in
    let recentChanges := sliceLast period changes in
    let gains := List.filter (fun change => nltb (ofZ 0) change) recentChanges in
    let losses :=
      List.map nabs (List.filter (fun change => nltb change (ofZ 0)) recentChanges) in
    let avgGain :=
      if 0 <? length gains then (sum gains / lengthOf gains)%num else ofZ 0 in
    let avgLoss :=
      if 0 <? length losses then (sum losses / lengthOf losses)%num else ofZ 0 in
    if neqb avgLoss (ofZ 0) then ofZ 100
    else
      let rs := (avgGain / avgLoss)%num in
      (ofZ 100 - ofZ 100 / (ofZ 1 + rs))%num.

(** [rates[rates.length - 1] || 0]. *)
Definition lastOrZero (rates : list num) : num :=
  match last rates with
  | Some rate => if falsy rate then ofZ 0 else rate
  | None => ofZ 0
  end.

Definition calculateSMA (rates : list num) (periods : list nat) : list num :=
  List.map
    (fun period =>
       if length rates <? period then lastOrZero rates
       else
         let recentRates := sliceLast period rates in
         (sum recentRates / lengthOf recentRates)%num)
    periods.

(** [rates[0]] reads as [undefined] on an empty array. *)
Definition calculateEMA (rates : list num) (periods : list nat) : list num :=
  List.map
    (fun period =>
       if length rates <? period then lastOrZero rates
       else
         let multiplier := (ofZ 2 / ofZ (Z.of_nat period + 1))%num in
         fold_left
           (fun ema rate => (rate * multiplier + ema * (ofZ 1 - multiplier))%num)
           (tail rates) (nth 0 rates NaN))
    periods.

(** The network behind [new ExchangerateHostProvider()]. *)
Variable exchangerateHostApi : nat -> Response num.

(** [analyzeMarket(from, to, period)]; [days] is the integer that
    [parseInt(period.replace('d', ''))] yields, and [historicalService] is
    the variable of [historical.ts], which the functions [getRateHistory]
    and [getVolatility] of that module set. *)
Definition analyzeMarket (from to : string) (days : Z)
    (historicalService : option (ProviderManager.ProviderConfig num))
  : option (ProviderManager.ProviderConfig num)
    * Async num (Result (MarketAnalysis num)) :=
  let service := Convenience.ensureService exchangerateHostApi None historicalService in
  (Some service,
   endDate <- HistoricalRateService.newDate ;;
   startDate <- HistoricalRateService.newDate ;;
   let startDate := Calendar.addDays (- days) startDate in
   history <- snd (Convenience.getRateHistory exchangerateHostApi to startDate endDate
                     historicalService) ;;
   if length history <? 14
   then ret (Throw "Insufficient data for analysis (minimum 14 days required)")
   else
     let rates := List.map HistoricalRateService.rate history in
     volatility <- snd (Convenience.getVolatility exchangerateHostApi to days
                          (Some service)) ;;
     ret (Ok {| volatility := volatility;
                trend := calculateTrend rates;
                support := calculateSupport rates;
                resistance := calculateResistance rates;
                rsi := calculateRSI rates 14;
                sma := calculateSMA rates [7; 14; 30];
                ema := calculateEMA rates [7; 14; 30] |})).

End MarketAnalyzer.

End MarketAnalyzer.

(** ** Vocabulary and scenarios of the further properties *)

Definition isFetch (e : Event) : bool :=
  match e with
  | EvFetch _ => true
  | _ => false
  end.

(** The number of provider calls in a log. *)
Definition callsIn (events : list Event) : nat := length (List.filter isFetch events).

(** The time a log spends in back-offs, in milliseconds. *)
Definition sleepIn (events : list Event) : Z :=
  fold_right (fun e total => match e with EvSleep ms => (ms + total)%Z | _ => total end)
    0%Z events.

(** The longest that one provider can be backed off for: the back-offs
    after all attempts but the last, [1 + 2 + ... + 2^(maxRetries-2)]
    seconds. *)
Definition backoffBudget (maxRetries : nat) : Z :=
  ((2 ^ Z.of_nat (maxRetries - 1) - 1) * 1000)%Z.

Section HistoricalFailoverVocabulary.
Context {num : Type}.

(** What [provider.fetchHistoricalRates(date)] settles with, for a provider
    that has the method. *)
Definition historicalAnswer (p : Provider.t num) (date : string)
  : option (Result (RateTable num)) :=
  match Provider.fetchHistoricalRates p with
  | Some fetch => Some (settled (fetch date))
  | None => None
  end.

Definition rejectsHistorical (date : string) (p : Provider.t num) : Prop :=
  exists e, historicalAnswer p date = Some (Throw e).

(** The providers that [fetchHistoricalRates] considers. *)
Definition capable (config : ProviderManager.ProviderConfig num) : list (Provider.t num) :=
  List.filter ProviderManager.hasHistorical
    (ProviderManager.primary config :: ProviderManager.fallbacks config).

Definition historicalCall (date : string) (p : Provider.t num) : Event :=
  EvFetchHistorical (Provider.name p) date.

(** The error that the last of [providers] answers with, if any. *)
Definition lastHistoricalError (date : string) (providers : list (Provider.t num))
  : option Error :=
  match last providers with
  | Some p =>
      match historicalAnswer p date with
      | Some (Throw e) => Some e
      | _ => None
      end
  | None => None
  end.

End HistoricalFailoverVocabulary.

Module EffortScenario.

(** Primary with priority 5 that is down; two fallbacks. *)
Definition down : Provider.t float :=
  Scenario.scripted "down" (Some 5%Z) (fun _ => Scenario.rejects "HTTP 500").

Definition mirror : Provider.t float :=
  Scenario.scripted "mirror" (Some 4%Z) (fun _ => Scenario.rejects "HTTP 502").

Definition quick : Provider.t float :=
  Scenario.scripted "quick" (Some 1%Z) (fun _ => Scenario.resolves Scenario.twoRates).

Definition manager : ProviderManager.ProviderConfig float :=
  {| ProviderManager.primary := down;
     ProviderManager.fallbacks := [mirror];
     ProviderManager.timeout := 10000;
     ProviderManager.maxRetries := 3 |}.

(** [maxRetries: 0]. *)
Definition noAttempts : ProviderManager.ProviderConfig float :=
  {| ProviderManager.primary := quick;
     ProviderManager.fallbacks := [Scenario.P2];
     ProviderManager.timeout := 10000;
     ProviderManager.maxRetries := 0 |}.

End EffortScenario.

Module FailoverScenario.

(** Two historical providers: the first has no data, the second answers. *)
Definition gap : Provider.t float :=
  FixerProvider (fun _ => Scenario.rejects "HTTP 500") (fun _ => Scenario.rejects "HTTP 404").

Definition backup : Provider.t float :=
  CurrencyAPIProvider (fun _ => Scenario.rejects "HTTP 500")
    (fun _ => Scenario.resolves Scenario.twoRates).

(** A manager whose primary has current rates only. *)
Definition manager : ProviderManager.ProviderConfig float :=
  {| ProviderManager.primary := Scenario.P1;
     ProviderManager.fallbacks := [gap; backup];
     ProviderManager.timeout := 10000;
     ProviderManager.maxRetries := 3 |}.

End FailoverScenario.

Section TimeVocabulary.
Context {num : Type}.

(** The world [elapsed] milliseconds later, nothing else having happened. *)
Definition later (elapsed : Z) (w : World num) : World num :=
  {| memoryCache := memoryCache w;
     snapshotFiles := snapshotFiles w;
     historicalFile := historicalFile w;
     writable := writable w;
     now := (now w + elapsed)%Z;
     log := log w |}.


(** The same world with other snapshot files on disk. *)
Definition withFiles (files : gmap string (Cached num)) (w : World num) : World num :=
  {| memoryCache := memoryCache w;
     snapshotFiles := files;
     historicalFile := historicalFile w;
     writable := writable w;
     now := now w;
     log := log w |}.

End TimeVocabulary.

Module CacheScenario.

(** [getRates({ provider: P2, persistPath: "/tmp/rates.json" })]. *)
Definition persisted : Index.GetRateOptions float :=
  {| Index.provider := Some Scenario.P2;
     Index.ttlMs := None;
     Index.persistPath := Some "/tmp/rates.json";
     Index.offline := None |}.

(** The same path with P1, which is down, and a ttl of one hour. *)
Definition other : Index.GetRateOptions float :=
  {| Index.provider := Some Scenario.P1;
     Index.ttlMs := Some 3600000%Z;
     Index.persistPath := Some "/tmp/rates.json";
     Index.offline := None |}.

(** [getRates({ provider: P1, persistPath: "" })]. *)
Definition unpersisted : Index.GetRateOptions float :=
  {| Index.provider := Some Scenario.P2;
     Index.ttlMs := None;
     Index.persistPath := Some "";
     Index.offline := None |}.

(** A snapshot of the seed rates taken a second before [Scenario.cold]. *)
Definition recent : Cached float :=
  {| at_ := 1699999999000; rates := Scenario.seed |}.

End CacheScenario.

Section ConvertChainVocabulary.
Context {num : Type} `{Number num}.

(** [convert(convert(x, a, b), b, c)], the second call running in the
    world the first one leaves. *)
Definition convertVia (seed : RateTable num) (homedir : string)
    (api : nat -> Response num) (x : num) (a b c : string)
    (options : Index.GetRateOptions num) : Async num num :=
  y <- Index.convert seed homedir api x a b options ;;
  Index.convert seed homedir api y b c options.

End ConvertChainVocabulary.

Section ArchiveVocabulary.
Context {num : Type}.

(** The world after [events] were logged, no time having passed. *)
Definition logged (events : list Event) (w : World num) : World num :=
  {| memoryCache := memoryCache w;
     snapshotFiles := snapshotFiles w;
     historicalFile := historicalFile w;
     writable := writable w;
     now := now w;
     log := log w ++ events |}.

(** The world after the historical cache file was replaced by [entries],
    if the disk takes the write. *)
Definition archived (entries : gmap string (RateTable num)) (w : World num) : World num :=
  if writable w
  then {| memoryCache := memoryCache w;
          snapshotFiles := snapshotFiles w;
          historicalFile := Some entries;
          writable := writable w;
          now := now w;
          log := log w |}
  else w.

(** The entries of the historical cache file. *)
Definition archive (w : World num) : gmap string (RateTable num) :=
  default ∅ (historicalFile w).


End ArchiveVocabulary.

Section ScalingVocabulary.
Context {num : Type} `{Number num}.

(** The same history with every rate multiplied by [k]. *)
Definition scaled (k : num) (history : list (HistoricalRateService.HistoryPoint num))
  : list (HistoricalRateService.HistoryPoint num) :=
  List.map (fun p => {| HistoricalRateService.date := HistoricalRateService.date p;
                        HistoricalRateService.rate := (k * HistoricalRateService.rate p)%num |})
    history.

End ScalingVocabulary.

Module ArchiveScenario.

(** A historical provider that answers for every day. *)
Definition complete : Provider.t float :=
  {| Provider.name := "complete";
     Provider.priority := Some 1%Z;
     Provider.timeout := None;
     Provider.fetchRatesSOS := fun _ => Scenario.rejects "not implemented";
     Provider.fetchHistoricalRates :=
       Some (fun _ => Scenario.resolves (HistoryScenario.usd 0.002)) |}.

Definition manager : ProviderManager.ProviderConfig float :=
  {| ProviderManager.primary := complete;
     ProviderManager.fallbacks := [];
     ProviderManager.timeout := 10000;
     ProviderManager.maxRetries := 3 |}.


(** The same noon with no historical cache file. *)
Definition empty : World float :=
  {| memoryCache := None;
     snapshotFiles := ∅;
     historicalFile := None;
     writable := true;
     now := 1709380800000;
     log := [] |}.

End ArchiveScenario.

Section CachedHistoryVocabulary.
Context {num : Type} `{Number num}.


End CachedHistoryVocabulary.

Module ModuleScenario.

(** [getHistoricalRates("2024-03-01", complete)] as the first use of the
    module, and as a use after [getVolatility("USD")] has been called. *)
Definition first
  : option (ProviderManager.ProviderConfig float)
    * Async float (Result (RateTable float)) :=
  Convenience.getHistoricalRates Scenario.offlineApi "2024-03-01"
    (Some ArchiveScenario.complete) None.


End ModuleScenario.

Section GrowthVocabulary.
Context {num : Type} `{Number num}.

(** Every rate of the history is [g] times the one before it. *)
Fixpoint growsBy (g : num) (history : list (HistoricalRateService.HistoryPoint num)) : Prop :=
  match history with
  | previous :: (current :: _) as rest =>
      HistoricalRateService.rate current = (g * HistoricalRateService.rate previous)%num
      /\ growsBy g rest
  | _ => True
  end.

End GrowthVocabulary.

Module UpstreamScenario.

(** A body with [rates: { USD: 1, SOS: 570, EUR: 0.92, KES: 129 }]. *)
Definition usdTo : gmap string float :=
  {[ "USD" := 1%float; "SOS" := 570%float; "EUR" := 0.92%float; "KES" := 129%float ]}.

Definition answer : Exchange float :=
  {| elapsed := 120;
     response := Ok {| ok := true; status := 200; jsonRates := Ok usdTo |} |}.

(** The same body over the real numbers. *)
Definition usdToExact : gmap string R :=
  {[ "USD" := 1%R; "SOS" := 570%R; "EUR" := (92 / 100)%R; "KES" := 129%R ]}.

Definition answerExact : Exchange R :=
  {| elapsed := 120;
     response := Ok {| ok := true; status := 200; jsonRates := Ok usdToExact |} |}.

(** [getRates({ provider: new ExchangerateHostProvider() })] over that
    network. *)
Definition live : Index.GetRateOptions R :=
  {| Index.provider := Some (ExchangerateHost.provider (fun _ => answerExact));
     Index.ttlMs := None;
     Index.persistPath := None;
     Index.offline := None |}.

End UpstreamScenario.

Section FeeVocabulary.
Context {num : Type} `{Number num} `{Comparisons num}.

(** The fee structure that the table has for a provider and a method. *)
Definition feeStructureOf (provider method : string)
  : option (TransferFees.ProviderFeeStructure num) :=
  match TransferFees.PROVIDER_FEES !! provider with
  | Some providerFees => providerFees !! method
  | None => None
  end.

(** The fee that [calculateTransferFee] arrives at for an amount: the fixed
    fee plus the percentage, raised to the minimum and then cut to the
    maximum. *)
Definition chargedFee (s : TransferFees.ProviderFeeStructure num) (amount : num) : num :=
  let totalFee :=
    (TransferFees.fixedFee s + amount * TransferFees.percentageFee s)%num in
  let totalFee :=
    if TransferFees.limited (TransferFees.minimumFee s) (fun minimum => nltb totalFee minimum)
    then default totalFee (TransferFees.minimumFee s)
    else totalFee in
  if TransferFees.limited (TransferFees.maximumFee s) (fun maximum => nltb maximum totalFee)
  then default totalFee (TransferFees.maximumFee s)
  else totalFee.


(** The provider does not offer the method: the structure that says so has
    a fixed fee and a percentage of zero. *)
Definition notOffered (s : TransferFees.ProviderFeeStructure num) : bool :=
  neqb (TransferFees.fixedFee s) (ofZ 0) && neqb (TransferFees.percentageFee s) (ofZ 0).

End FeeVocabulary.

(** A fee structure with sound limits, over the real numbers: the fixed
    fee is the minimum, the maximum is not below it, the percentage is
    positive and the margin on the rate lies between 0 and 1. *)
Definition soundLimits (s : TransferFees.ProviderFeeStructure R) (minimum maximum : R)
  : Prop :=
  TransferFees.minimumFee s = Some minimum
  /\ TransferFees.maximumFee s = Some maximum
  /\ (0 < minimum <= maximum)%R
  /\ TransferFees.fixedFee s = minimum
  /\ (0 < TransferFees.percentageFee s)%R
  /\ (0 < TransferFees.exchangeRateMargin s < 1)%R.

Module FeeScenario.

(** [{ amount, from: "USD", to: "SOS", provider: "remitly",
    method: "mobile-money" }]. *)
Definition mobileMoney (amount : R) : TransferFees.TransferFeeOptions R :=
  {| TransferFees.amount := amount;
     TransferFees.from := "USD";
     TransferFees.to := "SOS";
     TransferFees.provider := "remitly";
     TransferFees.method := "mobile-money" |}.

Definition remitly : TransferFees.TransferFeeOptions R := mobileMoney 200.


(** The first of the fee structures as binary64 literals. *)
Definition westernUnionBank : TransferFees.ProviderFeeStructure float :=
  {| TransferFees.fixedFee := 5.00%float;
     TransferFees.percentageFee := 0.015%float;
     TransferFees.exchangeRateMargin := 0.02%float;
     TransferFees.estimatedTime := "1-3 business days";
     TransferFees.minimumFee := Some 5.00%float;
     TransferFees.maximumFee := Some 50.00%float |}.

End FeeScenario.

Module AnalysisScenario.

(** Fifteen rates that rise by one, fall by one and so on, ending on a rise. *)
Definition zigzag : list float :=
  [1; 2; 1; 2; 1; 2; 1; 2; 1; 2; 1; 2; 1; 2; 3]%float.

Definition zigzagExact : list R :=
  [1; 2; 1; 2; 1; 2; 1; 2; 1; 2; 1; 2; 1; 2; 3]%R.

End AnalysisScenario.

(** * Properties *)

(** ** ProviderManager: retry, back-off and failover *)

Section ManagerFacts.
Context {num : Type}.
Import ProviderManager.

Lemma attempts_exhausted (config : ProviderConfig num) (p : Provider.t num) :
  forall remaining attempt lastError,
    attempt + remaining = S (maxRetries config) ->
    (forall a, attempt <= a <= maxRetries config -> failsAt config p a) ->
    attempts config p remaining attempt lastError
    = (inr (match remaining with
            | O => lastError
            | S _ => errorOf (fetchWithTimeout p (timeout config) (maxRetries config - 1))
            end),
       flat_map (failedAttempt config p) (seq attempt remaining)).
Proof.
  induction remaining as [|remaining IH]; intros attempt lastError Hsum Hfail.
  - reflexivity.
  - cbn [attempts seq flat_map].
    destruct (Hfail attempt ltac:(lia)) as [e He]. rewrite He.
    rewrite (IH (S attempt) (Some e)) by (try lia; intros a Ha; apply Hfail; lia).
    unfold failedAttempt at 2. unfold backoffMs. cbn [app].
    f_equal. f_equal.
    destruct remaining as [|remaining'].
    + replace (maxRetries config - 1) with (attempt - 1) by lia. now rewrite He.
    + reflexivity.
Qed.

Lemma attempts_success (config : ProviderConfig num) (p : Provider.t num)
    (n : nat) (table : RateTable num) :
  succeedsAt config p n table ->
  forall failures attempt remaining lastError,
    attempt + failures = n ->
    failures < remaining ->
    (forall a, attempt <= a < n -> failsAt config p a) ->
    attempts config p remaining attempt lastError
    = (inl table,
       flat_map (failedAttempt config p) (seq attempt failures)
         ++ [EvFetch (Provider.name p)]).
Proof.
  intros Hok.
  induction failures as [|failures IH]; intros attempt remaining lastError Hn Hlt Hfail.
  - destruct remaining as [|remaining]; [lia|].
    cbn [attempts seq flat_map app].
    replace attempt with n by lia. unfold succeedsAt in Hok. now rewrite Hok.
  - destruct remaining as [|remaining]; [lia|].
    cbn [attempts seq flat_map].
    destruct (Hfail attempt ltac:(lia)) as [e He]. rewrite He.
    rewrite (IH (S attempt) remaining (Some e))
      by (try lia; intros a Ha; apply Hfail; lia).
    unfold failedAttempt at 2, backoffMs. cbn [app].
    now rewrite <- app_assoc.
Qed.

Lemma fetchRatesFrom_exhausted (config : ProviderConfig num) :
  forall providers lastError,
    Forall (exhausts config) providers ->
    fetchRatesFrom config providers lastError
    = (Throw ("All providers failed. Last error: "
                +:+ lastMessage
                      (match maxRetries config, providers with
                       | S _, _ :: _ =>
                           errorOf (fetchWithTimeout
                                      (List.last providers (primary config))
                                      (timeout config) (maxRetries config - 1))
                       | _, _ => lastError
                       end)),
       flat_map (exhaustedLog config) providers).
Proof.
  induction providers as [|p rest IH]; intros lastError Hall.
  - cbn. now destruct (maxRetries config).
  - inversion Hall as [|? ? Hp Hrest]; subst.
    cbn [fetchRatesFrom].
    rewrite (attempts_exhausted config p (maxRetries config) 1 lastError)
      by (try lia; intros a Ha; apply Hp; lia).
    rewrite (IH _ Hrest).
    cbn [flat_map]. unfold exhaustedLog at 2.
    f_equal. f_equal. f_equal. f_equal.
    destruct (maxRetries config) as [|m]; [reflexivity|].
    destruct rest as [|q rest']; reflexivity.
Qed.

Lemma fetchRatesFrom_success (config : ProviderConfig num)
    (p : Provider.t num) (n : nat) (table : RateTable num) :
  1 <= n <= maxRetries config ->
  (forall a, 1 <= a < n -> failsAt config p a) ->
  succeedsAt config p n table ->
  forall before after lastError,
    Forall (exhausts config) before ->
    fetchRatesFrom config (before ++ p :: after) lastError
    = (Ok table, flat_map (exhaustedLog config) before ++ successLog config p n).
Proof.
  intros Hn Hfail Hok.
  induction before as [|q before IH]; intros after lastError Hall.
  - cbn [app fetchRatesFrom flat_map].
    rewrite (attempts_success config p n table Hok (n - 1) 1 (maxRetries config) lastError)
      by (try lia; intros a Ha; apply Hfail; lia).
    reflexivity.
  - inversion Hall as [|? ? Hq Hbefore]; subst.
    cbn [app fetchRatesFrom].
    rewrite (attempts_exhausted config q (maxRetries config) 1 lastError)
      by (try lia; intros a Ha; apply Hq; lia).
    rewrite (IH after _ Hbefore).
    cbn [flat_map]. unfold exhaustedLog at 2. now rewrite <- app_assoc.
Qed.

(** The back-offs in the log of a success on attempt [n]: one after each
    of the [n - 1] failures, doubling from one second. *)
Lemma successLog_sleeps (config : ProviderConfig num) (p : Provider.t num) (n : nat) :
  n <= maxRetries config ->
  List.filter isSleep (successLog config p n)
  = List.map (fun a => EvSleep (backoffMs a)) (seq 1 (n - 1)).
Proof.
  intros Hn. unfold successLog.
  rewrite List.filter_app. cbn [List.filter isSleep]. rewrite app_nil_r.
  assert (Hgen : forall len start, start + len <= maxRetries config ->
            List.filter isSleep (flat_map (failedAttempt config p) (seq start len))
            = List.map (fun a => EvSleep (backoffMs a)) (seq start len)).
  { induction len as [|len IH]; intros start Hle; [reflexivity|].
    cbn [seq flat_map List.map]. unfold failedAttempt at 1.
    destruct (Nat.ltb_spec start (maxRetries config)); [|lia].
    cbn [List.filter isSleep app]. f_equal. apply IH. lia. }
  destruct n as [|n']; [reflexivity|].
  apply Hgen. lia.
Qed.

End ManagerFacts.

Section Failover.
Context {num : Type}.
Import ProviderManager.

(** C3.  [fetchRates] walks [primary :: fallbacks] in order.  A provider
    that fails on each of its [maxRetries] attempts leaves [exhaustedLog]
    behind: a call per attempt and, after every failed attempt but the last,
    a back-off of [2^(attempt-1)] seconds.  If the providers in [before] are
    exhausted and the next one fails [n - 1] times and succeeds on attempt
    [n <= maxRetries], the table of that attempt is returned after exactly
    [n - 1] back-offs on it, and nothing of the providers in [after] is
    called.  If all providers are exhausted, the call throws, and the
    message carries that of the last error seen. *)
Theorem fetchRates_retry_backoff_failover
    (config : ProviderConfig num) (before after : list (Provider.t num))
    (p : Provider.t num) :
  primary config :: fallbacks config = before ++ p :: after ->
  Forall (exhausts config) before ->
  (forall n table,
      1 <= n <= maxRetries config ->
      (forall a, 1 <= a < n -> failsAt config p a) ->
      succeedsAt config p n table ->
      fetchRates config
      = (Ok table, flat_map (exhaustedLog config) before ++ successLog config p n)
      /\ List.filter isSleep (successLog config p n)
         = List.map (fun a => EvSleep (backoffMs a)) (seq 1 (n - 1))
      /\ length (List.filter isSleep (successLog config p n)) = n - 1)
  /\ (forall e,
        exhausts config p -> Forall (exhausts config) after ->
        1 <= maxRetries config ->
        fetchWithTimeout (List.last (fallbacks config) (primary config))
          (timeout config) (maxRetries config - 1) = Throw e ->
        fetchRates config
        = (Throw ("All providers failed. Last error: " +:+ e),
           flat_map (exhaustedLog config) (primary config :: fallbacks config))).
Proof.
  intros Hlist Hbefore. split.
  - intros n table Hn Hfail Hok. unfold fetchRates. rewrite Hlist.
    split; [|split].
    + now apply fetchRatesFrom_success.
    + apply successLog_sleeps. lia.
    + rewrite successLog_sleeps by lia. now rewrite length_map, length_seq.
  - intros e Hp Hafter Hretries Hlast. unfold fetchRates.
    rewrite fetchRatesFrom_exhausted.
    + destruct (maxRetries config) as [|m] eqn:Hm; [lia|].
      replace (List.last (primary config :: fallbacks config) (primary config))
        with (List.last (fallbacks config) (primary config))
        by (destruct (fallbacks config); reflexivity).
      now rewrite Hlast.
    + rewrite Hlist. apply Forall_app; split; [assumption|].
      now constructor.
Qed.

End Failover.

(** A flaky primary that answers on its third attempt: two back-offs of
    one and two seconds, and the fallback is never asked.  And a chain in
    which P1 rejects and the second provider runs into the timer: the call
    throws with the message of the last time-out. *)
Lemma fetchRates_retry_backoff_failover_witness :
  ProviderManager.fetchRates
    {| ProviderManager.primary := Scenario.flaky;
       ProviderManager.fallbacks := [Scenario.P2];
       ProviderManager.timeout := 10000;
       ProviderManager.maxRetries := 3 |}
  = (Ok Scenario.twoRates,
     [EvFetch "flaky"; EvSleep 1000; EvFetch "flaky"; EvSleep 2000; EvFetch "flaky"])
  /\ ProviderManager.fetchRates
       {| ProviderManager.primary := Scenario.P1;
          ProviderManager.fallbacks := [Scenario.slow];
          ProviderManager.timeout := 10000;
          ProviderManager.maxRetries := 2 |}
     = (Throw "All providers failed. Last error: Provider slow timed out after 10000ms",
        [EvFetch "P1"; EvSleep 1000; EvFetch "P1";
         EvFetch "slow"; EvSleep 1000; EvFetch "slow"]).
Proof.
  split.
  - pose (config := {| ProviderManager.primary := Scenario.flaky;
                       ProviderManager.fallbacks := [Scenario.P2];
                       ProviderManager.timeout := 10000%Z;
                       ProviderManager.maxRetries := 3 |}).
    destruct (fetchRates_retry_backoff_failover config [] [Scenario.P2] Scenario.flaky
                eq_refl (List.Forall_nil _)) as [Hsuccess _].
    destruct (Hsuccess 3 Scenario.twoRates) as [Hrun _].
    + cbn. lia.
    + intros a Ha. assert (a = 1 \/ a = 2) as [-> | ->] by lia;
        exists "HTTP 503"; reflexivity.
    + reflexivity.
    + exact Hrun.
  - pose (config := {| ProviderManager.primary := Scenario.P1;
                       ProviderManager.fallbacks := [Scenario.slow];
                       ProviderManager.timeout := 10000%Z;
                       ProviderManager.maxRetries := 2 |}).
    assert (Hslow : exhausts config Scenario.slow).
    { intros a Ha. eexists. reflexivity. }
    assert (HP1 : exhausts config Scenario.P1).
    { intros a Ha. eexists. reflexivity. }
    destruct (fetchRates_retry_backoff_failover config [Scenario.P1] [] Scenario.slow
                eq_refl (List.Forall_cons _ _ _ HP1 (List.Forall_nil _))) as [_ Hall].
    apply (Hall "Provider slow timed out after 10000ms" Hslow (List.Forall_nil _)).
    + cbn. lia.
    + reflexivity.
Defined.

(** ** index.ts: how [getRates] resolves a table *)

Section GetRates.
Context {num : Type} `{Number num}.
Variable seed : RateTable num.
Variable homedir : string.
Variable exchangerateHostApi : nat -> Response num.

Local Abbreviation getRates := (Index.getRates seed homedir exchangerateHostApi).

Lemma readCache_spec (persistPath : string) (w : World num) :
  Index.readCache persistPath w = (cachedSnapshot persistPath w, w).
Proof.
  unfold Index.readCache, cachedSnapshot, bind, getMemoryCache, tryReadSnapshot, ret.
  destruct (memoryCache w); [reflexivity|].
  destruct (Index.truthy persistPath); reflexivity.
Qed.

Lemma writeCache_spec (snapshot : Cached num) (persistPath : string) (w : World num) :
  Index.writeCache snapshot persistPath w = (tt, afterWrite persistPath snapshot w).
Proof.
  unfold Index.writeCache, afterWrite, bind, setMemoryCache, tryWriteSnapshot, ret.
  destruct (Index.truthy persistPath); cbn; [|reflexivity].
  destruct (writable w); reflexivity.
Qed.

(** The first branch of [getRates]: a fresh snapshot. *)
Lemma getRates_fresh (options : Index.GetRateOptions num) (w : World num)
    (c : Cached num) :
  cachedSnapshot (default (Index.defaultPersistPath homedir) (Index.persistPath options)) w
  = Some c ->
  isFresh w c (default 21600000%Z (Index.ttlMs options)) ->
  getRates options w = (rates c, w).
Proof.
  intros Hc Hfresh. unfold Index.getRates, bind.
  rewrite readCache_spec, Hc. unfold dateNow. unfold isFresh in Hfresh.
  change (1000 * 60 * 60 * 6)%Z with 21600000%Z.
  destruct (Z.ltb_spec (now w - at_ c) (default 21600000%Z (Index.ttlMs options)));
    [reflexivity | lia].
Qed.

(** The other branches: no snapshot, or a stale one. *)
Lemma getRates_not_fresh (options : Index.GetRateOptions num) (w : World num) :
  let provider :=
    default (ExchangerateHostProvider exchangerateHostApi) (Index.provider options) in
  let persistPath :=
    default (Index.defaultPersistPath homedir) (Index.persistPath options) in
  let cached := cachedSnapshot persistPath w in
  let response := Provider.fetchRatesSOS provider 0 in
  let called := afterCall (Provider.name provider) (latency response) w in
  (forall c, cached = Some c ->
             ~ isFresh w c (default 21600000%Z (Index.ttlMs options))) ->
  getRates options w
  = if default false (Index.offline options)
    then (Index.cachedOrSeed seed cached, w)
    else match settled response with
         | Ok live =>
             (live, afterWrite persistPath {| at_ := now called; rates := live |} called)
         | Throw _ => (Index.cachedOrSeed seed cached, called)
         end.
Proof.
  cbv zeta. intros Hstale. unfold Index.getRates, bind.
  rewrite readCache_spec. unfold dateNow.
  set (path := default (Index.defaultPersistPath homedir) (Index.persistPath options)) in *.
  assert (Hnot : (match cachedSnapshot path w with
                  | Some c =>
                      (now w - at_ c <? default (1000 * 60 * 60 * 6) (Index.ttlMs options))%Z
                  | None => false
                  end) = false).
  { destruct (cachedSnapshot path w) as [c|] eqn:Hc; [|reflexivity].
    specialize (Hstale c eq_refl). unfold isFresh in Hstale.
    change (1000 * 60 * 60 * 6)%Z with 21600000%Z.
    apply Z.ltb_ge. lia. }
  rewrite Hnot.
  destruct (default false (Index.offline options)); [reflexivity|].
  unfold Index.callProvider, bind, outside, ret.
  destruct (settled (Provider.fetchRatesSOS _ 0)) as [live|e]; [|reflexivity].
  rewrite writeCache_spec. reflexivity.
Qed.

(** Whatever the options and the world, a call of [getRates] makes at most
    one provider call, on the provider of its options. *)
Lemma getRates_calls_at_most_once (options : Index.GetRateOptions num) (w : World num) :
  let provider :=
    default (ExchangerateHostProvider exchangerateHostApi) (Index.provider options) in
  log (snd (getRates options w)) = log w
  \/ log (snd (getRates options w)) = log w ++ [EvFetch (Provider.name provider)].
Proof.
  cbv zeta.
  set (path := default (Index.defaultPersistPath homedir) (Index.persistPath options)).
  set (ttl := default 21600000%Z (Index.ttlMs options)).
  assert (Hcases : (exists c, cachedSnapshot path w = Some c /\ isFresh w c ttl)
                   \/ (forall c, cachedSnapshot path w = Some c -> ~ isFresh w c ttl)).
  { destruct (cachedSnapshot path w) as [c|]; [|right; discriminate].
    unfold isFresh. destruct (Z.lt_decidable (now w - at_ c) ttl) as [Hlt|Hge].
    - left. now exists c.
    - right. intros c' [= <-]. exact Hge. }
  destruct Hcases as [(c & Hc & Hlt) | Hnone].
  - left. now rewrite (getRates_fresh options w c Hc Hlt).
  - rewrite (getRates_not_fresh options w Hnone).
    destruct (default false (Index.offline options)); [now left|].
    right. now destruct (settled (Provider.fetchRatesSOS _ 0)).
Qed.


End GetRates.


(** ** The two-provider scenario *)

(** C2, as the code has it.  Run by the provider manager, the chain
    [P1; P2] with [maxRetries = 2] makes exactly two failed attempts on P1,
    one second apart, and returns [{SOS: 1, USD: 0.002}] from the first
    attempt on P2, with nothing after it.  [getRates] itself does not go
    through the provider manager: whatever its options, it calls the one
    provider of its options at most once. *)
Theorem provider_chain_scenario :
  ProviderManager.fetchRates Scenario.chain
  = (Ok Scenario.twoRates,
     [EvFetch "P1"; EvSleep 1000; EvFetch "P1"; EvFetch "P2"])
  /\ (forall (num : Type) (N : Number num) (seed : RateTable num) (homedir : string)
        (api : nat -> Response num) (options : Index.GetRateOptions num) (w : World num),
        let provider := default (ExchangerateHostProvider api) (Index.provider options) in
        let w' := snd (Index.getRates seed homedir api options w) in
        log w' = log w \/ log w' = log w ++ [EvFetch (Provider.name provider)]).
Proof.
  split.
  - vm_compute. reflexivity.
  - intros num N seed homedir api options w. cbv zeta.
    apply getRates_calls_at_most_once.
Qed.

(** On a cache miss [getRates] with P1 calls P1 once, never reaches P2 and
    returns the seed table, not the table of P2; given P2 instead it
    returns the table of P2 without any attempt on P1.  Neither run has
    the two failed attempts on P1 followed by the success of P2. *)
Lemma getRates_does_not_walk_the_chain :
  let '(table, w) :=
    Index.getRates Scenario.seed "/home/sosx" Scenario.offlineApi
      ScenarioWorlds.withP1 Scenario.cold in
  let '(table', w') :=
    Index.getRates Scenario.seed "/home/sosx" Scenario.offlineApi
      ScenarioWorlds.withP2 Scenario.cold in
  log w = [EvFetch "P1"]
  /\ table = Scenario.seed
  /\ table <> Scenario.twoRates
  /\ log w' = [EvFetch "P2"]
  /\ log w <> [EvFetch "P1"; EvSleep 1000; EvFetch "P1"; EvFetch "P2"]
  /\ log w' <> [EvFetch "P1"; EvSleep 1000; EvFetch "P1"; EvFetch "P2"].
Proof.
  assert (Hrun : Index.getRates Scenario.seed "/home/sosx" Scenario.offlineApi
                   ScenarioWorlds.withP1 Scenario.cold
                 = (Scenario.seed, afterCall "P1" 40 Scenario.cold))
    by (vm_compute; reflexivity).
  rewrite Hrun.
  destruct (Index.getRates Scenario.seed "/home/sosx" Scenario.offlineApi
              ScenarioWorlds.withP2 Scenario.cold) as [table' w'] eqn:Hrun'.
  assert (Hlog' : log w' = [EvFetch "P2"]).
  { change w' with (snd (table', w')). rewrite <- Hrun'. vm_compute. reflexivity. }
  split; [reflexivity|]. split; [reflexivity|]. split.
  - intros Heq. apply (f_equal (fun t => t !! "EUR")) in Heq.
    vm_compute in Heq. discriminate Heq.
  - split; [exact Hlog'|]. split; [discriminate|].
    rewrite Hlog'. discriminate.
Qed.

(** ** index.ts: [convert] *)

Section Convert.
Context {num : Type} `{Number num}.
Variable seed : RateTable num.
Variable homedir : string.
Variable exchangerateHostApi : nat -> Response num.

Local Abbreviation getRates := (Index.getRates seed homedir exchangerateHostApi).
Local Abbreviation convert := (Index.convert seed homedir exchangerateHostApi).

Lemma convert_same (amount : num) (currency : string)
    (options : Index.GetRateOptions num) (w : World num) :
  convert amount currency currency options w = (amount, w).
Proof. unfold Index.convert. now rewrite String.eqb_refl. Qed.

Lemma convert_via_pivot (amount : num) (from to : string)
    (options : Index.GetRateOptions num) (w : World num) :
  from <> to ->
  convert amount from to options w
  = (viaPivot (fst (getRates options w)) amount from to, snd (getRates options w)).
Proof.
  intros Hne. unfold Index.convert, viaPivot, bind.
  destruct (String.eqb_spec from to) as [Heq|_]; [contradiction|].
  destruct (Index.getRates seed homedir exchangerateHostApi options w) as [table w'].
  cbn [fst snd].
  destruct (String.eqb from "SOS"); [reflexivity|].
  destruct (String.eqb to "SOS"); reflexivity.
Qed.

(** C8, as the code has it.  For [from = to] the amount comes back as it
    is and the world is untouched: no cache is read, no provider called, no
    table looked at.  Otherwise the table of [getRates] is used:
    [amount * table[to]] from the pivot, [amount * (1 / table[from])] to
    the pivot, and [(amount * (1 / table[from])) * table[to]] between two
    other currencies. *)
Theorem convert_cases (amount : num) (from to : string)
    (options : Index.GetRateOptions num) (w : World num) :
  let table := fst (getRates options w) in
  let w' := snd (getRates options w) in
  (from = to -> convert amount from to options w = (amount, w))
  /\ (from <> to -> from = "SOS" ->
      convert amount from to options w = ((amount * rateOf table to)%num, w'))
  /\ (from <> to -> from <> "SOS" -> to = "SOS" ->
      convert amount from to options w
      = ((amount * (ofZ 1 / rateOf table from))%num, w'))
  /\ (from <> to -> from <> "SOS" -> to <> "SOS" ->
      convert amount from to options w
      = (((amount * (ofZ 1 / rateOf table from)) * rateOf table to)%num, w')).
Proof.
  cbv zeta. split; [|split; [|split]].
  - intros ->. apply convert_same.
  - intros Hne ->. rewrite convert_via_pivot by assumption. reflexivity.
  - intros Hne Hfrom ->. rewrite convert_via_pivot by assumption.
    unfold viaPivot. destruct (String.eqb_spec from "SOS"); [contradiction|].
    reflexivity.
  - intros Hne Hfrom Hto. rewrite convert_via_pivot by assumption.
    unfold viaPivot.
    destruct (String.eqb_spec from "SOS"); [contradiction|].
    destruct (String.eqb_spec to "SOS"); [contradiction|].
    reflexivity.
Qed.

End Convert.

(** 100 USD stay 100 USD in a world without any table; 1000 SOS are 1.75
    USD, 1 USD is [1 / 0.00175] SOS and 5 USD are a little over 160 TRY at
    the seeded rates. *)
Lemma convert_cases_witness :
  ConvertScenario.convert 100 "USD" "USD" Scenario.cold = (100%float, Scenario.cold)
  /\ ConvertScenario.convert 1000 "SOS" "USD" ConvertScenario.seeded
     = (1.75%float, ConvertScenario.seeded)
  /\ ConvertScenario.convert 1 "USD" "SOS" ConvertScenario.seeded
     = ((1 * (1 / 0.00175))%float, ConvertScenario.seeded)
  /\ ConvertScenario.convert 5 "USD" "TRY" ConvertScenario.seeded
     = (((5 * (1 / 0.00175)) * 0.056)%float, ConvertScenario.seeded).
Proof.
  unfold ConvertScenario.convert.
  split; [|split; [|split]].
  - apply (convert_cases Scenario.seed "/home/sosx" Scenario.offlineApi
             100%float "USD" "USD" Index.noOptions Scenario.cold).
    reflexivity.
  - etransitivity.
    + apply (proj1 (proj2 (convert_cases Scenario.seed "/home/sosx" Scenario.offlineApi
               1000%float "SOS" "USD" Index.noOptions ConvertScenario.seeded)));
        [discriminate | reflexivity].
    + vm_compute. reflexivity.
  - etransitivity.
    + apply (proj1 (proj2 (proj2 (convert_cases Scenario.seed "/home/sosx"
               Scenario.offlineApi 1%float "USD" "SOS" Index.noOptions
               ConvertScenario.seeded))));
        [discriminate | discriminate | reflexivity].
    + vm_compute. reflexivity.
  - etransitivity.
    + apply (proj2 (proj2 (proj2 (convert_cases Scenario.seed "/home/sosx"
               Scenario.offlineApi 5%float "USD" "TRY" Index.noOptions
               ConvertScenario.seeded))));
        discriminate.
    + vm_compute. reflexivity.
Defined.

(** 5 USD in TRY at the seeded rates: [convert] returns
    160.00000000000003, the formula [(amount / table[from]) * table[to]]
    gives 160. *)
Lemma convert_cross_rate_is_not_a_division :
  fst (ConvertScenario.convert 5 "USD" "TRY" ConvertScenario.seeded)
  = 160.00000000000003%float
  /\ crossRateBySpec Scenario.seed 5%float "USD" "TRY" = 160%float
  /\ fst (ConvertScenario.convert 5 "USD" "TRY" ConvertScenario.seeded)
     <> crossRateBySpec Scenario.seed 5%float "USD" "TRY".
Proof.
  split; [vm_compute; reflexivity|]. split; [vm_compute; reflexivity|].
  intros Heq.
  apply (f_equal (fun x => PrimFloat.eqb x 160%float)) in Heq.
  vm_compute in Heq. discriminate Heq.
Qed.

(** Over the real numbers the two forms of the cross rate agree. *)
Lemma cross_rate_forms_agree_exactly (table : RateTable R) (amount : R)
    (from to : string) :
  from <> "SOS" -> to <> "SOS" -> rateOf table from <> 0%R ->
  viaPivot table amount from to = crossRateBySpec table amount from to.
Proof.
  intros Hfrom Hto Hrate. unfold viaPivot, crossRateBySpec.
  destruct (String.eqb_spec from "SOS"); [contradiction|].
  destruct (String.eqb_spec to "SOS"); [contradiction|].
  cbn [nmul ndiv ofZ Exact]. now field.
Qed.

(** ** index.ts: the round trip of [convert] *)

Section RoundTrip.
Variable seed : RateTable R.
Variable homedir : string.
Variable exchangerateHostApi : nat -> Response R.

Local Abbreviation getRates := (Index.getRates seed homedir exchangerateHostApi).


End RoundTrip.



(** For amounts of ordinary size the round trip in binary64 is within the
    tolerance, without being exact. *)
Example convert_round_trip_float_100 :
  fst (ConvertScenario.roundTrip 100 "USD" "KES" ConvertScenario.seeded)
  = 100.00000000000001%float
  /\ closeTo 100 (fst (ConvertScenario.roundTrip 100 "USD" "KES"
                         ConvertScenario.seeded)) = true.
Proof. split; vm_compute; reflexivity. Qed.

(** ** ProviderManager: the order of the fallbacks *)

Section SortFacts.
Context {A : Type} (key : A -> Z).

Local Abbreviation byKey := (fun a b : A => (key a - key b)%Z).
Local Abbreviation keyLe := (fun a b : A => (key a <= key b)%Z).







End SortFacts.

Section FallbackOrder.
Context {num : Type}.
Import ProviderManager.



Lemma addFallbackProvider_fallbacks (p : Provider.t num) (config : ProviderConfig num) :
  fallbacks (addFallbackProvider p config) = sort byPriority (fallbacks config ++ [p]).
Proof. reflexivity. Qed.






End FallbackOrder.



(** The priority 0 is falsy and sorts as 999, behind priority 1. *)
Example priority_zero_sorts_as_999 :
  List.map Provider.priority
    (ProviderManager.fallbacks
       (ProviderManager.addFallbackProvider
          (Scenario.scripted "one" (Some 1%Z) Scenario.offlineApi)
          (ProviderManager.addFallbackProvider
             (Scenario.scripted "zero" (Some 0%Z) Scenario.offlineApi)
             PriorityScenario.manager)))
  = [Some 1%Z; Some 0%Z].
Proof. reflexivity. Qed.

(** ** Historical rates without a historical provider *)

Section NoHistoricalProvider.
Context {num : Type} `{Number num}.
Import ProviderManager.

Lemma fetchHistoricalFrom_nil (date : string) (lastError : option Error) :
  fetchHistoricalFrom (num := num) [] date lastError
  = (Throw ("All providers failed for historical data. Last error: "
              +:+ lastMessage lastError), []).
Proof. reflexivity. Qed.



End NoHistoricalProvider.


(** ** Calendar dates and their ISO strings *)

Section CalendarFacts.
Import Calendar.


Lemma daysInMonth_bounds (y m : Z) : (28 <= daysInMonth y m <= 31)%Z.
Proof.
  unfold daysInMonth.
  destruct (m =? 2)%Z; [destruct (isLeapYear y); lia|].
  destruct ((m =? 4) || (m =? 6) || (m =? 9) || (m =? 11))%Z; lia.
Qed.

Lemma ltb_lt (a b : Date) :
  ltb a b = true
  <-> (year a < year b
       \/ (year a = year b
           /\ (month a < month b \/ (month a = month b /\ day a < day b))))%Z.
Proof.
  unfold ltb.
  destruct (Z.ltb_spec (year a) (year b)), (Z.eqb_spec (year a) (year b)),
    (Z.ltb_spec (month a) (month b)), (Z.eqb_spec (month a) (month b)),
    (Z.ltb_spec (day a) (day b)); cbn; split; intros; try discriminate; try lia;
    reflexivity.
Qed.

Lemma leb_le (a b : Date) :
  leb a b = true
  <-> (year a < year b
       \/ (year a = year b
           /\ (month a < month b \/ (month a = month b /\ day a <= day b))))%Z.
Proof.
  unfold leb. rewrite negb_true_iff, <- not_true_iff_false, ltb_lt. lia.
Qed.



Lemma ordinal_lt (a b : Date) :
  wellFormed a -> wellFormed b ->
  ltb a b = true <-> (ordinal a < ordinal b)%Z.
Proof.
  intros (Hma & Hda) (Hmb & Hdb).
  pose proof (daysInMonth_bounds (year a) (month a)).
  pose proof (daysInMonth_bounds (year b) (month b)).
  rewrite ltb_lt. unfold ordinal. lia.
Qed.

Lemma nextDay_wellFormed (d : Date) : wellFormed d -> wellFormed (nextDay d).
Proof.
  intros (Hm & Hd). unfold nextDay, wellFormed.
  destruct (Z.ltb_spec (day d) (daysInMonth (year d) (month d))); cbn; [lia|].
  destruct (Z.ltb_spec (month d) 12); cbn.
  - pose proof (daysInMonth_bounds (year d) (month d + 1)). lia.
  - pose proof (daysInMonth_bounds (year d + 1) 1). lia.
Qed.

Lemma nextDay_later (d : Date) : wellFormed d -> ltb d (nextDay d) = true.
Proof.
  intros (Hm & Hd). rewrite ltb_lt. unfold nextDay.
  destruct (Z.ltb_spec (day d) (daysInMonth (year d) (month d))); cbn; [lia|].
  destruct (Z.ltb_spec (month d) 12); cbn; lia.
Qed.

(** No day lies strictly between a day and the next. *)
Lemma nextDay_least (d x : Date) :
  wellFormed d -> wellFormed x -> ltb d x = true -> leb (nextDay d) x = true.
Proof.
  intros (Hm & Hd) (Hmx & Hdx). rewrite ltb_lt, leb_le. unfold nextDay.
  assert (Hsame : year d = year x -> month d = month x ->
                  daysInMonth (year d) (month d) = daysInMonth (year x) (month x))
    by congruence.
  destruct (Z.ltb_spec (day d) (daysInMonth (year d) (month d))); cbn; [lia|].
  destruct (Z.ltb_spec (month d) 12); cbn; lia.
Qed.

Lemma date_eq (a b : Date) :
  year a = year b -> month a = month b -> day a = day b -> a = b.
Proof. destruct a, b; cbn; congruence. Qed.

Lemma leb_antisym (a b : Date) : leb a b = true -> leb b a = true -> a = b.
Proof. rewrite !leb_le. intros Hab Hba. apply date_eq; lia. Qed.

(** The day count agrees with the civil calendar on some known instants:
    the epoch, the millisecond before it, a leap day, and the instants of
    the scenarios. *)
Example dayOfTime_known_instants :
  dayOfTime 0 = {| year := 1970; month := 1; day := 1 |}
  /\ dayOfTime (-1) = {| year := 1969; month := 12; day := 31 |}
  /\ dayOfTime 951782400000 = {| year := 2000; month := 2; day := 29 |}
  /\ dayOfTime 1700000000000 = {| year := 2023; month := 11; day := 14 |}
  /\ dayOfTime 1709380800000 = {| year := 2024; month := 3; day := 2 |}.
Proof. repeat split; vm_compute; reflexivity. Qed.

End CalendarFacts.

(** ** historical.ts: the day-by-day walk of [getRateHistory] *)

Section RateHistory.
Context {num : Type} `{Number num}.
Variable providerManager : ProviderManager.ProviderConfig num.
Import Calendar HistoricalRateService.

Local Abbreviation walk := (HistoricalRateService.walk providerManager).
Local Abbreviation eachDay := (forEachDay providerManager).

Lemma inclusiveRange_empty (from to : Date) :
  leb from to = false -> inclusiveRange from to [].
Proof.
  intros Hlt. split; [|constructor].
  intros d. split; [intros []|].
  intros (_ & Hfrom & Hto). exfalso.
  apply not_true_iff_false in Hlt. apply Hlt.
  rewrite leb_le in Hfrom, Hto. rewrite leb_le. lia.
Qed.

Lemma inclusiveRange_cons (from to : Date) (days : list Date) :
  wellFormed from -> leb from to = true ->
  inclusiveRange (nextDay from) to days ->
  inclusiveRange from to (from :: days).
Proof.
  intros Hwf Hle [Hin Hsorted].
  pose proof (nextDay_later from Hwf) as Hnext. rewrite ltb_lt in Hnext.
  split.
  - intros d. cbn [In]. rewrite Hin. split.
    + intros [<- | (Hd & Hfrom & Hto)].
      * split; [assumption|]. split; [|assumption]. rewrite leb_le. lia.
      * split; [assumption|]. split; [|assumption].
        rewrite leb_le in Hfrom. rewrite leb_le. lia.
    + intros (Hd & Hfrom & Hto).
      destruct (ltb from d) eqn:Hlt.
      * right. split; [assumption|]. split; [|assumption].
        now apply nextDay_least.
      * left. apply leb_antisym; [assumption|].
        unfold leb. now rewrite Hlt.
  - constructor; [assumption|].
    rewrite List.Forall_forall. intros d Hd.
    apply Hin in Hd as (_ & Hfrom & _).
    rewrite ltb_lt. rewrite leb_le in Hfrom. lia.
Qed.

Lemma nextDay_ordinal (d : Date) :
  wellFormed d -> (ordinal d + 1 <= ordinal (nextDay d))%Z.
Proof.
  intros Hwf.
  pose proof (nextDay_later d Hwf) as Hlt.
  apply ordinal_lt in Hlt; [lia | assumption | now apply nextDay_wellFormed].
Qed.

(** The loop is the sequence of calls on the days of the range, followed
    by the selection of the points; [steps] only has to be large enough. *)
Lemma walk_forEachDay (currency baseCurrency : string) (endDate : Date) :
  wellFormed endDate ->
  forall (steps : nat) (currentDate : Date) (results : list (HistoryPoint num))
         (w : World num),
    wellFormed currentDate ->
    (ordinal endDate - ordinal currentDate + 1 <= Z.of_nat steps)%Z ->
    exists days,
      inclusiveRange currentDate endDate days
      /\ walk steps currency baseCurrency currentDate endDate results w
         = (results ++ flat_map (pointOf currency baseCurrency) (fst (eachDay days w)),
            snd (eachDay days w)).
Proof.
  intros Hend.
  induction steps as [|steps IH]; intros currentDate results w Hwf Hsteps.
  - exists []. split.
    + apply inclusiveRange_empty.
      unfold leb. apply negb_false_iff. apply ordinal_lt; [assumption..|lia].
    + cbn. now rewrite app_nil_r.
  - cbn [HistoricalRateService.walk].
    destruct (leb currentDate endDate) eqn:Hle.
    + unfold bind at 1.
      destruct (getHistoricalRates providerManager (toISODate currentDate) w)
        as [r w1] eqn:Hcall.
      pose proof (nextDay_ordinal currentDate Hwf) as Hord.
      match goal with
      | |- context [HistoricalRateService.walk _ _ _ _ _ _ ?rs w1] =>
          destruct (IH (nextDay currentDate) rs w1 (nextDay_wellFormed _ Hwf)
                      ltac:(lia)) as (days & Hrange & Hwalk)
      end.
      exists (currentDate :: days). split.
      * now apply inclusiveRange_cons.
      * rewrite Hwalk. cbn [forEachDay]. unfold bind. rewrite Hcall.
        destruct (forEachDay providerManager days w1) as [answers w2].
        cbn [fst snd flat_map ret]. unfold pointOf at 2. cbn [fst snd].
        destruct r as [table|e]; [|reflexivity].
        now rewrite <- app_assoc.
    + exists []. split; [now apply inclusiveRange_empty|].
      cbn. now rewrite app_nil_r.
Qed.






End RateHistory.


(** ** historical.ts: pruning on every write *)

Section Pruning.
Context {num : Type} `{Number num}.
Import Calendar HistoricalRateService.




Lemma previousDay_wellFormed (d : Date) : wellFormed d -> wellFormed (previousDay d).
Proof.
  intros (Hm & Hd). unfold previousDay, wellFormed.
  destruct (Z.ltb_spec 1 (day d)); cbn; [lia|].
  destruct (Z.ltb_spec 1 (month d)); cbn.
  - pose proof (daysInMonth_bounds (year d) (month d - 1)). lia.
  - unfold daysInMonth. cbn. lia.
Qed.


Lemma iter_previousDay_wellFormed (n : nat) (d : Date) :
  wellFormed d -> wellFormed (Nat.iter n previousDay d).
Proof.
  intros Hd. induction n as [|n IH]; [assumption|].
  cbn. now apply previousDay_wellFormed.
Qed.


Lemma iter_nextDay_wellFormed (n : nat) (d : Date) :
  wellFormed d -> wellFormed (Nat.iter n nextDay d).
Proof.
  intros Hd. induction n as [|n IH]; [assumption|].
  cbn. now apply nextDay_wellFormed.
Qed.

Lemma addDays_wellFormed (n : Z) (d : Date) : wellFormed d -> wellFormed (addDays n d).
Proof.
  intros Hd. destruct n as [|p|p]; cbn [addDays]; [assumption| |].
  - now apply iter_nextDay_wellFormed.
  - now apply iter_previousDay_wellFormed.
Qed.

(** Every instant of the clock falls on a day of the calendar. *)
Lemma today_wellFormed (w : World num) : wellFormed (today w).
Proof.
  unfold today, dayOfTime. apply addDays_wellFormed.
  unfold wellFormed, epoch. cbn. lia.
Qed.



End Pruning.


(** ** historical.ts: volatility *)

Section Volatility.
Context {num : Type} `{Number num}.
Import HistoricalRateService.

Lemma fold_left_map_add (f : num -> num) (l : list num) (a : num) :
  fold_left (fun sum x => (sum + f x)%num) l a = fold_left nadd (List.map f l) a.
Proof.
  revert a. induction l as [|x l IH]; intros a; [reflexivity|].
  cbn. apply IH.
Qed.

Lemma dailyReturns_length (history : list (HistoryPoint num)) :
  length (dailyReturns history) = length history - 1.
Proof.
  induction history as [|a [|b rest] IH]; [reflexivity..|].
  cbn [dailyReturns length] in *. lia.
Qed.

Lemma dailyReturns_lookup (history : list (HistoryPoint num)) (i : nat)
    (previous current : HistoryPoint num) :
  history !! i = Some previous -> history !! (S i) = Some current ->
  dailyReturns history !! i
  = Some ((rate current - rate previous) / rate previous)%num.
Proof.
  revert i. induction history as [|a [|b rest] IH]; intros i Hprev Hcur.
  - discriminate.
  - destruct i; discriminate.
  - destruct i as [|i].
    + cbn in Hprev, Hcur. injection Hprev as <-. injection Hcur as <-. reflexivity.
    + cbn [dailyReturns]. cbn [lookup list_lookup]. apply IH; assumption.
Qed.

Lemma volatilityOf_short (history : list (HistoryPoint num)) :
  length history < 2 -> volatilityOf history = ofZ 0.
Proof.
  intros Hshort. unfold volatilityOf.
  now destruct (Nat.ltb_spec (length history) 2); [|lia].
Qed.

Lemma volatilityOf_population (history : list (HistoryPoint num)) :
  2 <= length history ->
  volatilityOf history
  = (populationStdDev (dailyReturns history) * nsqrt (ofZ 365))%num.
Proof.
  intros Hlong. unfold volatilityOf.
  destruct (Nat.ltb_spec (length history) 2); [lia|].
  unfold populationStdDev, squaredDeviations, mean, total, count.
  now rewrite fold_left_map_add.
Qed.

End Volatility.

Section ExactVolatility.
Import HistoricalRateService.

Lemma total_zeros (l : list R) : Forall (fun x => x = 0%R) l -> total l = 0%R.
Proof.
  unfold total. cbn [ofZ Exact nadd].
  induction l as [|x l IH]; intros Hzero; [reflexivity|].
  inversion Hzero as [|? ? -> Hrest]; subst. cbn [fold_left].
  rewrite Rplus_0_r. now apply IH.
Qed.

Lemma dailyReturns_constant (c : R) (history : list (HistoryPoint R)) :
  Forall (fun p => rate p = c) history ->
  Forall (fun x => x = 0%R) (dailyReturns history).
Proof.
  induction history as [|a [|b rest] IH]; intros Hconst; [constructor..|].
  inversion Hconst as [|? ? Ha Hrest]; subst.
  inversion Hrest as [|? ? Hb _]; subst.
  cbn [dailyReturns]. constructor; [|now apply IH].
  cbn [nsub ndiv Exact]. rewrite Hb. unfold Rdiv, Rminus.
  rewrite Rplus_opp_r. apply Rmult_0_l.
Qed.

Lemma populationStdDev_zeros (l : list R) :
  Forall (fun x => x = 0%R) l -> populationStdDev l = 0%R.
Proof.
  intros Hzero. unfold populationStdDev.
  assert (Hmean : mean l = 0%R).
  { unfold mean. rewrite (total_zeros l Hzero). cbn [ndiv Exact].
    unfold Rdiv. apply Rmult_0_l. }
  rewrite total_zeros.
  - cbn [ndiv nsqrt Exact]. unfold Rdiv. rewrite Rmult_0_l. apply sqrt_0.
  - unfold squaredDeviations. rewrite Hmean.
    rewrite List.Forall_forall in *. intros y Hy.
    apply List.in_map_iff in Hy as (x & <- & Hx).
    rewrite (Hzero x Hx). cbn [nsub nmul Exact]. ring.
Qed.

Lemma volatilityOf_constant (c : R) (history : list (HistoryPoint R)) :
  Forall (fun p => rate p = c) history -> volatilityOf history = 0%R.
Proof.
  intros Hconst.
  destruct (Nat.lt_ge_cases (length history) 2) as [Hshort|Hlong].
  - now rewrite volatilityOf_short.
  - rewrite volatilityOf_population by assumption.
    rewrite populationStdDev_zeros by now apply (dailyReturns_constant c).
    cbn [nmul Exact]. apply Rmult_0_l.
Qed.

Lemma volatilityOf_two_points (a b : HistoryPoint R) : volatilityOf [a; b] = 0%R.
Proof.
  rewrite volatilityOf_population by (cbn; lia).
  cbn [dailyReturns]. set (r := ((rate b - rate a) / rate a)%num).
  unfold populationStdDev, squaredDeviations, mean, total, count.
  cbn [List.map fold_left length Z.of_nat Pos.of_succ_nat ofZ nadd nsub nmul ndiv nsqrt
       Exact].
  change (IZR (Z.of_nat 1)) with 1%R.
  replace ((0 + (r - (0 + r) / 1) * (r - (0 + r) / 1)) / 1)%R with 0%R by field.
  rewrite sqrt_0. apply Rmult_0_l.
Qed.

End ExactVolatility.

(** C4, as the code has it.  [getVolatility] computes the statistic
    [volatilityOf] on the history of the trailing window from [days] days
    ago to today.  With fewer than two points the statistic is 0;
    otherwise it is the standard deviation of the daily simple returns
    [(rate_i - rate_{i-1}) / rate_{i-1}] with divisor [n], the number of
    returns (the population standard deviation), times [sqrt(365)].  In
    exact arithmetic a series of two points, whose single return is its
    own mean, and a series of constant rate both have volatility 0. *)
Theorem getVolatility_population_deviation :
  (forall (num : Type) (N : Number num)
          (providerManager : ProviderManager.ProviderConfig num)
          (currency : string) (days : Z) (w : World num),
      let window :=
        {| HistoricalRateService.from := Calendar.addDays (- days) (today w);
           HistoricalRateService.to := today w;
           HistoricalRateService.currency := currency;
           HistoricalRateService.baseCurrency := None |} in
      let run := HistoricalRateService.getRateHistory providerManager window w in
      HistoricalRateService.getVolatility providerManager currency days w
      = (HistoricalRateService.volatilityOf (fst run), snd run))
  /\ (forall (num : Type) (N : Number num)
             (history : list (HistoricalRateService.HistoryPoint num)),
        (length history < 2 -> HistoricalRateService.volatilityOf history = ofZ 0)
        /\ (2 <= length history ->
            HistoricalRateService.volatilityOf history
            = (populationStdDev (HistoricalRateService.dailyReturns history)
               * nsqrt (ofZ 365))%num)
        /\ length (HistoricalRateService.dailyReturns history) = length history - 1
        /\ (forall i previous current,
              history !! i = Some previous -> history !! (S i) = Some current ->
              HistoricalRateService.dailyReturns history !! i
              = Some ((HistoricalRateService.rate current
                       - HistoricalRateService.rate previous)
                      / HistoricalRateService.rate previous)%num))
  /\ (forall a b : HistoricalRateService.HistoryPoint R,
        HistoricalRateService.volatilityOf [a; b] = 0%R)
  /\ (forall (c : R) (history : list (HistoricalRateService.HistoryPoint R)),
        Forall (fun p => HistoricalRateService.rate p = c) history ->
        HistoricalRateService.volatilityOf history = 0%R).
Proof.
  split; [|split; [|split]].
  - intros num N providerManager currency days w. cbv zeta.
    unfold HistoricalRateService.getVolatility, bind, HistoricalRateService.newDate.
    destruct (HistoricalRateService.getRateHistory _ _ w) as [history w'].
    reflexivity.
  - intros num N history. split; [apply volatilityOf_short|].
    split; [apply volatilityOf_population|].
    split; [apply dailyReturns_length|].
    intros i previous current. apply dailyReturns_lookup.
  - apply volatilityOf_two_points.
  - apply volatilityOf_constant.
Qed.

(** Three days at 0.002 in binary64, the rates 2 and 2 over the reals, and
    [getVolatility("USD", "3d")] on the 2nd of March 2024, where the 29th
    of February is missing from the history. *)
Lemma getVolatility_population_deviation_witness :
  HistoricalRateService.volatilityOf (historyOf 1 [0.002; 0.002; 0.002]%float)
  = 0%float
  /\ HistoricalRateService.volatilityOf (historyOf 1 [2; 2]%R) = 0%R
  /\ fst (HistoricalRateService.getVolatility HistoryScenario.manager "USD" 3
            HistoryScenario.march)
     = HistoricalRateService.volatilityOf
         (historyOf 1 [0.0019; 0.002; 0.002]%float).
Proof.
  destruct getVolatility_population_deviation
    as (Hrun & Hstatistic & _ & Hconstant).
  split; [|split].
  - destruct (Hstatistic float Float64 (historyOf 1 [0.002; 0.002; 0.002]%float))
      as (_ & Hlong & _).
    rewrite Hlong by (cbn; lia).
    vm_compute. reflexivity.
  - apply (Hconstant 2%R). repeat constructor.
  - rewrite (Hrun float Float64 HistoryScenario.manager "USD" 3%Z HistoryScenario.march).
    vm_compute. reflexivity.
Defined.

(** Two points with the single return 1: the volatility is 0, not
    [|1| * sqrt(365)].  Three points with the returns 1 and 0: the
    volatility is [0.5 * sqrt(365)], the deviation with divisor 2, not the
    sample deviation with divisor 1. *)
Lemma volatility_is_not_the_sample_deviation :
  HistoricalRateService.dailyReturns (historyOf 1 [1; 2]%float) = [1%float]
  /\ HistoricalRateService.volatilityOf (historyOf 1 [1; 2]%float) = 0%float
  /\ (PrimFloat.abs 1 * PrimFloat.sqrt 365)%float = 19.104973174542799%float
  /\ HistoricalRateService.volatilityOf (historyOf 1 [1; 2]%float)
     <> (PrimFloat.abs 1 * PrimFloat.sqrt 365)%float
  /\ HistoricalRateService.dailyReturns (historyOf 1 [1; 2; 2]%float)
     = [1%float; 0%float]
  /\ HistoricalRateService.volatilityOf (historyOf 1 [1; 2; 2]%float)
     = (0.5 * PrimFloat.sqrt 365)%float
  /\ PrimFloat.eqb
       (HistoricalRateService.volatilityOf (historyOf 1 [1; 2; 2]%float))
       (sampleStdDev (HistoricalRateService.dailyReturns (historyOf 1 [1; 2; 2]%float))
        * PrimFloat.sqrt 365)%float
     = false.
Proof.
  repeat split; try (vm_compute; reflexivity).
  intros Heq.
  apply (f_equal (fun x => PrimFloat.eqb x 0%float)) in Heq.
  vm_compute in Heq. discriminate Heq.
Qed.

(** * Further properties *)

(** ** ProviderManager: every run of [fetchRates] *)

Section ManagerOutcomes.
Context {num : Type}.
Import ProviderManager.

Lemma fetchWithTimeout_Ok (p : Provider.t num) (timeout : Z) (k : nat)
    (table : RateTable num) :
  fetchWithTimeout p timeout k = Ok table ->
  settled (Provider.fetchRatesSOS p k) = Ok table
  /\ (latency (Provider.fetchRatesSOS p k) < timeout)%Z.
Proof.
  unfold fetchWithTimeout.
  destruct (Z.ltb_spec (latency (Provider.fetchRatesSOS p k)) timeout) as [Hlt|Hge].
  - intros Hok. now split.
  - discriminate.
Qed.

Lemma attempts_outcome (config : ProviderConfig num) (p : Provider.t num) :
  forall remaining attempt lastError,
    match attempts config p remaining attempt lastError with
    | (inl table, events) =>
        exists n,
          attempt <= n < attempt + remaining
          /\ (forall a, attempt <= a < n -> failsAt config p a)
          /\ succeedsAt config p n table
          /\ events
             = flat_map (failedAttempt config p) (seq attempt (n - attempt))
                 ++ [EvFetch (Provider.name p)]
    | (inr _, _) =>
        forall a, attempt <= a < attempt + remaining -> failsAt config p a
    end.
Proof.
  induction remaining as [|remaining IH]; intros attempt lastError.
  - cbn [attempts]. intros a Ha. lia.
  - cbn [attempts].
    destruct (fetchWithTimeout p (timeout config) (attempt - 1)) as [rates|e] eqn:Hcall.
    + exists attempt. split; [lia|]. split; [intros a Ha; lia|]. split; [exact Hcall|].
      now rewrite Nat.sub_diag.
    + specialize (IH (S attempt) (Some e)).
      destruct (attempts config p remaining (S attempt) (Some e)) as [[table|last] events].
      * destruct IH as (n & Hn & Hfail & Hok & ->).
        exists n. split; [lia|]. split; [|split; [exact Hok|]].
        -- intros a Ha. destruct (Nat.eq_dec a attempt) as [->|Hne].
           ++ now exists e.
           ++ apply Hfail. lia.
        -- replace (n - attempt) with (S (n - S attempt)) by lia.
           cbn [seq flat_map]. unfold failedAttempt at 2, backoffMs.
           cbn [app]. now rewrite <- app_assoc.
      * intros a Ha. destruct (Nat.eq_dec a attempt) as [->|Hne].
        -- now exists e.
        -- apply IH. lia.
Qed.

Lemma fetchRatesFrom_outcome (config : ProviderConfig num) :
  forall providers lastError,
    match fetchRatesFrom config providers lastError with
    | (Ok table, events) =>
        exists before p after n,
          providers = before ++ p :: after
          /\ Forall (exhausts config) before
          /\ 1 <= n <= maxRetries config
          /\ (forall a, 1 <= a < n -> failsAt config p a)
          /\ succeedsAt config p n table
    | (Throw _, _) => Forall (exhausts config) providers
    end.
Proof.
  induction providers as [|q rest IH]; intros lastError.
  - cbn. constructor.
  - cbn [fetchRatesFrom].
    pose proof (attempts_outcome config q (maxRetries config) 1 lastError) as Hq.
    destruct (attempts config q (maxRetries config) 1 lastError) as [[table|last] events].
    + destruct Hq as (n & Hn & Hfail & Hok & _).
      exists [], q, rest, n.
      split; [reflexivity|]. split; [constructor|]. split; [lia|].
      split; [intros a Ha; apply Hfail; lia | exact Hok].
    + specialize (IH last).
      destruct (fetchRatesFrom config rest last) as [[table|e] events'].
      * destruct IH as (before & p & after & n & -> & Hbefore & Hn & Hfail & Hok).
        exists (q :: before), p, after, n.
        split; [reflexivity|]. split; [|split; [lia|split; assumption]].
        constructor; [|assumption]. intros a Ha. apply Hq. lia.
      * constructor; [|assumption]. intros a Ha. apply Hq. lia.
Qed.

(** X1.  Every run of [fetchRates] has one of two shapes.  Either some provider
    of [primary :: fallbacks] resolves, within the time-out, on an attempt
    [n <= maxRetries], after failing on its attempts before [n] and after
    every provider in front of it has failed on all of its attempts; then
    the table of that attempt is what is returned.  Or every provider has
    failed on all of its attempts, and the call throws. *)
Theorem fetchRates_outcomes (config : ProviderConfig num) :
  (exists before p after n table,
      primary config :: fallbacks config = before ++ p :: after
      /\ Forall (exhausts config) before
      /\ 1 <= n <= maxRetries config
      /\ (forall a, 1 <= a < n -> failsAt config p a)
      /\ settled (Provider.fetchRatesSOS p (n - 1)) = Ok table
      /\ (latency (Provider.fetchRatesSOS p (n - 1)) < timeout config)%Z
      /\ fetchRates config
         = (Ok table, flat_map (exhaustedLog config) before ++ successLog config p n))
  \/ (Forall (exhausts config) (primary config :: fallbacks config)
      /\ exists e,
           fetchRates config
           = (Throw e, flat_map (exhaustedLog config) (primary config :: fallbacks config))).
Proof.
  pose proof (fetchRatesFrom_outcome config (primary config :: fallbacks config) None)
    as Hrun.
  fold (fetchRates config) in Hrun.
  destruct (fetchRates config) as [[table|e] events] eqn:Hfetch.
  - left. destruct Hrun as (before & p & after & n & Hlist & Hbefore & Hn & Hfail & Hok).
    exists before, p, after, n, table.
    destruct (fetchWithTimeout_Ok _ _ _ _ Hok) as [Hsettled Hlatency].
    do 6 (split; [first [assumption | lia]|]).
    rewrite <- Hfetch. unfold fetchRates. rewrite Hlist.
    now apply fetchRatesFrom_success.
  - right. split; [exact Hrun|].
    unfold fetchRates in Hfetch.
    rewrite (fetchRatesFrom_exhausted config _ None Hrun) in Hfetch.
    injection Hfetch as <- <-. eexists. reflexivity.
Qed.

Lemma callsIn_app (a b : list Event) : callsIn (a ++ b) = callsIn a + callsIn b.
Proof. unfold callsIn. now rewrite List.filter_app, length_app. Qed.

Lemma sleepIn_app (a b : list Event) : sleepIn (a ++ b) = (sleepIn a + sleepIn b)%Z.
Proof.
  induction a as [|e a IH]; [reflexivity|].
  cbn [app sleepIn fold_right]. fold (sleepIn (a ++ b)). fold (sleepIn a).
  rewrite IH. destruct e; lia.
Qed.

Lemma failedAttempts_effort (config : ProviderConfig num) (p : Provider.t num) :
  forall len start,
    1 <= start -> start + len <= maxRetries config ->
    callsIn (flat_map (failedAttempt config p) (seq start len)) = len
    /\ sleepIn (flat_map (failedAttempt config p) (seq start len))
       = ((2 ^ (Z.of_nat (start + len) - 1) - 2 ^ (Z.of_nat start - 1)) * 1000)%Z.
Proof.
  induction len as [|len IH]; intros start Hstart Hle.
  - cbn [seq flat_map]. split; [reflexivity|].
    rewrite Nat.add_0_r. cbn. lia.
  - cbn [seq flat_map]. rewrite callsIn_app, sleepIn_app.
    destruct (IH (S start) ltac:(lia) ltac:(lia)) as [-> ->].
    unfold failedAttempt, backoffMs.
    destruct (Nat.ltb_spec start (maxRetries config)); [|lia].
    split; [reflexivity|].
    cbn [sleepIn fold_right].
    replace (Z.of_nat (S start + len) - 1)%Z with (Z.of_nat (start + S len) - 1)%Z by lia.
    replace (Z.of_nat (S start) - 1)%Z with (Z.succ (Z.of_nat start - 1)) by lia.
    rewrite Z.pow_succ_r by lia. lia.
Qed.

Lemma successLog_effort (config : ProviderConfig num) (p : Provider.t num) (n : nat) :
  1 <= n <= maxRetries config ->
  callsIn (successLog config p n) = n
  /\ sleepIn (successLog config p n) = backoffBudget n.
Proof.
  intros Hn. unfold successLog. rewrite callsIn_app, sleepIn_app.
  destruct (failedAttempts_effort config p (n - 1) 1 ltac:(lia) ltac:(lia)) as [-> ->].
  split; [cbn; lia|].
  unfold backoffBudget. cbn [sleepIn fold_right].
  replace (Z.of_nat (1 + (n - 1)) - 1)%Z with (Z.of_nat (n - 1)) by lia.
  change (2 ^ (Z.of_nat 1 - 1))%Z with 1%Z. lia.
Qed.

Lemma exhaustedLog_successLog (config : ProviderConfig num) (p : Provider.t num) :
  1 <= maxRetries config ->
  exhaustedLog config p = successLog config p (maxRetries config).
Proof.
  intros Hm. unfold exhaustedLog, successLog.
  destruct (maxRetries config) as [|m] eqn:Hretries; [lia|].
  replace (S m - 1) with m by lia.
  rewrite seq_S, flat_map_app. f_equal.
  cbn [flat_map]. unfold failedAttempt. rewrite Hretries.
  replace (1 + m) with (S m) by lia.
  rewrite Nat.ltb_irrefl. reflexivity.
Qed.

Lemma exhaustedLogs_effort (config : ProviderConfig num) (providers : list (Provider.t num)) :
  callsIn (flat_map (exhaustedLog config) providers)
  = length providers * maxRetries config
  /\ sleepIn (flat_map (exhaustedLog config) providers)
     = (Z.of_nat (length providers) * backoffBudget (maxRetries config))%Z.
Proof.
  destruct (maxRetries config) as [|m] eqn:Hm.
  - assert (Hnil : flat_map (exhaustedLog config) providers = []).
    { induction providers as [|p rest IH]; [reflexivity|].
      cbn [flat_map]. rewrite IH. unfold exhaustedLog. now rewrite Hm. }
    rewrite Hnil. unfold backoffBudget. cbn. split; lia.
  - induction providers as [|p rest [IHc IHs]]; [split; reflexivity|].
    cbn [flat_map length]. rewrite callsIn_app, sleepIn_app, IHc, IHs.
    rewrite exhaustedLog_successLog by lia.
    destruct (successLog_effort config p (maxRetries config) ltac:(lia)) as [-> ->].
    rewrite Hm. split; lia.
Qed.

Lemma backoffBudget_mono (n m : nat) : n <= m -> (0 <= backoffBudget n <= backoffBudget m)%Z.
Proof.
  intros Hle. unfold backoffBudget.
  assert (0 < 2 ^ Z.of_nat (n - 1))%Z by (apply Z.pow_pos_nonneg; lia).
  assert (2 ^ Z.of_nat (n - 1) <= 2 ^ Z.of_nat (m - 1))%Z
    by (apply Z.pow_le_mono_r; lia).
  lia.
Qed.

(** X2.  What a call of [fetchRates] can cost.  It makes at most [maxRetries]
    calls per provider and backs off for at most
    [1 + 2 + ... + 2^(maxRetries-2)] seconds per provider; when it throws
    it has used exactly that much; and whenever it has called anything, a
    provider call, not a back-off, is the last thing it did. *)
Theorem fetchRates_effort (config : ProviderConfig num) :
  let providers := primary config :: fallbacks config in
  let events := snd (fetchRates config) in
  callsIn events <= length providers * maxRetries config
  /\ (0 <= sleepIn events
      <= Z.of_nat (length providers) * backoffBudget (maxRetries config))%Z
  /\ (forall e, fst (fetchRates config) = Throw e ->
        callsIn events = length providers * maxRetries config
        /\ sleepIn events
           = (Z.of_nat (length providers) * backoffBudget (maxRetries config))%Z)
  /\ (events <> [] -> exists name, last events = Some (EvFetch name)).
Proof.
  cbv zeta.
  pose proof (backoffBudget_mono 0 (maxRetries config) ltac:(lia)) as Hbudget.
  destruct (fetchRates_outcomes config)
    as [(before & p & after & n & table & Hlist & Hbefore & Hn & Hfail & Hok & Hlat & ->)
       | (Hall & e & ->)]; cbn [fst snd].
  - rewrite callsIn_app, sleepIn_app.
    destruct (exhaustedLogs_effort config before) as [-> ->].
    destruct (successLog_effort config p n Hn) as [-> ->].
    pose proof (backoffBudget_mono n (maxRetries config) ltac:(lia)) as Hn'.
    rewrite Hlist, length_app. cbn [length].
    repeat split; try nia; try discriminate.
    intros _. exists (Provider.name p). unfold successLog.
    rewrite app_assoc. apply last_snoc.
  - destruct (exhaustedLogs_effort config (primary config :: fallbacks config))
      as [Hc Hs].
    rewrite Hc, Hs. repeat split; try nia.
    intros Hnonempty.
    destruct (maxRetries config) as [|m] eqn:Hm.
    + exfalso. apply Hnonempty.
      generalize (primary config :: fallbacks config). intros l.
      induction l as [|q l IH]; [reflexivity|].
      cbn [flat_map]. rewrite IH. unfold exhaustedLog. now rewrite Hm.
    + destruct (exists_last (l := primary config :: fallbacks config) ltac:(discriminate))
        as (front & q & ->).
      exists (Provider.name q).
      rewrite flat_map_app. cbn [flat_map]. rewrite app_nil_r.
      rewrite (exhaustedLog_successLog config q) by lia.
      unfold successLog. rewrite app_assoc. apply last_snoc.
Qed.

(** X3.  With [maxRetries = 0] no provider is ever called: [fetchRates] throws
    at once, and the message has no error to report. *)
Theorem fetchRates_without_attempts (config : ProviderConfig num) :
  maxRetries config = 0 ->
  fetchRates config = (Throw "All providers failed. Last error: undefined", []).
Proof.
  intros Hm. unfold fetchRates.
  generalize (primary config :: fallbacks config). intros providers.
  induction providers as [|p rest IH]; [reflexivity|].
  cbn [fetchRatesFrom]. rewrite Hm. cbn [attempts]. now rewrite IH.
Qed.

End ManagerOutcomes.

(** A manager with [maxRetries: 0] and two healthy providers. *)
Lemma fetchRates_without_attempts_witness :
  ProviderManager.fetchRates EffortScenario.noAttempts
  = (Throw "All providers failed. Last error: undefined", []).
Proof.
  apply (fetchRates_without_attempts EffortScenario.noAttempts). reflexivity.
Defined.

(** ** ProviderManager: every run of [fetchHistoricalRates] *)

Section HistoricalOutcomes.
Context {num : Type}.
Import ProviderManager.

Lemma fetchHistoricalFrom_outcome (date : string) :
  forall (providers : list (Provider.t num)) (lastError : option Error),
    Forall (fun p => hasHistorical p = true) providers ->
    (exists before p after table,
        providers = before ++ p :: after
        /\ Forall (rejectsHistorical date) before
        /\ historicalAnswer p date = Some (Ok table)
        /\ fetchHistoricalFrom providers date lastError
           = (Ok table, List.map (historicalCall date) (before ++ [p])))
    \/ (Forall (rejectsHistorical date) providers
        /\ fetchHistoricalFrom providers date lastError
           = (Throw ("All providers failed for historical data. Last error: "
                       +:+ lastMessage (match providers with
                                        | [] => lastError
                                        | _ :: _ => lastHistoricalError date providers
                                        end)),
              List.map (historicalCall date) providers)).
Proof.
  induction providers as [|p rest IH]; intros lastError Hcapable.
  - right. split; [constructor | reflexivity].
  - inversion Hcapable as [|? ? Hp Hrest]; subst.
    unfold hasHistorical in Hp. cbn [fetchHistoricalFrom].
    destruct (Provider.fetchHistoricalRates p) as [fetch|] eqn:Hfetch; [|discriminate].
    destruct (settled (fetch date)) as [table|e] eqn:Hanswer.
    + left. exists [], p, rest, table.
      split; [reflexivity|]. split; [constructor|]. split; [|reflexivity].
      unfold historicalAnswer. now rewrite Hfetch, Hanswer.
    + assert (Hrejects : rejectsHistorical date p).
      { exists e. unfold historicalAnswer. now rewrite Hfetch, Hanswer. }
      destruct (IH (Some e) Hrest)
        as [(before & q & after & table & -> & Hbefore & Hq & ->) | [Hall ->]].
      * left. exists (p :: before), q, after, table.
        split; [reflexivity|]. split; [now constructor|]. split; [exact Hq|reflexivity].
      * right. split; [now constructor|].
        cbn [List.map]. unfold historicalCall at 2. f_equal. f_equal. f_equal.
        destruct rest as [|q rest']; [|reflexivity].
        unfold lastHistoricalError, historicalAnswer. cbn [last].
        now rewrite Hfetch, Hanswer.
Qed.

(** X4.  Every run of [fetchHistoricalRates] has one of two shapes.  Only the
    providers that have the method are considered, in the order of
    [primary :: fallbacks], and each is called at most once, without a
    timer.  Either one of them resolves after all those in front of it
    have rejected, and its table is returned; or all of them reject, and
    the call throws with the message of the last rejection ("undefined"
    when no provider has the method). *)
Theorem fetchHistoricalRates_outcomes (config : ProviderConfig num) (date : string) :
  (exists before p after table,
      capable config = before ++ p :: after
      /\ Forall (rejectsHistorical date) before
      /\ historicalAnswer p date = Some (Ok table)
      /\ fetchHistoricalRates config date
         = (Ok table, List.map (historicalCall date) (before ++ [p])))
  \/ (Forall (rejectsHistorical date) (capable config)
      /\ fetchHistoricalRates config date
         = (Throw ("All providers failed for historical data. Last error: "
                     +:+ lastMessage (lastHistoricalError date (capable config))),
            List.map (historicalCall date) (capable config))).
Proof.
  unfold fetchHistoricalRates. fold (capable config).
  assert (Hcapable : Forall (fun p => hasHistorical p = true) (capable config)).
  { unfold capable. apply List.Forall_forall. intros p Hin.
    now apply List.filter_In in Hin. }
  destruct (fetchHistoricalFrom_outcome date (capable config) None Hcapable)
    as [Hok | [Hall Hrun]].
  - now left.
  - right. split; [exact Hall|]. rewrite Hrun.
    now destruct (capable config).
Qed.

End HistoricalOutcomes.

(** A manager whose primary has current rates only and whose first
    historical fallback has no data: the second fallback answers. *)
Example fetchHistoricalRates_failover :
  ProviderManager.fetchHistoricalRates FailoverScenario.manager "2024-01-15"
  = (Ok Scenario.twoRates,
     [EvFetchHistorical "fixer.io" "2024-01-15";
      EvFetchHistorical "currencyapi.com" "2024-01-15"]).
Proof. vm_compute. reflexivity. Qed.

(** ** ProviderManager: a new fallback of the smallest priority number *)

Section LeastFirst.
Context {A : Type} (key : A -> Z).


End LeastFirst.

Section FallbackFailover.
Context {num : Type}.
Import ProviderManager.


End FallbackFailover.


(** ** index.ts: the cache between calls of [getRates] *)

Section GetRatesCache.
Context {num : Type} `{Number num}.
Variable seed : RateTable num.
Variable homedir : string.
Variable exchangerateHostApi : nat -> Response num.

Local Abbreviation getRates := (Index.getRates seed homedir exchangerateHostApi).
Local Abbreviation pathOf :=
  (fun options : Index.GetRateOptions num =>
     default (Index.defaultPersistPath homedir) (Index.persistPath options)).
Local Abbreviation ttlOf :=
  (fun options : Index.GetRateOptions num => default 21600000%Z (Index.ttlMs options)).
Local Abbreviation providerOf :=
  (fun options : Index.GetRateOptions num =>
     default (ExchangerateHostProvider exchangerateHostApi) (Index.provider options)).

(** The world that a successful provider call of [getRates] leaves. *)
Lemma getRates_live (options : Index.GetRateOptions num) (w : World num)
    (live : RateTable num) :
  (forall c, cachedSnapshot (pathOf options) w = Some c -> ~ isFresh w c (ttlOf options)) ->
  default false (Index.offline options) = false ->
  settled (Provider.fetchRatesSOS (providerOf options) 0) = Ok live ->
  let called :=
    afterCall (Provider.name (providerOf options))
      (latency (Provider.fetchRatesSOS (providerOf options) 0)) w in
  getRates options w
  = (live, afterWrite (pathOf options) {| at_ := now called; rates := live |} called).
Proof.
  intros Hstale Honline Hlive. cbv zeta.
  pose proof (getRates_not_fresh seed homedir exchangerateHostApi options w Hstale) as Hrun.
  cbv zeta in Hrun. now rewrite Honline, Hlive in Hrun.
Qed.

(** X6.  After a call of [getRates] that obtained a table from its provider, a
    call made [elapsed] milliseconds later in the same process returns
    that table without calling anything as long as [elapsed] is below its
    own ttl, whatever provider and path its options name; once [elapsed]
    has reached the ttl, an online call asks its provider again. *)
Theorem getRates_memoizes (options : Index.GetRateOptions num) (w : World num)
    (live : RateTable num) :
  (forall c, cachedSnapshot (pathOf options) w = Some c -> ~ isFresh w c (ttlOf options)) ->
  default false (Index.offline options) = false ->
  settled (Provider.fetchRatesSOS (providerOf options) 0) = Ok live ->
  forall (options' : Index.GetRateOptions num) (elapsed : Z),
    let w1 := later elapsed (snd (getRates options w)) in
    ((elapsed < ttlOf options')%Z -> getRates options' w1 = (live, w1))
    /\ ((ttlOf options' <= elapsed)%Z ->
        default false (Index.offline options') = false ->
        log (snd (getRates options' w1))
        = log w1 ++ [EvFetch (Provider.name (providerOf options'))]).
Proof.
  intros Hstale Honline Hlive options' elapsed. cbv zeta.
  rewrite (getRates_live options w live Hstale Honline Hlive). cbn [snd].
  set (called := afterCall _ _ w).
  set (snapshot := {| at_ := now called; rates := live |}).
  assert (Hcached : cachedSnapshot (pathOf options')
                      (later elapsed (afterWrite (pathOf options) snapshot called))
                    = Some snapshot) by reflexivity.
  split.
  - intros Hfresh.
    apply (getRates_fresh seed homedir exchangerateHostApi options' _ snapshot Hcached).
    unfold isFresh. cbn. lia.
  - intros Hexpired Honline'.
    rewrite (getRates_not_fresh seed homedir exchangerateHostApi options').
    + rewrite Honline'.
      destruct (settled (Provider.fetchRatesSOS (providerOf options') 0)); reflexivity.
    + intros c Hc. rewrite Hcached in Hc. injection Hc as <-.
      unfold isFresh. cbn. lia.
Qed.


Lemma getRates_by_snapshot (options : Index.GetRateOptions num) (w w' : World num) :
  cachedSnapshot (pathOf options) w' = cachedSnapshot (pathOf options) w ->
  now w' = now w -> log w' = log w ->
  fst (getRates options w') = fst (getRates options w)
  /\ log (snd (getRates options w')) = log (snd (getRates options w)).
Proof.
  intros Hcached Hnow Hlog.
  assert (Hcases : (exists c, cachedSnapshot (pathOf options) w = Some c
                              /\ isFresh w c (ttlOf options))
                   \/ (forall c, cachedSnapshot (pathOf options) w = Some c
                                 -> ~ isFresh w c (ttlOf options))).
  { destruct (cachedSnapshot (pathOf options) w) as [c|]; [|right; discriminate].
    unfold isFresh. destruct (Z.lt_decidable (now w - at_ c) (ttlOf options)) as [Hlt|Hge].
    - left. now exists c.
    - right. intros c' [= <-]. exact Hge. }
  destruct Hcases as [(c & Hc & Hfresh) | Hstale].
  - rewrite (getRates_fresh seed homedir exchangerateHostApi options w c Hc Hfresh).
    rewrite (getRates_fresh seed homedir exchangerateHostApi options w' c).
    + now split.
    + now rewrite Hcached.
    + unfold isFresh in *. now rewrite Hnow.
  - rewrite (getRates_not_fresh seed homedir exchangerateHostApi options w Hstale).
    rewrite (getRates_not_fresh seed homedir exchangerateHostApi options w').
    + rewrite Hcached.
      destruct (default false (Index.offline options)); [now split|].
      destruct (settled (Provider.fetchRatesSOS _ 0)); cbn; now rewrite Hlog.
    + intros c Hc. rewrite Hcached in Hc. unfold isFresh. rewrite Hnow.
      exact (Hstale c Hc).
Qed.

(** X8.  While the process holds a snapshot in memory, the files on disk have
    no say: whatever they contain, [getRates] returns the same table and
    makes the same provider calls. *)
Theorem getRates_memory_shadows_files (options : Index.GetRateOptions num)
    (w : World num) (files : gmap string (Cached num)) :
  memoryCache w <> None ->
  fst (getRates options (withFiles files w)) = fst (getRates options w)
  /\ log (snd (getRates options (withFiles files w))) = log (snd (getRates options w)).
Proof.
  intros Hmemory. apply getRates_by_snapshot; try reflexivity.
  unfold cachedSnapshot. cbn [withFiles memoryCache].
  destruct (memoryCache w); [reflexivity | contradiction].
Qed.

(** X9.  With [persistPath: ""] there is no persistence: [getRates] neither
    reads nor writes a file. *)
Theorem getRates_empty_path_touches_no_file (options : Index.GetRateOptions num)
    (w : World num) (files : gmap string (Cached num)) :
  Index.persistPath options = Some "" ->
  snapshotFiles (snd (getRates options w)) = snapshotFiles w
  /\ fst (getRates options (withFiles files w)) = fst (getRates options w)
  /\ log (snd (getRates options (withFiles files w))) = log (snd (getRates options w)).
Proof.
  intros Hpath.
  assert (Hempty : pathOf options = "") by now rewrite Hpath.
  split.
  - assert (Hcases : (exists c, cachedSnapshot (pathOf options) w = Some c
                                /\ isFresh w c (ttlOf options))
                     \/ (forall c, cachedSnapshot (pathOf options) w = Some c
                                   -> ~ isFresh w c (ttlOf options))).
    { destruct (cachedSnapshot (pathOf options) w) as [c|]; [|right; discriminate].
      unfold isFresh.
      destruct (Z.lt_decidable (now w - at_ c) (ttlOf options)) as [Hlt|Hge].
      - left. now exists c.
      - right. intros c' [= <-]. exact Hge. }
    destruct Hcases as [(c & Hc & Hfresh) | Hstale].
    + now rewrite (getRates_fresh seed homedir exchangerateHostApi options w c Hc Hfresh).
    + rewrite (getRates_not_fresh seed homedir exchangerateHostApi options w Hstale).
      destruct (default false (Index.offline options)); [reflexivity|].
      destruct (settled (Provider.fetchRatesSOS _ 0)); [|reflexivity].
      rewrite Hempty. reflexivity.
  - apply getRates_by_snapshot; try reflexivity.
    unfold cachedSnapshot. rewrite Hempty. reflexivity.
Qed.

End GetRatesCache.

(** P2 is asked once; a second later the same call and a call that names
    P1 and a ttl of one hour both return P2's table from memory. *)
Lemma getRates_memoizes_witness :
  let w1 :=
    later 1000 (snd (Index.getRates Scenario.seed "/home/sosx" Scenario.offlineApi
                       CacheScenario.persisted Scenario.cold)) in
  Index.getRates Scenario.seed "/home/sosx" Scenario.offlineApi CacheScenario.persisted w1
  = (Scenario.twoRates, w1)
  /\ Index.getRates Scenario.seed "/home/sosx" Scenario.offlineApi CacheScenario.other w1
     = (Scenario.twoRates, w1).
Proof.
  assert (Hstale : forall c,
             cachedSnapshot "/tmp/rates.json" Scenario.cold = Some c ->
             ~ isFresh Scenario.cold c 21600000%Z).
  { intros c Hc. vm_compute in Hc. discriminate Hc. }
  pose proof (getRates_memoizes Scenario.seed "/home/sosx" Scenario.offlineApi
                CacheScenario.persisted Scenario.cold Scenario.twoRates
                Hstale eq_refl eq_refl) as Hmemo.
  split.
  - apply (Hmemo CacheScenario.persisted 1000%Z). cbn. lia.
  - apply (Hmemo CacheScenario.other 1000%Z). cbn. lia.
Defined.


(** A snapshot in memory hides another one on disk. *)
Lemma getRates_memory_shadows_files_witness :
  fst (Index.getRates Scenario.seed "/home/sosx" Scenario.offlineApi
         CacheScenario.persisted
         (withFiles {[ "/tmp/rates.json" := CacheScenario.recent ]} ScenarioWorlds.warm))
  = fst (Index.getRates Scenario.seed "/home/sosx" Scenario.offlineApi
           CacheScenario.persisted ScenarioWorlds.warm).
Proof.
  apply (getRates_memory_shadows_files Scenario.seed "/home/sosx" Scenario.offlineApi
           CacheScenario.persisted ScenarioWorlds.warm
           {[ "/tmp/rates.json" := CacheScenario.recent ]}).
  discriminate.
Defined.

(** With [persistPath: ""] a successful call leaves the disk empty. *)
Lemma getRates_empty_path_touches_no_file_witness :
  snapshotFiles
    (snd (Index.getRates Scenario.seed "/home/sosx" Scenario.offlineApi
            CacheScenario.unpersisted Scenario.cold))
  = snapshotFiles Scenario.cold.
Proof.
  apply (getRates_empty_path_touches_no_file Scenario.seed "/home/sosx"
           Scenario.offlineApi CacheScenario.unpersisted Scenario.cold ∅).
  reflexivity.
Defined.

(** ** index.ts: a currency that the table does not have *)

Section FloatNaN.

Lemma float_mul_nan_r (x : float) : (x * PrimFloat.nan)%float = PrimFloat.nan.
Proof.
  apply Prim2SF_inj. rewrite mul_spec.
  change (Prim2SF PrimFloat.nan) with S754_nan.
  unfold SF64mul, SFmul. now destruct (Prim2SF x).
Qed.

Lemma float_mul_nan_l (x : float) : (PrimFloat.nan * x)%float = PrimFloat.nan.
Proof.
  apply Prim2SF_inj. rewrite mul_spec.
  change (Prim2SF PrimFloat.nan) with S754_nan.
  reflexivity.
Qed.

Lemma float_div_nan_r (x : float) : (x / PrimFloat.nan)%float = PrimFloat.nan.
Proof.
  apply Prim2SF_inj. rewrite div_spec.
  change (Prim2SF PrimFloat.nan) with S754_nan.
  unfold SF64div, SFdiv. now destruct (Prim2SF x).
Qed.

Variable seed : RateTable float.
Variable homedir : string.
Variable exchangerateHostApi : nat -> Response float.

Local Abbreviation getRates := (Index.getRates seed homedir exchangerateHostApi).
Local Abbreviation convert := (Index.convert seed homedir exchangerateHostApi).

(** X10.  [convert] does not reject a currency code that the resolved table has
    no entry for: whenever the entry of [from] or of [to] would be read
    and is missing, the result is [NaN], for every amount. *)
Theorem convert_unknown_currency_is_NaN (amount : float) (from to : string)
    (options : Index.GetRateOptions float) (w : World float) :
  from <> to ->
  (from <> "SOS" /\ fst (getRates options w) !! from = None)
  \/ (to <> "SOS" /\ fst (getRates options w) !! to = None) ->
  fst (convert amount from to options w) = PrimFloat.nan.
Proof.
  intros Hne Hmissing. rewrite convert_via_pivot by assumption. cbn [fst].
  unfold viaPivot, rateOf. cbn [nmul ndiv ofZ NaN Float64].
  destruct (String.eqb_spec from "SOS") as [Hfrom|Hfrom];
    [|destruct (String.eqb_spec to "SOS") as [Hto|Hto]].
  - destruct Hmissing as [[Hcontra _]|[_ ->]]; [contradiction|].
    apply float_mul_nan_r.
  - destruct Hmissing as [[_ ->]|[Hcontra _]]; [|contradiction].
    rewrite float_div_nan_r. apply float_mul_nan_r.
  - destruct Hmissing as [[_ ->]|[_ ->]].
    + rewrite float_div_nan_r, float_mul_nan_r. apply float_mul_nan_l.
    + apply float_mul_nan_r.
Qed.

End FloatNaN.

(** 100 USD in a currency that the seeded table does not list. *)
Lemma convert_unknown_currency_is_NaN_witness :
  fst (ConvertScenario.convert 100 "USD" "XAU" ConvertScenario.seeded) = PrimFloat.nan.
Proof.
  apply (convert_unknown_currency_is_NaN Scenario.seed "/home/sosx" Scenario.offlineApi
           100%float "USD" "XAU" Index.noOptions ConvertScenario.seeded).
  - discriminate.
  - right. split; [discriminate|]. vm_compute. reflexivity.
Defined.

(** ** index.ts: conversions in exact arithmetic *)

Section ExactConvert.
Variable seed : RateTable R.
Variable homedir : string.
Variable exchangerateHostApi : nat -> Response R.

Local Abbreviation getRates := (Index.getRates seed homedir exchangerateHostApi).
Local Abbreviation convert := (Index.convert seed homedir exchangerateHostApi).

(** X11.  Over the real numbers, converting through an intermediate currency
    gives what the direct conversion gives: if both calls resolve the same
    table and the rates of [a] and [b] in it are strictly positive (the
    pivot's own rate is never read), [convert(convert(x, a, b), b, c)] is
    [convert(x, a, c)], for any three currency codes. *)
Theorem convert_through_a_third_currency (x : R) (a b c : string)
    (options : Index.GetRateOptions R) (w : World R) :
  let table := fst (getRates options w) in
  let w1 := snd (getRates options w) in
  fst (getRates options w1) = table ->
  (a <> "SOS" -> (0 < rateOf table a)%R) ->
  (b <> "SOS" -> (0 < rateOf table b)%R) ->
  fst (convertVia seed homedir exchangerateHostApi x a b c options w)
  = fst (convert x a c options w).
Proof.
  cbv zeta. intros Hsame Ha Hb. unfold convertVia, bind.
  destruct (String.eqb_spec a b) as [->|Hab].
  { now rewrite convert_same. }
  rewrite (convert_via_pivot seed homedir exchangerateHostApi x a b) by assumption.
  destruct (String.eqb_spec b c) as [<-|Hbc].
  { rewrite convert_same.
    now rewrite (convert_via_pivot seed homedir exchangerateHostApi x a b). }
  rewrite convert_via_pivot by assumption. cbn [fst]. rewrite Hsame.
  set (table := fst (getRates options w)) in *.
  assert (Hgoal : viaPivot table (viaPivot table x a b) b c
                  = if String.eqb a c then x else viaPivot table x a c).
  { unfold viaPivot.
    destruct (String.eqb_spec a "SOS") as [HaS|HaS];
      destruct (String.eqb_spec b "SOS") as [HbS|HbS];
      destruct (String.eqb_spec c "SOS") as [HcS|HcS];
      destruct (String.eqb_spec a c) as [Hac|Hac];
      try congruence;
      try specialize (Ha HaS); try specialize (Hb HbS);
      try rewrite <- Hac;
      cbn [nmul ndiv ofZ Exact]; field; lra. }
  rewrite Hgoal.
  destruct (String.eqb_spec a c) as [->|Hac].
  - now rewrite convert_same.
  - now rewrite convert_via_pivot.
Qed.

(** X12.  Over the real numbers [convert] is linear in the amount: against the
    same world it is additive and commutes with scaling. *)
Theorem convert_is_linear (x y k : R) (from to : string)
    (options : Index.GetRateOptions R) (w : World R) :
  fst (convert (x + y)%R from to options w)
  = (fst (convert x from to options w) + fst (convert y from to options w))%R
  /\ fst (convert (k * x)%R from to options w)
     = (k * fst (convert x from to options w))%R.
Proof.
  destruct (String.eqb_spec from to) as [->|Hne].
  - rewrite !convert_same. now split.
  - rewrite !convert_via_pivot by assumption. cbn [fst]. unfold viaPivot.
    destruct (String.eqb from "SOS"); [|destruct (String.eqb to "SOS")];
      cbn [nmul ndiv ofZ Exact]; split; ring.
Qed.

End ExactConvert.

(** Offline and with nothing cached every call resolves the seed table:
    100 USD to EUR by way of the shilling are what 100 USD are in EUR. *)
Lemma convert_through_a_third_currency_witness :
  fst (convertVia ExactScenario.seed "/home/sosx" ExactScenario.noApi
         100%R "USD" "SOS" "EUR" ExactScenario.offline ExactScenario.cold)
  = fst (Index.convert ExactScenario.seed "/home/sosx" ExactScenario.noApi
           100%R "USD" "EUR" ExactScenario.offline ExactScenario.cold).
Proof.
  apply (convert_through_a_third_currency ExactScenario.seed "/home/sosx"
           ExactScenario.noApi 100%R "USD" "SOS" "EUR" ExactScenario.offline
           ExactScenario.cold).
  - reflexivity.
  - intros _. change (0 < 175 / 100000)%R. lra.
  - intros Hcontra. now contradiction Hcontra.
Defined.

(** ** historical.ts: the cache file between calls *)

Section HistoricalCache.
Context {num : Type} `{Number num}.
Variable providerManager : ProviderManager.ProviderConfig num.
Import Calendar HistoricalRateService.

Local Abbreviation fetched :=
  (fun date : string => ProviderManager.fetchHistoricalRates providerManager date).

Lemma logged_nil (w : World num) : logged [] w = w.
Proof. destruct w. unfold logged. cbn. now rewrite app_nil_r. Qed.


(** [getHistoricalRates] in one equation. *)
Lemma getHistoricalRates_run (date : string) (w : World num) :
  getHistoricalRates providerManager date w
  = match archive w !! date with
    | Some table => (Ok table, w)
    | None =>
        let called := logged (snd (fetched date)) w in
        match fst (fetched date) with
        | Ok rates =>
            (Ok rates,
             archived (prune (cutoffStr (today w)) (<[date := rates]> (archive w))) called)
        | Throw e => (Throw e, called)
        end
    end.
Proof.
  unfold getHistoricalRates, bind, getCachedRates, archive.
  destruct (default ∅ (historicalFile w) !! date) as [table|]; [reflexivity|].
  unfold callManager.
  destruct (ProviderManager.fetchHistoricalRates providerManager date) as [r events].
  cbn [fst snd]. unfold bind, outside, ret, logged.
  destruct r as [rates|e].
  - unfold cacheRates, bind, getCachedRates, newDate, tryWriteHistorical, archived, today.
    cbn. rewrite Z.add_0_r. reflexivity.
  - now rewrite Z.add_0_r.
Qed.




End HistoricalCache.




(** ** historical.ts: histories that need no provider *)

Section HistoryWithoutCalls.
Context {num : Type} `{Number num}.
Variable providerManager : ProviderManager.ProviderConfig num.
Import Calendar HistoricalRateService.

(** X16.  A range whose end lies before its start gives the empty history, and
    nothing is read, fetched or written for it. *)
Theorem getRateHistory_reversed_range (options : HistoricalRateOptions) (w : World num) :
  leb (from options) (to options) = false ->
  getRateHistory providerManager options w = ([], w).
Proof.
  intros Hreversed. unfold getRateHistory.
  destruct (daysToWalk (from options) (to options)) as [|steps]; [reflexivity|].
  cbn [walk]. now rewrite Hreversed.
Qed.



End HistoryWithoutCalls.


(** The end before the start. *)
Lemma getRateHistory_reversed_range_witness :
  HistoricalRateService.getRateHistory HistoryScenario.manager
    {| HistoricalRateService.from := HistoryScenario.day 2024 3 1;
       HistoricalRateService.to := HistoryScenario.day 2024 2 28;
       HistoricalRateService.currency := "USD";
       HistoricalRateService.baseCurrency := None |}
    HistoryScenario.march
  = ([], HistoryScenario.march).
Proof.
  apply (getRateHistory_reversed_range HistoryScenario.manager). reflexivity.
Defined.

(** ** historical.ts: a manager without a historical provider *)

Section NoHistory.
Context {num : Type} `{Number num}.
Import Calendar HistoricalRateService.

Lemma forEachDay_misses (providerManager : ProviderManager.ProviderConfig num)
    (days : list Date) (w : World num) :
  capable providerManager = [] ->
  archive w = ∅ ->
  (forall currency baseCurrency,
      flat_map (pointOf currency baseCurrency)
        (fst (forEachDay providerManager days w)) = [])
  /\ snd (forEachDay providerManager days w) = w.
Proof.
  intros Hnone Hempty.
  assert (Hstep : forall date,
             getHistoricalRates providerManager date w
             = (Throw "All providers failed for historical data. Last error: undefined",
                w)).
  { intros date. rewrite getHistoricalRates_run, Hempty, lookup_empty. cbv zeta.
    unfold ProviderManager.fetchHistoricalRates. fold (capable providerManager).
    rewrite Hnone. cbn. now rewrite logged_nil. }
  induction days as [|d rest (IH & IHw)]; [now split|].
  cbn [forEachDay]. unfold bind. rewrite Hstep.
  destruct (forEachDay providerManager rest w) as [answers w'].
  cbn [fst snd] in *. split; [|assumption]. intros; apply IH.
Qed.

Lemma getRateHistory_nothing (providerManager : ProviderManager.ProviderConfig num)
    (w : World num) (options : HistoricalRateOptions) :
  capable providerManager = [] ->
  archive w = ∅ ->
  wellFormed (from options) -> wellFormed (to options) ->
  getRateHistory providerManager options w = ([], w).
Proof.
  intros Hnone Hempty Hfrom Hto.
  destruct (walk_forEachDay providerManager (currency options)
              (default "SOS" (baseCurrency options)) (to options) Hto
              (daysToWalk (from options) (to options)) (from options) [] w Hfrom)
    as (days & _ & Hwalk).
  { unfold daysToWalk. lia. }
  unfold getRateHistory. rewrite Hwalk.
  destruct (forEachDay_misses providerManager days w Hnone Hempty) as (-> & ->).
  reflexivity.
Qed.



End NoHistory.



(** ** historical.ts: the volatility statistic in exact arithmetic *)

Section ExactVolatilityFacts.
Import HistoricalRateService.

Lemma dailyReturns_scaled (k : R) (history : list (HistoryPoint R)) :
  k <> 0%R -> Forall (fun p => rate p <> 0%R) history ->
  dailyReturns (scaled k history) = dailyReturns history.
Proof.
  intros Hk. induction history as [|p [|c rest] IH]; intros Hall; [reflexivity..|].
  inversion Hall as [|? ? Hp Hrest]; subst.
  change (dailyReturns (scaled k (p :: c :: rest)))
    with (((k * rate c - k * rate p) / (k * rate p))%R
          :: dailyReturns (scaled k (c :: rest))).
  rewrite (IH Hrest). cbn [dailyReturns nsub ndiv Exact]. f_equal. now field.
Qed.

(** X20.  Over the real numbers the volatility is a magnitude that does not
    depend on the unit of the quotation: it is never negative, and
    multiplying every rate of a history of non-zero rates by the same
    non-zero factor leaves it as it is. *)
Theorem volatilityOf_scale_invariant (k : R) (history : list (HistoryPoint R)) :
  k <> 0%R -> Forall (fun p => rate p <> 0%R) history ->
  volatilityOf (scaled k history) = volatilityOf history
  /\ (0 <= volatilityOf history)%R.
Proof.
  intros Hk Hrates. split.
  - unfold volatilityOf. rewrite (dailyReturns_scaled k history Hk Hrates).
    unfold scaled. now rewrite length_map.
  - unfold volatilityOf. destruct (length history <? 2).
    + cbn [ofZ Exact]. lra.
    + cbn [nmul nsqrt Exact]. apply Rmult_le_pos; apply sqrt_pos.
Qed.

Lemma total_constant (c : R) (l : list R) :
  Forall (fun x => x = c) l -> total l = (IZR (Z.of_nat (length l)) * c)%R.
Proof.
  unfold total. cbn [ofZ Exact nadd].
  assert (Hgen : forall a, Forall (fun x => x = c) l ->
            fold_left Rplus l a = (a + IZR (Z.of_nat (length l)) * c)%R).
  { induction l as [|x l IH]; intros a Hall.
    - cbn. ring.
    - inversion Hall as [|? ? -> Hrest]; subst. cbn [fold_left length].
      rewrite (IH _ Hrest). rewrite Nat2Z.inj_succ, succ_IZR. ring. }
  intros Hall. rewrite (Hgen _ Hall). ring.
Qed.

Lemma populationStdDev_constant (c : R) (l : list R) :
  Forall (fun x => x = c) l -> populationStdDev l = 0%R.
Proof.
  intros Hconst. destruct l as [|x l].
  { unfold populationStdDev, squaredDeviations, total, count. cbn.
    unfold Rdiv. rewrite Rmult_0_l. apply sqrt_0. }
  assert (Hcount : IZR (Z.of_nat (length (x :: l))) <> 0%R).
  { apply not_0_IZR. cbn [length]. lia. }
  assert (Hmean : mean (x :: l) = c).
  { unfold mean, count. rewrite (total_constant c _ Hconst).
    cbn [ndiv ofZ Exact]. now field. }
  unfold populationStdDev. rewrite total_zeros.
  - cbn [ndiv nsqrt Exact]. unfold Rdiv. rewrite Rmult_0_l. apply sqrt_0.
  - unfold squaredDeviations. rewrite Hmean.
    rewrite List.Forall_forall in *. intros y Hy.
    apply List.in_map_iff in Hy as (z & <- & Hz).
    rewrite (Hconst z Hz). cbn [nsub nmul Exact]. ring.
Qed.

Lemma dailyReturns_growth (g : R) (history : list (HistoryPoint R)) :
  growsBy g history -> Forall (fun p => rate p <> 0%R) history ->
  Forall (fun x => x = (g - 1)%R) (dailyReturns history).
Proof.
  induction history as [|p [|c rest] IH]; intros Hgrowth Hrates; [constructor..|].
  destruct Hgrowth as [Hstep Hrest].
  inversion Hrates as [|? ? Hp Hrates']; subst.
  cbn [dailyReturns]. constructor; [|now apply IH].
  rewrite Hstep. cbn [nsub nmul ndiv Exact]. now field.
Qed.

(** X21.  Over the real numbers a rate that changes by the same factor every day
    has volatility 0, whatever the factor: the statistic measures how the
    daily returns scatter, not how large they are. *)
Theorem volatilityOf_steady_growth (g : R) (history : list (HistoryPoint R)) :
  growsBy g history -> Forall (fun p => rate p <> 0%R) history ->
  volatilityOf history = 0%R.
Proof.
  intros Hgrowth Hrates.
  destruct (Nat.lt_ge_cases (length history) 2) as [Hshort|Hlong].
  - now rewrite volatilityOf_short.
  - rewrite volatilityOf_population by assumption.
    rewrite (populationStdDev_constant (g - 1)) by now apply dailyReturns_growth.
    cbn [nmul Exact]. apply Rmult_0_l.
Qed.

End ExactVolatilityFacts.

(** A history quoted per thousand shillings. *)
Lemma volatilityOf_scale_invariant_witness :
  HistoricalRateService.volatilityOf (scaled 1000%R (historyOf 1 [2; 3; 5]%R))
  = HistoricalRateService.volatilityOf (historyOf 1 [2; 3; 5]%R).
Proof.
  apply (volatilityOf_scale_invariant 1000%R (historyOf 1 [2; 3; 5]%R)).
  - lra.
  - repeat constructor; cbn; lra.
Defined.

(** A rate that doubles every day. *)
Lemma volatilityOf_steady_growth_witness :
  HistoricalRateService.volatilityOf (historyOf 1 [1; 2; 4; 8]%R) = 0%R.
Proof.
  apply (volatilityOf_steady_growth 2%R (historyOf 1 [1; 2; 4; 8]%R)).
  - cbn. repeat split; lra.
  - repeat constructor; cbn; lra.
Defined.

(** ** providers/exchangeratehost.ts: the table that the provider builds *)

Section Upstream.
Context {num : Type} `{Number num} `{Comparisons num}.

Lemma invert_lookup (usdTo : gmap string num) (sosPerUsd : num) (k : string) :
  invert usdTo sosPerUsd !! k = (fun v => (v / sosPerUsd)%num) <$> usdTo !! k.
Proof. unfold invert. apply lookup_fmap. Qed.

(** X22.  When [fetchRatesSOS] of exchangerate.host resolves, the response was
    [ok], its body quoted the shilling at a rate that is neither zero nor
    [NaN], and the table has exactly the currencies of the body, each at
    its rate divided by that of the shilling.  In every other case the
    call rejects; it never divides by a missing or zero rate. *)
Theorem exchangerateHost_table (exchange : Exchange num) (table : RateTable num) :
  settled (ExchangerateHost.fetchRatesSOS exchange) = Ok table ->
  exists res usdTo sosPerUsd,
    response exchange = Ok res
    /\ ok res = true
    /\ jsonRates res = Ok usdTo
    /\ usdTo !! "SOS" = Some sosPerUsd
    /\ falsy sosPerUsd = false
    /\ dom table = dom usdTo
    /\ (forall k, table !! k = (fun v => (v / sosPerUsd)%num) <$> usdTo !! k)
    /\ table !! "SOS" = Some (sosPerUsd / sosPerUsd)%num.
Proof.
  unfold ExchangerateHost.fetchRatesSOS. cbn [settled].
  destruct (response exchange) as [res|e] eqn:Hres; [|discriminate].
  destruct (ok res) eqn:Hok; [|discriminate]. cbn [negb].
  destruct (jsonRates res) as [usdTo|e] eqn:Hbody; [|discriminate].
  destruct (usdTo !! "SOS") as [sosPerUsd|] eqn:Hsos; [|discriminate].
  destruct (falsy sosPerUsd) eqn:Hfalsy; [discriminate|].
  intros [= <-]. exists res, usdTo, sosPerUsd.
  do 5 (split; [reflexivity || assumption|]).
  split; [unfold invert; apply dom_fmap_L|].
  split; [intros k; apply invert_lookup|].
  now rewrite invert_lookup, Hsos.
Qed.

End Upstream.

(** A body that quotes the dollar at 570 shillings and 0.92 euros. *)
Lemma exchangerateHost_table_witness :
  exists res usdTo sosPerUsd,
    response UpstreamScenario.answer = Ok res
    /\ ok res = true
    /\ jsonRates res = Ok usdTo
    /\ usdTo !! "SOS" = Some sosPerUsd
    /\ falsy sosPerUsd = false
    /\ dom (invert UpstreamScenario.usdTo 570%float) = dom usdTo
    /\ (forall k, invert UpstreamScenario.usdTo 570%float !! k
                  = (fun v => (v / sosPerUsd)%float) <$> usdTo !! k)
    /\ invert UpstreamScenario.usdTo 570%float !! "SOS"
       = Some (sosPerUsd / sosPerUsd)%float.
Proof.
  exact (exchangerateHost_table UpstreamScenario.answer
           (invert UpstreamScenario.usdTo 570%float) eq_refl).
Defined.

(** ** From the provider's quotation to a conversion, in exact arithmetic *)

Section UpstreamExact.
Variable seed : RateTable R.
Variable homedir : string.
Variable exchangerateHostApi : nat -> Response R.

Local Abbreviation getRates := (Index.getRates seed homedir exchangerateHostApi).
Local Abbreviation convert := (Index.convert seed homedir exchangerateHostApi).

(** X23.  Over the real numbers, a conversion that runs on a table just obtained
    from exchangerate.host reproduces the quotation of the provider: the
    shilling stands at 1 in the table, and [convert(x, a, b)] is
    [x * usdTo[b] / usdTo[a]] for any two different currencies of the body
    that it quotes above zero, the shilling included. *)
Theorem convert_reproduces_the_quotation (http : nat -> Exchange R)
    (options : Index.GetRateOptions R) (w : World R)
    (res : HttpResponse R) (usdTo : gmap string R) (x sosPerUsd rateA rateB : R)
    (a b : string) :
  Index.provider options = Some (ExchangerateHost.provider http) ->
  default false (Index.offline options) = false ->
  cachedSnapshot (default (Index.defaultPersistPath homedir) (Index.persistPath options)) w
  = None ->
  response (http 0) = Ok res -> ok res = true -> jsonRates res = Ok usdTo ->
  usdTo !! "SOS" = Some sosPerUsd -> (0 < sosPerUsd)%R ->
  a <> b -> usdTo !! a = Some rateA -> usdTo !! b = Some rateB ->
  (0 < rateA)%R -> (0 < rateB)%R ->
  fst (getRates options w) !! "SOS" = Some 1%R
  /\ fst (convert x a b options w) = (x * rateB / rateA)%R.
Proof.
  intros Hprovider Honline Hcold Hres Hok Hbody Hs Hpos Hab Ha Hb HposA HposB.
  set (s := sosPerUsd) in *.
  assert (Hfalsy : falsy s = false).
  { unfold falsy. cbn [neqb ofZ Exact ExactComparisons].
    destruct (Req_dec_T s 0); [lra|]. now destruct (Req_dec_T s s). }
  assert (Htable : fst (getRates options w) = invert usdTo s).
  { rewrite (getRates_live seed homedir exchangerateHostApi options w (invert usdTo s)).
    - reflexivity.
    - intros c Hc. rewrite Hcold in Hc. discriminate.
    - exact Honline.
    - rewrite Hprovider. cbn [default from_option Datatypes.id].
      unfold ExchangerateHost.provider, ExchangerateHostProvider.
      cbn [Provider.fetchRatesSOS]. unfold ExchangerateHost.fetchRatesSOS.
      cbn [settled]. rewrite Hres, Hok, Hbody, Hs, Hfalsy. reflexivity. }
  split.
  - rewrite Htable, invert_lookup, Hs. cbn [fmap option_fmap option_map ndiv Exact].
    f_equal. field. lra.
  - rewrite convert_via_pivot by assumption. cbn [fst]. rewrite Htable.
    unfold viaPivot, rateOf. rewrite !invert_lookup, Ha, Hb.
    cbn [fmap option_fmap option_map nmul ndiv ofZ Exact].
    destruct (String.eqb_spec a "SOS") as [->|HaS];
      [|destruct (String.eqb_spec b "SOS") as [->|HbS]].
    + assert (rateA = s) by congruence. subst. field. lra.
    + assert (rateB = s) by congruence. subst. field. lra.
    + field. lra.
Qed.

End UpstreamExact.

(** With the dollar at 570 shillings and 0.92 euros, 100 euros are
    [100 * 570 / 0.92] shillings. *)
Lemma convert_reproduces_the_quotation_witness :
  fst (Index.getRates ExactScenario.seed "/home/sosx" ExactScenario.noApi
         UpstreamScenario.live ExactScenario.cold) !! "SOS" = Some 1%R
  /\ fst (Index.convert ExactScenario.seed "/home/sosx" ExactScenario.noApi
            100%R "EUR" "SOS" UpstreamScenario.live ExactScenario.cold)
     = (100 * 570 / (92 / 100))%R.
Proof.
  apply (convert_reproduces_the_quotation ExactScenario.seed "/home/sosx"
           ExactScenario.noApi (fun _ => UpstreamScenario.answerExact)
           UpstreamScenario.live ExactScenario.cold
           {| ok := true; status := 200; jsonRates := Ok UpstreamScenario.usdToExact |}
           UpstreamScenario.usdToExact 100%R 570%R (92 / 100)%R 570%R "EUR" "SOS").
  - reflexivity.
  - reflexivity.
  - reflexivity.
  - reflexivity.
  - reflexivity.
  - reflexivity.
  - reflexivity.
  - lra.
  - discriminate.
  - reflexivity.
  - reflexivity.
  - lra.
  - lra.
Defined.

(** ** transfer-fees.ts: what [calculateTransferFee] charges *)

Section TransferFeeFacts.
Variable seed : RateTable R.
Variable homedir : string.
Variable exchangerateHostApi : nat -> Response R.
Import TransferFees.

Local Abbreviation calculateTransferFee :=
  (TransferFees.calculateTransferFee seed homedir exchangerateHostApi).
Local Abbreviation midMarket :=
  (fun (options : TransferFeeOptions R) (w : World R) =>
     Index.convert seed homedir exchangerateHostApi 1%R (from options) (to options)
       Index.noOptions w).

Lemma decimal_exact (digits scale : Z) :
  decimal (num := R) digits scale = (IZR digits / IZR scale)%R.
Proof. reflexivity. Qed.

Ltac sound_limits :=
  unfold soundLimits, structure;
  cbn [minimumFee maximumFee fixedFee percentageFee exchangeRateMargin];
  rewrite ?decimal_exact; cbn [ofZ Exact];
  repeat split; try reflexivity; lra.

(** Every entry of the table but one has sound limits; the one that has
    not is that of a method that is not offered. *)
Lemma feeStructureOf_cases (provider method : string) (s : ProviderFeeStructure R) :
  feeStructureOf provider method = Some s ->
  (provider = "wise" /\ method = "cash-pickup" /\ notOffered s = true)
  \/ (notOffered s = false /\ exists minimum maximum, soundLimits s minimum maximum).
Proof.
  unfold feeStructureOf, PROVIDER_FEES. intros Hs.
  destruct (_ !! provider) as [fees|] eqn:Hfees; [|discriminate].
  repeat (apply lookup_insert_Some in Hfees as [[<- <-] | [_ Hfees]]);
    [..|apply lookup_singleton_Some in Hfees as [<- <-]];
    repeat (apply lookup_insert_Some in Hs as [[<- <-] | [_ Hs]]);
    try (apply lookup_singleton_Some in Hs as [<- <-]).
  all: try (right; split;
            [unfold notOffered, structure; cbn [fixedFee percentageFee];
             rewrite ?decimal_exact; cbn [neqb ofZ Exact ExactComparisons];
             match goal with
             | |- context [Req_dec_T ?x 0] => destruct (Req_dec_T x 0); [lra|reflexivity]
             end
            | eexists _, _; sound_limits ]).
  left. split; [reflexivity|]. split; [reflexivity|].
  unfold notOffered, structure. cbn [fixedFee percentageFee neqb ofZ Exact ExactComparisons].
  now destruct (Req_dec_T 0 0).
Qed.

Lemma chargedFee_clamps (s : ProviderFeeStructure R) (minimum maximum amount : R) :
  soundLimits s minimum maximum ->
  chargedFee s amount
  = Rmin (Rmax (minimum + amount * percentageFee s) minimum) maximum.
Proof.
  intros (Hmin & Hmax & Hlimits & Hfixed & Hpct & Hmargin).
  unfold chargedFee, limited, falsy. rewrite Hmin, Hmax, Hfixed.
  cbn [default from_option Datatypes.id neqb nltb ofZ nadd nmul Exact ExactComparisons].
  set (total := (minimum + amount * percentageFee s)%R).
  destruct (Req_dec_T minimum 0); [lra|].
  destruct (Req_dec_T minimum minimum); [|contradiction].
  destruct (Req_dec_T maximum 0); [lra|].
  destruct (Req_dec_T maximum maximum); [|contradiction].
  cbn [orb negb andb].
  unfold Rmin, Rmax.
  destruct (Rlt_dec total minimum); destruct (Rle_dec total minimum); cbn [andb];
  repeat match goal with
         | |- context [Rlt_dec ?a ?b] => destruct (Rlt_dec a b)
         | |- context [Rle_dec ?a ?b] => destruct (Rle_dec a b)
         end; lra.
Qed.

Lemma calculateTransferFee_run (options : TransferFeeOptions R) (w : World R) :
  calculateTransferFee options w
  = match feeStructureOf (provider options) (method options) with
    | Some s =>
        if notOffered s
        then (Throw (method options +:+ " is not available for " +:+ provider options), w)
        else
          let rate := (fst (midMarket options w) * (1 - exchangeRateMargin s))%R in
          (Ok {| fee := chargedFee s (amount options);
                 exchangeRate := rate;
                 totalCost := (amount options + chargedFee s (amount options))%R;
                 recipientAmount := (amount options * rate)%R;
                 resultProvider := provider options;
                 resultEstimatedTime := estimatedTime s |},
           snd (midMarket options w))
    | None =>
        (Throw (match PROVIDER_FEES (num := R) !! provider options with
                | Some _ =>
                    "Method " +:+ method options +:+ " not available for "
                      +:+ provider options
                | None => "Unsupported provider: " +:+ provider options
                end), w)
    end.
Proof.
  unfold TransferFees.calculateTransferFee, feeStructureOf.
  destruct (PROVIDER_FEES !! provider options) as [fees|]; [|reflexivity].
  destruct (fees !! method options) as [s|]; [|reflexivity].
  unfold notOffered.
  destruct (neqb (fixedFee s) (ofZ 0) && neqb (percentageFee s) (ofZ 0)); [reflexivity|].
  unfold bind, ret. cbv zeta.
  change (@ofZ R Exact 1) with 1%R.
  destruct (Index.convert seed homedir exchangerateHostApi 1%R (from options)
              (to options) Index.noOptions w) as [mid w1].
  reflexivity.
Qed.

(** X24.  Over the real numbers, a result of [calculateTransferFee] charges a
    fee between the minimum and the maximum of the provider's fee structure
    for the method: the fixed fee plus the percentage of the amount,
    raised to the minimum and cut to the maximum.  The total cost is the
    amount plus that fee, and the recipient gets the amount at the
    mid-market rate of [convert(1, from, to)] lowered by the provider's
    margin. *)
Theorem calculateTransferFee_charges (options : TransferFeeOptions R) (w w' : World R)
    (result : TransferFeeResult R) :
  calculateTransferFee options w = (Ok result, w') ->
  exists s minimum maximum,
    feeStructureOf (provider options) (method options) = Some s
    /\ soundLimits s minimum maximum
    /\ fee result
       = Rmin (Rmax (fixedFee s + amount options * percentageFee s) minimum) maximum
    /\ (minimum <= fee result <= maximum)%R
    /\ totalCost result = (amount options + fee result)%R
    /\ exchangeRate result
       = (fst (midMarket options w) * (1 - exchangeRateMargin s))%R
    /\ recipientAmount result = (amount options * exchangeRate result)%R
    /\ w' = snd (midMarket options w).
Proof.
  rewrite calculateTransferFee_run.
  destruct (feeStructureOf (provider options) (method options)) as [s|] eqn:Hs;
    [|discriminate].
  destruct (feeStructureOf_cases _ _ s Hs) as [(_ & _ & Hnot) | (Hoffered & lo & hi & Hsound)];
    rewrite ?Hnot, ?Hoffered; [discriminate|].
  cbv zeta. intros [= <- <-]. exists s, lo, hi.
  cbn [fee totalCost exchangeRate recipientAmount].
  rewrite (chargedFee_clamps s lo hi _ Hsound).
  destruct Hsound as (Hmin & Hmax & Hlimits & Hfixed & Hpct & Hmargin).
  split; [reflexivity|]. split; [now repeat split|].
  split; [now rewrite Hfixed|].
  split; [|now repeat split].
  unfold Rmin, Rmax.
  destruct (Rle_dec (lo + amount options * percentageFee s) lo);
    match goal with |- context [Rle_dec ?a ?b] => destruct (Rle_dec a b) end; lra.
Qed.

(** X25.  Over the real numbers the fee never falls when the amount grows. *)
Theorem transfer_fee_is_monotone (options options' : TransferFeeOptions R)
    (w1 w1' w2 w2' : World R) (result result' : TransferFeeResult R) :
  provider options' = provider options -> method options' = method options ->
  (amount options <= amount options')%R ->
  calculateTransferFee options w1 = (Ok result, w1') ->
  calculateTransferFee options' w2 = (Ok result', w2') ->
  (fee result <= fee result')%R.
Proof.
  intros Hprovider Hmethod Hle.
  rewrite !calculateTransferFee_run, Hprovider, Hmethod.
  destruct (feeStructureOf (provider options) (method options)) as [s|] eqn:Hs;
    [|discriminate].
  destruct (feeStructureOf_cases _ _ s Hs) as [(_ & _ & Hnot) | (Hoffered & lo & hi & Hsound)];
    rewrite ?Hnot, ?Hoffered; [discriminate|].
  cbv zeta. intros [= <- <-] [= <- <-]. cbn [fee].
  rewrite !(chargedFee_clamps s lo hi _ Hsound).
  destruct Hsound as (Hmin & Hmax & Hlimits & Hfixed & Hpct & Hmargin).
  assert (Hpart : (amount options * percentageFee s
                   <= amount options' * percentageFee s)%R)
    by (apply Rmult_le_compat_r; lra).
  apply Rle_min_compat_r. apply Rle_max_compat_r. lra.
Qed.










End TransferFeeFacts.

(** 200 USD by mobile money with Remitly: 1.99 plus half a percent, within
    the limits of 1.99 and 15. *)
Lemma calculateTransferFee_charges_witness :
  exists result w',
    TransferFees.calculateTransferFee ExactScenario.seed "/home/sosx" ExactScenario.noApi
      FeeScenario.remitly ExactScenario.cold
    = (Ok result, w')
    /\ TransferFees.fee result
       = Rmin (Rmax (199 / 100 + 200 * (5 / 1000)) (199 / 100)) 15
    /\ (199 / 100 <= TransferFees.fee result <= 15)%R.
Proof.
  pose (s0 := TransferFees.structure (decimal 199 100)
                (decimal 5 1000) (decimal 1 100)
                "Within minutes" (decimal 199 100) 15%R).
  assert (Hs : feeStructureOf "remitly" "mobile-money" = Some s0) by reflexivity.
  assert (Hoffered : notOffered s0 = false).
  { destruct (feeStructureOf_cases _ _ _ Hs) as [(Hcontra & _) | (Hoffered & _)];
      [discriminate | exact Hoffered]. }
  pose proof (calculateTransferFee_run ExactScenario.seed "/home/sosx" ExactScenario.noApi
                FeeScenario.remitly ExactScenario.cold) as Hrun.
  cbn [TransferFees.provider TransferFees.method FeeScenario.remitly FeeScenario.mobileMoney] in Hrun.
  rewrite Hs, Hoffered in Hrun. cbv zeta in Hrun.
  destruct (calculateTransferFee_charges _ _ _ _ _ _ _ Hrun)
    as (s & lo & hi & Hs' & Hsound & Hfee & Hbounds & _).
  cbn [TransferFees.provider TransferFees.method FeeScenario.remitly FeeScenario.mobileMoney] in Hs'.
  rewrite Hs in Hs'. injection Hs' as <-.
  destruct Hsound as (Hmin & Hmax & _).
  injection Hmin as <-. injection Hmax as <-.
  eexists _, _. split; [exact Hrun|]. split; [exact Hfee | exact Hbounds].
Defined.

(** With Remitly, mobile money for 300 USD costs no less than for 200. *)
Lemma transfer_fee_is_monotone_witness :
  exists result result' w1 w2,
    TransferFees.calculateTransferFee ExactScenario.seed "/home/sosx" ExactScenario.noApi
      (FeeScenario.mobileMoney 200) ExactScenario.cold
    = (Ok result, w1)
    /\ TransferFees.calculateTransferFee ExactScenario.seed "/home/sosx" ExactScenario.noApi
         (FeeScenario.mobileMoney 300) ExactScenario.cold
       = (Ok result', w2)
    /\ (TransferFees.fee result <= TransferFees.fee result')%R.
Proof.
  pose (s0 := TransferFees.structure (decimal 199 100)
                (decimal 5 1000) (decimal 1 100)
                "Within minutes" (decimal 199 100) 15%R).
  assert (Hs : feeStructureOf "remitly" "mobile-money" = Some s0) by reflexivity.
  assert (Hoffered : notOffered s0 = false).
  { destruct (feeStructureOf_cases _ _ _ Hs) as [(Hcontra & _) | (Hoffered & _)];
      [discriminate | exact Hoffered]. }
  pose proof (calculateTransferFee_run ExactScenario.seed "/home/sosx" ExactScenario.noApi
                (FeeScenario.mobileMoney 200) ExactScenario.cold) as Hrun.
  pose proof (calculateTransferFee_run ExactScenario.seed "/home/sosx" ExactScenario.noApi
                (FeeScenario.mobileMoney 300) ExactScenario.cold) as Hrun'.
  cbn [TransferFees.provider TransferFees.method FeeScenario.mobileMoney] in Hrun, Hrun'.
  rewrite Hs, Hoffered in Hrun, Hrun'. cbv zeta in Hrun, Hrun'.
  eexists _, _, _, _. split; [exact Hrun|]. split; [exact Hrun'|].
  apply (transfer_fee_is_monotone ExactScenario.seed "/home/sosx" ExactScenario.noApi
           (FeeScenario.mobileMoney 200) (FeeScenario.mobileMoney 300)
           _ _ _ _ _ _ eq_refl eq_refl ltac:(cbn; lra) Hrun Hrun').
Defined.


(** In binary64 the quotients of the table are the doubles of the
    literals of the source. *)
Lemma PROVIDER_FEES_binary64 :
  feeStructureOf "western-union" "bank-transfer" = Some FeeScenario.westernUnionBank
  /\ decimal 399 100 = 3.99%float
  /\ decimal 499 100 = 4.99%float
  /\ decimal 199 100 = 1.99%float
  /\ decimal 299 100 = 2.99%float
  /\ decimal 599 100 = 5.99%float
  /\ decimal 249 100 = 2.49%float
  /\ decimal 15 10 = 1.50%float
  /\ decimal 25 1000 = 0.025%float
  /\ decimal 1 100 = 0.01%float
  /\ decimal 5 1000 = 0.005%float
  /\ decimal 12 1000 = 0.012%float
  /\ decimal 18 1000 = 0.018%float
  /\ decimal 22 1000 = 0.022%float
  /\ decimal 8 1000 = 0.008%float
  /\ decimal 7 1000 = 0.007%float.
Proof. repeat split; vm_compute; reflexivity. Qed.

(** ** analysis.ts: the indicators of [MarketAnalyzer] *)

Section Indicators.
Import MarketAnalyzer.

Lemma sum_fold (l : list R) (a : R) :
  fold_left (fun sum x => (sum + x)%num) l a = (a + MarketAnalyzer.sum l)%R.
Proof.
  unfold MarketAnalyzer.sum. cbn [ofZ nadd Exact].
  revert a. induction l as [|x l IH]; intros a.
  - cbn. lra.
  - cbn [fold_left]. rewrite (IH (a + x)%R), (IH (0 + x)%R). lra.
Qed.

Lemma sum_cons (x : R) (l : list R) :
  MarketAnalyzer.sum (x :: l) = (x + MarketAnalyzer.sum l)%R.
Proof.
  unfold MarketAnalyzer.sum at 1. cbn [fold_left ofZ nadd Exact].
  rewrite sum_fold. lra.
Qed.

Lemma sum_nonneg (l : list R) :
  Forall (fun x => (0 <= x)%R) l -> (0 <= MarketAnalyzer.sum l)%R.
Proof.
  induction 1 as [|x l Hx Hl IH].
  - unfold MarketAnalyzer.sum. cbn. lra.
  - rewrite sum_cons. lra.
Qed.

Lemma sum_positive (l : list R) :
  l <> [] -> Forall (fun x => (0 < x)%R) l -> (0 < MarketAnalyzer.sum l)%R.
Proof.
  intros Hne Hall. destruct Hall as [|x l Hx Hl]; [contradiction|].
  rewrite sum_cons.
  assert (0 <= MarketAnalyzer.sum l)%R.
  { apply sum_nonneg. eapply Forall_impl; [exact Hl|]. cbn. intros; lra. }
  lra.
Qed.

Lemma lengthOf_positive {A : Type} (l : list A) :
  l <> [] -> (0 < lengthOf (num := R) l)%R.
Proof.
  intros Hne. unfold lengthOf. cbn [ofZ Exact]. apply IZR_lt.
  destruct l; [contradiction|]. cbn [length]. lia.
Qed.

(** X28.  Over the real numbers the relative strength index lies between 0 and
    100 for every series and every period; it is 50 when the series has
    no more than [period] rates, and 100 when none of the last [period]
    changes is a fall. *)
Theorem calculateRSI_range (rates : list R) (period : nat) :
  (0 <= calculateRSI rates period <= 100)%R
  /\ (length rates <= period -> calculateRSI rates period = 50%R)
  /\ (period < length rates ->
      Forall (fun change => (0 <= change)%R) (sliceLast period (changesOf rates)) ->
      calculateRSI rates period = 100%R).
Proof.
  unfold calculateRSI.
  destruct (Nat.ltb_spec (length rates) (period + 1)) as [Hshort|Hlong].
  { cbn [ofZ Exact]. split; [lra|]. split; [reflexivity|]. intros Hlt. lia. }
  cbv zeta.
  set (recent := sliceLast period (changesOf rates)).
  set (gains := List.filter (fun change => nltb (ofZ 0) change) recent).
  set (falls := List.filter (fun change => nltb change (ofZ 0)) recent).
  assert (Hgains : Forall (fun x => (0 < x)%R) gains).
  { apply List.Forall_forall. intros x Hx. apply List.filter_In in Hx as [_ Hx].
    cbn [nltb ofZ Exact ExactComparisons] in Hx.
    now destruct (Rlt_dec 0 x). }
  assert (Hlosses : Forall (fun x => (0 < x)%R) (List.map nabs falls)).
  { apply List.Forall_forall. intros y Hy.
    apply List.in_map_iff in Hy as (x & <- & Hx).
    apply List.filter_In in Hx as [_ Hx].
    cbn [nltb ofZ Exact ExactComparisons] in Hx.
    destruct (Rlt_dec x 0) as [Hneg|]; [|discriminate].
    cbn [nabs ExactMath]. apply Rabs_pos_lt. lra. }
  set (avgGain := if 0 <? length gains then _ else _).
  set (avgLoss := if 0 <? length (List.map nabs falls) then _ else _).
  assert (HavgGain : (0 <= avgGain)%R).
  { subst avgGain. destruct gains as [|g gains'] eqn:Hg; cbn [length Nat.ltb Nat.leb].
    - cbn [ofZ Exact]. lra.
    - cbn [ndiv Exact]. apply Rlt_le. apply Rdiv_lt_0_compat.
      + now apply sum_positive.
      + now apply lengthOf_positive. }
  assert (HavgLoss : (avgLoss = 0 /\ falls = [] \/ 0 < avgLoss)%R).
  { subst avgLoss. destruct falls as [|f falls'] eqn:Hf; cbn [List.map length Nat.ltb Nat.leb].
    - left. now split.
    - right. cbn [ndiv Exact]. apply Rdiv_lt_0_compat.
      + apply sum_positive; [discriminate | exact Hlosses].
      + now apply lengthOf_positive. }
  cbn [neqb ofZ nsub nadd ndiv Exact ExactComparisons].
  destruct (Req_dec_T avgLoss 0) as [Hzero|Hnonzero].
  - split; [lra|]. split; [intros; lia | reflexivity].
  - destruct HavgLoss as [[Hcontra _] | Hpos]; [contradiction|].
    assert (Hrs : (0 <= avgGain / avgLoss)%R).
    { apply Rmult_le_pos; [assumption|]. apply Rlt_le. now apply Rinv_0_lt_compat. }
    assert (Hquot : (0 < 100 / (1 + avgGain / avgLoss) <= 100)%R).
    { split.
      - apply Rdiv_lt_0_compat; lra.
      - apply (Rmult_le_reg_r (1 + avgGain / avgLoss)); [lra|].
        unfold Rdiv at 1. rewrite Rmult_assoc, Rinv_l by lra. nra. }
    split; [lra|]. split; [intros; lia|].
    intros _ Hrising. exfalso.
    assert (Hfalls : falls = []).
    { subst falls. clear -Hrising. fold recent in Hrising.
      induction recent as [|x l IH]; [reflexivity|].
      inversion Hrising as [|? ? Hx Hl]; subst.
      cbn [List.filter nltb ofZ Exact ExactComparisons].
      destruct (Rlt_dec x 0); [lra|]. now apply IH. }
    subst avgLoss. rewrite Hfalls in Hnonzero. cbn in Hnonzero. now apply Hnonzero.
Qed.

Lemma fold_left_Rmin_le (l : list R) (a : R) :
  (fold_left Rmin l a <= a)%R
  /\ Forall (fun x => (fold_left Rmin l a <= x)%R) l
  /\ In (fold_left Rmin l a) (a :: l).
Proof.
  revert a. induction l as [|x l IH]; intros a.
  - cbn. split; [lra|]. split; [constructor | now left].
  - cbn [fold_left]. destruct (IH (Rmin a x)) as (Hle & Hall & Hin).
    pose proof (Rmin_l a x). pose proof (Rmin_r a x).
    split; [lra|]. split.
    + constructor; [lra | exact Hall].
    + destruct Hin as [Heq | Hin]; [|now right; right].
      rewrite <- Heq. unfold Rmin. destruct (Rle_dec a x); [now left | now right; left].
Qed.

Lemma fold_left_Rmax_ge (l : list R) (a : R) :
  (a <= fold_left Rmax l a)%R
  /\ Forall (fun x => (x <= fold_left Rmax l a)%R) l
  /\ In (fold_left Rmax l a) (a :: l).
Proof.
  revert a. induction l as [|x l IH]; intros a.
  - cbn. split; [lra|]. split; [constructor | now left].
  - cbn [fold_left]. destruct (IH (Rmax a x)) as (Hle & Hall & Hin).
    pose proof (Rmax_l a x). pose proof (Rmax_r a x).
    split; [lra|]. split.
    + constructor; [lra | exact Hall].
    + destruct Hin as [Heq | Hin]; [|now right; right].
      rewrite <- Heq. unfold Rmax. destruct (Rle_dec a x); [now right; left | now left].
Qed.

(** X29.  Over the real numbers support and resistance bracket the recent
    rates: for a series that is not empty, the support is the least and
    the resistance the greatest of its last thirty rates, so every one of
    those lies between the two, and both are rates of the series. *)
Theorem support_and_resistance_bracket (rates : list R) :
  rates <> [] ->
  let recent := sliceLast 30 rates in
  Forall (fun rate => (calculateSupport rates <= rate <= calculateResistance rates)%R) recent
  /\ In (calculateSupport rates) recent
  /\ In (calculateResistance rates) recent
  /\ (forall rate, In rate recent -> In rate rates)
  /\ length recent = Nat.min 30 (length rates).
Proof.
  intros Hne. cbv zeta. unfold calculateSupport, calculateResistance.
  assert (Hlength : length (sliceLast 30 rates) = Nat.min 30 (length rates)).
  { unfold sliceLast, fromEnd. rewrite length_skipn. lia. }
  assert (Hrecent : sliceLast 30 rates <> []).
  { intros Hnil. rewrite Hnil in Hlength. destruct rates; [contradiction|].
    cbn [length] in Hlength. lia. }
  destruct (sliceLast 30 rates) as [|x rest] eqn:Hslice; [contradiction|].
  unfold mathMin, mathMax. cbn [nmin nmax ExactMath].
  destruct (fold_left_Rmin_le rest x) as (Hmin & Hmins & Hminin).
  destruct (fold_left_Rmax_ge rest x) as (Hmax & Hmaxs & Hmaxin).
  split; [|split; [exact Hminin|split; [exact Hmaxin|split; [|exact Hlength]]]].
  - constructor; [lra|].
    rewrite List.Forall_forall in *. intros y Hy.
    specialize (Hmins y Hy). specialize (Hmaxs y Hy). lra.
  - intros rate Hin. rewrite <- Hslice in Hin. unfold sliceLast in Hin.
    rewrite <- (firstn_skipn (fromEnd 30 rates) rates).
    apply List.in_or_app. now right.
Qed.

End Indicators.

(** A series that ends on a rise after thirteen changes of one up and one
    down. *)
Lemma support_and_resistance_bracket_witness :
  Forall (fun rate =>
            (MarketAnalyzer.calculateSupport AnalysisScenario.zigzagExact <= rate
             <= MarketAnalyzer.calculateResistance AnalysisScenario.zigzagExact)%R)
    (MarketAnalyzer.sliceLast 30 AnalysisScenario.zigzagExact).
Proof.
  apply (support_and_resistance_bracket AnalysisScenario.zigzagExact). discriminate.
Defined.

(** ** analysis.ts: [analyzeMarket] needs fourteen days *)

Section AnalyzeMarket.
Context {num : Type} `{Number num} `{Comparisons num} `{MathOps num}.
Variable exchangerateHostApi : nat -> Response num.
Import MarketAnalyzer.

Local Abbreviation analyzeMarket := (MarketAnalyzer.analyzeMarket exchangerateHostApi).

(** X30.  [analyzeMarket] throws when the history of the period has fewer than
    fourteen points, and then it has walked the history once and not
    asked for the volatility.  When the module of [historical.ts] has not
    been given a provider before, the default service is what it uses: on
    a machine with no historical cache every analysis throws, without
    calling anything.  The currency [from] plays no part in any of this. *)
Theorem analyzeMarket_needs_fourteen_days (from to : string) (days : Z)
    (service : option (ProviderManager.ProviderConfig num)) (w : World num) :
  let manager := Convenience.ensureService exchangerateHostApi None service in
  let window :=
    {| HistoricalRateService.from := Calendar.addDays (- days) (today w);
       HistoricalRateService.to := today w;
       HistoricalRateService.currency := to;
       HistoricalRateService.baseCurrency := None |} in
  let walked := HistoricalRateService.getRateHistory manager window w in
  let insufficient : Result (MarketAnalysis num) :=
    Throw "Insufficient data for analysis (minimum 14 days required)" in
  fst (analyzeMarket from to days service) = Some manager
  /\ (length (fst walked) < 14 ->
      snd (analyzeMarket from to days service) w = (insufficient, snd walked))
  /\ (service = None -> archive w = ∅ ->
      snd (analyzeMarket from to days service) w = (insufficient, w))
  /\ (forall from', analyzeMarket from' to days service = analyzeMarket from to days service).
Proof.
  cbv zeta. split; [reflexivity|].
  assert (Hshort :
            length (fst (HistoricalRateService.getRateHistory
                           (Convenience.ensureService exchangerateHostApi None service)
                           {| HistoricalRateService.from :=
                                Calendar.addDays (- days) (today w);
                              HistoricalRateService.to := today w;
                              HistoricalRateService.currency := to;
                              HistoricalRateService.baseCurrency := None |} w)) < 14 ->
            snd (analyzeMarket from to days service) w
            = (Throw "Insufficient data for analysis (minimum 14 days required)",
               snd (HistoricalRateService.getRateHistory
                      (Convenience.ensureService exchangerateHostApi None service)
                      {| HistoricalRateService.from :=
                           Calendar.addDays (- days) (today w);
                         HistoricalRateService.to := today w;
                         HistoricalRateService.currency := to;
                         HistoricalRateService.baseCurrency := None |} w))).
  { intros Hlt.
    unfold MarketAnalyzer.analyzeMarket. cbn [snd Convenience.getRateHistory].
    unfold bind at 1 2 3. unfold HistoricalRateService.newDate.
    destruct (HistoricalRateService.getRateHistory _ _ w) as [history w1].
    cbn [fst snd] in *.
    destruct (Nat.ltb_spec (length history) 14); [reflexivity | lia]. }
  split; [exact Hshort|]. split; [|reflexivity].
  intros -> Hempty.
  assert (Hnothing :
            HistoricalRateService.getRateHistory
              (ProviderManager.defaultConfig exchangerateHostApi)
              {| HistoricalRateService.from := Calendar.addDays (- days) (today w);
                 HistoricalRateService.to := today w;
                 HistoricalRateService.currency := to;
                 HistoricalRateService.baseCurrency := None |} w
            = ([], w)).
  { apply getRateHistory_nothing; [reflexivity | assumption | |].
    - apply addDays_wellFormed, today_wellFormed.
    - apply today_wellFormed. }
  cbn [Convenience.ensureService] in Hshort. rewrite Hnothing in Hshort.
  apply Hshort. cbn. lia.
Qed.

End AnalyzeMarket.

(** The analysis of a month on a machine without a historical cache. *)
Lemma analyzeMarket_needs_fourteen_days_witness :
  snd (MarketAnalyzer.analyzeMarket Scenario.offlineApi "USD" "EUR" 30 None)
    ArchiveScenario.empty
  = (Throw "Insufficient data for analysis (minimum 14 days required)",
     ArchiveScenario.empty).
Proof.
  destruct (analyzeMarket_needs_fourteen_days Scenario.offlineApi "USD" "EUR" 30%Z None
              ArchiveScenario.empty) as (_ & _ & Hempty & _).
  apply Hempty; reflexivity.
Defined.

(** The zigzag series in binary64: eight rises and six falls, of one each,
    give an index of 50, the average being taken over the rises and over
    the falls; the rates lie between 1 and 3; fewer than thirty rates make
    the thirty-day averages fall back on the last rate. *)
Lemma indicators_binary64 :
  MarketAnalyzer.calculateRSI AnalysisScenario.zigzag 14 = 50%float
  /\ MarketAnalyzer.calculateSupport AnalysisScenario.zigzag = 1%float
  /\ MarketAnalyzer.calculateResistance AnalysisScenario.zigzag = 3%float
  /\ MarketAnalyzer.calculateTrend AnalysisScenario.zigzag = MarketAnalyzer.bullish
  /\ MarketAnalyzer.calculateSMA AnalysisScenario.zigzag [7; 30]
     = [1.7142857142857142; 3]%float
  /\ float_min 0 (-0) = (-0)%float
  /\ float_max (-0) 0 = 0%float
  /\ float_min PrimFloat.nan 1 = PrimFloat.nan.
Proof. repeat split; vm_compute; reflexivity. Qed.
